(** * Session and authentication-flow manager of the Authing front end

    A shallow embedding of

    - [frontend/src/types/api.ts]      (the wire types),
    - [frontend/src/services/api.ts]   (transport and the 401 refresh-and-retry pipeline),
    - the module imported as [@/services/auth] (the endpoint table [authService]),
    - [frontend/src/stores/auth.ts]    (the zustand session store),
    - the component [QRLoginPage]      (the scan-to-login poller),

    followed by the properties the specification states about them.

    Modelling conventions.

    - The browser ([localStorage], [window.location], the interval timers, the
      router) and the two stores of React/zustand state form one explicit
      [Machine]; every source function is a computation in the state-and-
      exception monad [M] over it.
    - [fetch] is the only source of non-determinism.  What the network answers
      is passed to the function that awaits it, as a [Fetched] value; a
      theorem that quantifies over these values speaks about every server.
      Each request handed to [fetch] is appended to the [network] log.
    - Response bodies of successful exchanges have the TypeScript type the
      source declares for them; bodies of failed exchanges are untyped.
    - The [persist] middleware of the store writes, at every [set], the
      part of the session state that [partialize] selects to the entry
      [auth-storage] of [localStorage].  The browser keeps that entry as
      JSON text; the machine keeps it parsed, in a field of its own, as it
      keeps the bodies of requests.
    - [console.error] and the rendering of the pages are left out; nothing
      modelled reads them.
    - An [async] function runs from one [await] to the next without
      interleaving.  Where the source drops a promise without awaiting it
      ([logout]) or where an event may land between the two halves
      ([createQR]) the function is split in a [_begin] and a [_resume] half. *)

From Stdlib Require Import ZArith String List Bool Lia.
From stdpp Require Import base option gmap strings.

Open Scope string_scope.
Open Scope Z_scope.

(* ================================================================== *)
(** * Wire types ([types/api.ts]) *)
(* ================================================================== *)

Module Types.

Inductive UserStatus := active | blocked | pending_user.

Record UserResponse := {
  id : Z;
  user_pool_id : Z;
  username : option string;
  email : option string;
  phone : option string;
  nickname : option string;
  avatar_url : option string;
  profile_data : option string;
  email_verified : bool;
  phone_verified : bool;
  user_status : UserStatus;
  last_login_at : option string;
  created_at : string;
  updated_at : string;
}.

Record ApiResponse (T : Type) := {
  code : Z;
  message : string;
  data : T;
  timestamp : string;
}.
Arguments code {T} _.
Arguments message {T} _.
Arguments data {T} _.
Arguments timestamp {T} _.

Record LoginRequest := {
  lr_identifier : string;
  lr_password : string;
  lr_user_pool_id : Z;
}.

Record RegisterRequest := {
  rr_username : string;
  rr_password : string;
  rr_email : option string;
  rr_phone : option string;
  rr_nickname : option string;
  rr_user_pool_id : Z;
}.

Record TokenResponse := {
  access_token : string;
  refresh_token : string;
  token_type : string;
  expires_in : Z;
  token_user : UserResponse;
}.

(** The payload [handleAuthError] declares for the refresh endpoint:
    [{ access_token: string; refresh_token: string }]. *)
Record RefreshData := {
  new_access_token : string;
  new_refresh_token : string;
}.

Record QRLoginCreateResponse := {
  scene_id : string;
  qr_url : string;
  expires_at : string;
}.

(** ['pending' | 'scanned' | 'confirmed' | 'expired' | 'cancelled'] *)
Inductive QRServerStatus := s_pending | s_scanned | s_confirmed | s_expired | s_cancelled.

Record QRLoginStatusResponse := {
  qr_status : QRServerStatus;
  qr_user : option UserResponse;
  qr_token : option TokenResponse;
}.

End Types.
Import Types.

(* ================================================================== *)
(** * JavaScript values the code inspects *)
(* ================================================================== *)

Module Js.

(** A JSON value as far as the source looks into it: a scalar or a flat
    object.  [JSON.stringify] and [String(_)] are left unapplied. *)
Inductive Scalar := JStr (s : string) | JNum (n : Z) | JBool (b : bool).

Definition Obj := list (string * Scalar).

(** The body of a response that was not [ok]: parsed JSON (of which the
    code reads [message] only) or raw text. *)
Inductive AnyBody :=
| JsonBody (message : option string) (rest : string)
| TextBody (text : string).

Inductive ErrMessage :=
| ServerMessage (m : string)
| StatusLine (status : Z) (statusText : string).

(** The errors that can travel through the modelled code. *)
Inductive JsError :=
| HttpError (message : ErrMessage) (status : Z) (response_data : AnyBody)
| TimeoutError
| NetworkError (reason : string)
| SyntaxError
| AuthFailedError
| NoRefreshTokenError.

(** [error.status], [undefined] on errors that never got one. *)
Definition error_status (e : JsError) : option Z :=
  match e with
  | HttpError _ st _ => Some st
  | _ => None
  end.

(** [error.response?.data] *)
Definition error_body (e : JsError) : option AnyBody :=
  match e with
  | HttpError _ _ d => Some d
  | _ => None
  end.

(** Truthiness of a [string | null]. *)
Definition truthy (v : option string) : bool :=
  match v with
  | Some s => negb (String.eqb s "")
  | None => false
  end.

(** [hay.includes(needle)] *)
Fixpoint includes (hay needle : string) : bool :=
  if String.prefix needle hay then true
  else match hay with
       | EmptyString => false
       | String _ rest => includes rest needle
       end.

End Js.
Import Js.

(* ================================================================== *)
(** * The machine: browser, session store, page state *)
(* ================================================================== *)

Module State.

(** What [buildUrl] produces.  The resolution of [endpoint] against
    [API_CONFIG.baseURL] is not looked into. *)
Record Url := {
  endpoint : string;
  query : list (string * Scalar);
}.

(** The arguments of one [fetch] call. *)
Record Request := {
  method : string;
  url : Url;
  headers : gmap string string;
  body : option Obj;
}.

(** [AuthState] of [stores/auth.ts], its data fields. *)
Record AuthState := {
  user : option UserResponse;
  accessToken : option string;
  refreshToken : option string;
  isAuthenticated : bool;
  isLoading : bool;
}.

(** [QRStatus] of the QR page: the server's five values and ['loading']. *)
Inductive QRStatus := pending | scanned | confirmed | expired | cancelled | loading.

(** The [useState]/[useRef] cells of [QRLoginPage]. *)
Record QRPage := {
  qrData : option QRLoginCreateResponse;
  status : QRStatus;
  isCreating : bool;
  intervalRef : option positive;
}.

(** A live [setInterval] registration of the page: the [sceneId] its
    callback closes over, and its delay in milliseconds. *)
Record Interval := {
  iv_sceneId : string;
  iv_delay : Z;
}.

(** What [partialize] keeps of the session state: the value of the entry
    [auth-storage] that the [persist] middleware writes. *)
Record Persisted := {
  saved_user : option UserResponse;
  saved_accessToken : option string;
  saved_refreshToken : option string;
  saved_isAuthenticated : bool;
}.

Record Machine := {
  localStorage : gmap string string;     (* the entries the code reads and writes itself *)
  auth_storage : option Persisted;       (* the entry 'auth-storage', parsed; None: never written *)
  location_href : string;
  network : list Request;          (* requests handed to fetch, oldest first *)
  intervals : gmap positive Interval;
  next_handle : positive;          (* the handle the next setInterval returns *)
  navigation : list string;        (* arguments of navigate(), oldest first *)
  store : AuthState;
  page : QRPage;
}.

Definition with_localStorage (f : gmap string string -> gmap string string) (m : Machine) : Machine :=
  {| localStorage := f (localStorage m); auth_storage := auth_storage m;
     location_href := location_href m;
     network := network m; intervals := intervals m; next_handle := next_handle m;
     navigation := navigation m; store := store m; page := page m |}.

Definition with_auth_storage (v : option Persisted) (m : Machine) : Machine :=
  {| localStorage := localStorage m; auth_storage := v;
     location_href := location_href m;
     network := network m; intervals := intervals m; next_handle := next_handle m;
     navigation := navigation m; store := store m; page := page m |}.

Definition with_location_href (h : string) (m : Machine) : Machine :=
  {| localStorage := localStorage m; auth_storage := auth_storage m; location_href := h;
     network := network m; intervals := intervals m; next_handle := next_handle m;
     navigation := navigation m; store := store m; page := page m |}.

Definition with_network (f : list Request -> list Request) (m : Machine) : Machine :=
  {| localStorage := localStorage m; auth_storage := auth_storage m;
     location_href := location_href m;
     network := f (network m); intervals := intervals m; next_handle := next_handle m;
     navigation := navigation m; store := store m; page := page m |}.

Definition with_intervals (f : gmap positive Interval -> gmap positive Interval) (m : Machine) : Machine :=
  {| localStorage := localStorage m; auth_storage := auth_storage m;
     location_href := location_href m;
     network := network m; intervals := f (intervals m); next_handle := next_handle m;
     navigation := navigation m; store := store m; page := page m |}.

Definition with_next_handle (h : positive) (m : Machine) : Machine :=
  {| localStorage := localStorage m; auth_storage := auth_storage m;
     location_href := location_href m;
     network := network m; intervals := intervals m; next_handle := h;
     navigation := navigation m; store := store m; page := page m |}.

Definition with_navigation (f : list string -> list string) (m : Machine) : Machine :=
  {| localStorage := localStorage m; auth_storage := auth_storage m;
     location_href := location_href m;
     network := network m; intervals := intervals m; next_handle := next_handle m;
     navigation := f (navigation m); store := store m; page := page m |}.

Definition with_store (f : AuthState -> AuthState) (m : Machine) : Machine :=
  {| localStorage := localStorage m; auth_storage := auth_storage m;
     location_href := location_href m;
     network := network m; intervals := intervals m; next_handle := next_handle m;
     navigation := navigation m; store := f (store m); page := page m |}.

Definition with_page (f : QRPage -> QRPage) (m : Machine) : Machine :=
  {| localStorage := localStorage m; auth_storage := auth_storage m;
     location_href := location_href m;
     network := network m; intervals := intervals m; next_handle := next_handle m;
     navigation := navigation m; store := store m; page := f (page m) |}.

End State.
Import State.

(* ================================================================== *)
(** * The monad of effects: state and exceptions *)
(* ================================================================== *)

Module Eff.

Inductive Outcome (A : Type) :=
| Returned (a : A)
| Thrown (e : JsError).
Arguments Returned {A} a.
Arguments Thrown {A} e.

Definition M (A : Type) : Type := Machine -> Outcome A * Machine.

Definition ret {A} (a : A) : M A := fun m => (Returned a, m).

Definition throw {A} (e : JsError) : M A := fun m => (Thrown e, m).

Definition bind {A B} (c : M A) (k : A -> M B) : M B :=
  fun m =>
    match c m with
    | (Returned a, m') => k a m'
    | (Thrown e, m') => (Thrown e, m')
    end.

(** [try { body } catch (e) { handler e }] *)
Definition try_catch {A} (body : M A) (handler : JsError -> M A) : M A :=
  fun m =>
    match body m with
    | (Returned a, m') => (Returned a, m')
    | (Thrown e, m') => handler e m'
    end.

(** [try { body } finally { fin }]: [fin] runs in both cases and the
    outcome of [body] stands, unless [fin] throws itself. *)
Definition try_finally {A} (body : M A) (fin : M unit) : M A :=
  fun m =>
    match body m with
    | (r, m') =>
        match fin m' with
        | (Returned _, m'') => (r, m'')
        | (Thrown e, m'') => (Thrown e, m'')
        end
    end.

(** A promise nobody awaits: its effects happen, its outcome, also a
    rejection, is dropped. *)
Definition detached {A} (c : M A) : M unit :=
  fun m => (Returned tt, snd (c m)).

Definition get : M Machine := fun m => (Returned m, m).
Definition modify (f : Machine -> Machine) : M unit := fun m => (Returned tt, f m).

Definition exec {A} (c : M A) (m : Machine) : Machine := snd (c m).
Definition eval {A} (c : M A) (m : Machine) : Outcome A := fst (c m).

End Eff.
Import Eff.

Declare Scope eff_scope.
Delimit Scope eff_scope with eff.
Notation "x <- c ;; k" := (bind c (fun x => k))
  (at level 100, c at next level, right associativity) : eff_scope.
Notation "c ;; k" := (bind c (fun _ => k))
  (at level 100, right associativity) : eff_scope.
Open Scope eff_scope.

(* ================================================================== *)
(** * Transport and the authenticated pipeline ([services/api.ts]) *)
(* ================================================================== *)

Module Api.

(** [API_CONFIG.timeout] *)
Definition API_CONFIG_timeout : Z := 10000.

(** [API_CONFIG.headers] *)
Definition API_CONFIG_headers : gmap string string :=
  {[ "Content-Type" := "application/json" ]}.

(** A [Response] as [handleResponse] sees it: [ok] with a body of the
    declared type, not [ok] with whatever the server sent, or a body
    announced as JSON on which [response.json()] rejects. *)
Inductive Response (T : Type) :=
| Ok (status : Z) (data : T)
| NotOk (status : Z) (statusText : string) (data : AnyBody)
| Unparsable (status : Z).
Arguments Ok {T} status data.
Arguments NotOk {T} status statusText data.
Arguments Unparsable {T} status.

(** How the race of [fetchWithTimeout] ends. *)
Inductive Fetched (T : Type) :=
| Resolved (r : Response T)
| TimedOut
| Rejected (reason : string).
Arguments Resolved {T} r.
Arguments TimedOut {T}.
Arguments Rejected {T} reason.

(** The answers to the (at most three) exchanges of one pipeline call. *)
Record Exchanges (T : Type) := {
  first : Fetched T;
  refresh : Fetched (ApiResponse RefreshData);
  retry : Fetched T;
}.
Arguments first {T} _.
Arguments refresh {T} _.
Arguments retry {T} _.

Record Options := {
  opt_data : option Obj;
  opt_params : option (list (string * option Scalar));
  opt_headers : option (gmap string string);
}.

Definition no_options : Options :=
  {| opt_data := None; opt_params := None; opt_headers := None |}.

Definition getItem (key : string) : M (option string) :=
  m <- get ;; ret (localStorage m !! key).

Definition setItem (key value : string) : M unit :=
  modify (with_localStorage (insert key value)).

Definition removeItem (key : string) : M unit :=
  modify (with_localStorage (delete key)).

(** [fetch(url, options)]: the request leaves the browser. *)
Definition send (req : Request) : M unit :=
  modify (with_network (fun log => (log ++ [req])%list)).

(** The race between the response and the [timeout] timer, decided. *)
Definition settle {T} (answer : Fetched T) : M (Response T) :=
  match answer with
  | Resolved r => ret r
  | TimedOut => throw TimeoutError
  | Rejected reason => throw (NetworkError reason)
  end.

Definition fetchWithTimeout {T} (answer : Fetched T) (req : Request) : M (Response T) :=
  send req ;; settle answer.

Definition buildUrl (endpoint : string) (params : option (list (string * option Scalar))) : Url :=
  {| endpoint := endpoint;
     query := match params with
              | Some ps =>
                  flat_map (fun kv => match snd kv with
                                      | Some v => [(fst kv, v)]
                                      | None => []
                                      end) ps
              | None => []
              end |}.

Definition createHeaders (additionalHeaders : option (gmap string string)) : M (gmap string string) :=
  token <- getItem "access_token" ;;
  let headers :=
    if truthy token
    then <[ "Authorization" := "Bearer " ++ default "" token ]> API_CONFIG_headers
    else API_CONFIG_headers in
  ret (default ∅ additionalHeaders ∪ headers).

(** [data?.message || `HTTP ${status}: ${statusText}`] *)
Definition error_message (data : AnyBody) (status : Z) (statusText : string) : ErrMessage :=
  match data with
  | JsonBody (Some m) _ => if String.eqb m "" then StatusLine status statusText else ServerMessage m
  | _ => StatusLine status statusText
  end.

Definition handleResponse {T} (response : Response T) : M T :=
  match response with
  | Unparsable _ => throw SyntaxError
  | NotOk status statusText data =>
      throw (HttpError (error_message data status statusText) status data)
  | Ok _ data => ret data
  end.

Definition is_auth_url (url : string) : bool :=
  includes url "/auth/login" || includes url "/auth/refresh".

Definition handleAuthError {T} (originalRequest : M T) (url : string)
    (refresh_answer : Fetched (ApiResponse RefreshData)) : M T :=
  if is_auth_url url then throw AuthFailedError
  else
    try_catch
      (refreshToken <- getItem "refresh_token" ;;
       if negb (truthy refreshToken) then throw NoRefreshTokenError
       else
         h <- createHeaders None ;;
         refreshResponse <-
           fetchWithTimeout refresh_answer
             {| method := "POST";
                url := buildUrl "/api/v1/auth/refresh" None;
                headers := h;
                body := Some [("refresh_token", JStr (default "" refreshToken))] |} ;;
         refreshData <- handleResponse refreshResponse ;;
         setItem "access_token" (new_access_token (data refreshData)) ;;
         setItem "refresh_token" (new_refresh_token (data refreshData)) ;;
         originalRequest)
      (fun refreshError =>
         removeItem "access_token" ;;
         removeItem "refresh_token" ;;
         modify (with_location_href "/auth/login") ;;
         throw refreshError).

Definition carries_body (method : string) : bool :=
  String.eqb method "POST" || String.eqb method "PUT" || String.eqb method "PATCH".

(** [makeRequest] up to the call of [fetch]. *)
Definition prepare (method endpoint : string) (options : Options) : M Request :=
  h <- createHeaders (opt_headers options) ;;
  ret {| method := method;
         url := buildUrl endpoint (opt_params options);
         headers := h;
         body := if carries_body method then opt_data options else None |}.

Definition makeRequest {T} (method endpoint : string) (options : Options)
    (answer : Fetched T) : M T :=
  req <- prepare method endpoint options ;;
  response <- fetchWithTimeout answer req ;;
  handleResponse response.

Definition request {T} (method endpoint : string) (options : Options)
    (net : Exchanges T) : M T :=
  try_catch
    (makeRequest method endpoint options (first net))
    (fun error =>
       if decide (error_status error = Some 401)
       then handleAuthError (makeRequest method endpoint options (retry net))
                            endpoint (refresh net)
       else throw error).

(** [request] cut at its first [await]: the part that runs when the
    function is called ... *)
Definition request_begin (method endpoint : string) (options : Options) : M unit :=
  req <- prepare method endpoint options ;;
  send req.

(** ... and the part that runs once the response is there. *)
Definition request_resume {T} (method endpoint : string) (options : Options)
    (net : Exchanges T) : M T :=
  try_catch
    (response <- settle (first net) ;; handleResponse response)
    (fun error =>
       if decide (error_status error = Some 401)
       then handleAuthError (makeRequest method endpoint options (retry net))
                            endpoint (refresh net)
       else throw error).

(** [apiRequest] *)
Definition apiRequest_get {T} (url : string) (params : option (list (string * option Scalar)))
    (net : Exchanges (ApiResponse T)) : M (ApiResponse T) :=
  request "GET" url {| opt_data := None; opt_params := params; opt_headers := None |} net.

Definition apiRequest_post {T} (url : string) (data : option Obj)
    (net : Exchanges (ApiResponse T)) : M (ApiResponse T) :=
  request "POST" url {| opt_data := data; opt_params := None; opt_headers := None |} net.

Definition apiRequest_put {T} (url : string) (data : option Obj)
    (net : Exchanges (ApiResponse T)) : M (ApiResponse T) :=
  request "PUT" url {| opt_data := data; opt_params := None; opt_headers := None |} net.

Definition apiRequest_delete {T} (url : string)
    (net : Exchanges (ApiResponse T)) : M (ApiResponse T) :=
  request "DELETE" url no_options net.

End Api.
Import Api.

(* ================================================================== *)
(** * The endpoint table ([authService]) *)
(* ================================================================== *)

Module AuthService.

(** Fields whose value is [undefined] are dropped by [JSON.stringify]. *)
Definition optional (key : string) (v : option string) : Obj :=
  match v with
  | Some s => [(key, JStr s)]
  | None => []
  end.

Definition LoginRequest_obj (d : LoginRequest) : Obj :=
  [ ("identifier", JStr (lr_identifier d));
    ("password", JStr (lr_password d));
    ("user_pool_id", JNum (lr_user_pool_id d)) ].

Definition RegisterRequest_obj (d : RegisterRequest) : Obj :=
  ([ ("username", JStr (rr_username d)); ("password", JStr (rr_password d)) ]
     ++ optional "email" (rr_email d)
     ++ optional "phone" (rr_phone d)
     ++ optional "nickname" (rr_nickname d)
     ++ [ ("user_pool_id", JNum (rr_user_pool_id d)) ])%list.

Definition login (d : LoginRequest) (net : Exchanges (ApiResponse TokenResponse))
  : M (ApiResponse TokenResponse) :=
  apiRequest_post "/api/v1/auth/login" (Some (LoginRequest_obj d)) net.

Definition register (d : RegisterRequest) (net : Exchanges (ApiResponse TokenResponse))
  : M (ApiResponse TokenResponse) :=
  apiRequest_post "/api/v1/auth/register" (Some (RegisterRequest_obj d)) net.

Definition logout (net : Exchanges (ApiResponse bool)) : M (ApiResponse bool) :=
  apiRequest_post "/api/v1/auth/logout" None net.

Definition createQRLogin (user_pool_id : Z) (app_id : string)
    (net : Exchanges (ApiResponse QRLoginCreateResponse)) : M (ApiResponse QRLoginCreateResponse) :=
  apiRequest_get "/api/v1/auth/qr/create"
    (Some [ ("user_pool_id", Some (JNum user_pool_id)); ("app_id", Some (JStr app_id)) ]) net.

Definition getQRLoginStatus (scene_id : string)
    (net : Exchanges (ApiResponse QRLoginStatusResponse)) : M (ApiResponse QRLoginStatusResponse) :=
  apiRequest_get ("/api/v1/auth/qr/" ++ scene_id ++ "/status") None net.

Definition getCurrentUser (net : Exchanges (ApiResponse UserResponse)) : M (ApiResponse UserResponse) :=
  apiRequest_get "/api/v1/users/me" None net.

(** The two calls whose callers do not wait for them, cut at the [await]
    inside [request]. *)
Definition logout_begin : M unit :=
  request_begin "POST" "/api/v1/auth/logout" no_options.

Definition logout_resume (net : Exchanges (ApiResponse bool)) : M (ApiResponse bool) :=
  request_resume "POST" "/api/v1/auth/logout" no_options net.

Definition createQRLogin_options (user_pool_id : Z) (app_id : string) : Options :=
  {| opt_data := None;
     opt_params := Some [ ("user_pool_id", Some (JNum user_pool_id)); ("app_id", Some (JStr app_id)) ];
     opt_headers := None |}.

Definition createQRLogin_begin (user_pool_id : Z) (app_id : string) : M unit :=
  request_begin "GET" "/api/v1/auth/qr/create" (createQRLogin_options user_pool_id app_id).

Definition createQRLogin_resume (user_pool_id : Z) (app_id : string)
    (net : Exchanges (ApiResponse QRLoginCreateResponse)) : M (ApiResponse QRLoginCreateResponse) :=
  request_resume "GET" "/api/v1/auth/qr/create" (createQRLogin_options user_pool_id app_id) net.

End AuthService.

(* ================================================================== *)
(** * The session store ([stores/auth.ts]) *)
(* ================================================================== *)

Module AuthStore.

(** The initial state of the store, also what [logout] and [clearAuth]
    put back. *)
Definition anonymous : AuthState :=
  {| user := None; accessToken := None; refreshToken := None;
     isAuthenticated := false; isLoading := false |}.

(** [partialize] of the [persist] options. *)
Definition partialize (s : AuthState) : Persisted :=
  {| saved_user := user s;
     saved_accessToken := accessToken s;
     saved_refreshToken := refreshToken s;
     saved_isAuthenticated := isAuthenticated s |}.

(** zustand's [set] under [persist]: the state is updated, then the
    middleware writes [partialize] of the new state to [auth-storage]. *)
Definition set_state (f : AuthState -> AuthState) : M unit :=
  modify (fun m =>
    with_auth_storage (Some (partialize (f (store m)))) (with_store f m)).

(** [set(partial)] for the partial objects the store uses. *)
Definition set_isLoading (b : bool) : M unit :=
  set_state (fun s =>
    {| user := user s; accessToken := accessToken s; refreshToken := refreshToken s;
       isAuthenticated := isAuthenticated s; isLoading := b |}).

Definition set_user (u : option UserResponse) : M unit :=
  set_state (fun s =>
    {| user := u; accessToken := accessToken s; refreshToken := refreshToken s;
       isAuthenticated := isAuthenticated s; isLoading := isLoading s |}).

Definition set_session (u : option UserResponse) (a r : string) : M unit :=
  set_state (fun s =>
    {| user := u; accessToken := Some a; refreshToken := Some r;
       isAuthenticated := true; isLoading := isLoading s |}).

Definition set_all (s : AuthState) : M unit :=
  set_state (fun _ => s).

(** The success branch shared by [login] and [register]. *)
Definition adopt_response (response : ApiResponse TokenResponse) : M unit :=
  let d := data response in
  setItem "access_token" (access_token d) ;;
  setItem "refresh_token" (refresh_token d) ;;
  set_all {| user := Some (token_user d);
             accessToken := Some (access_token d);
             refreshToken := Some (refresh_token d);
             isAuthenticated := true;
             isLoading := false |}.

Definition login (identifier password : string) (userPoolId : Z)
    (net : Exchanges (ApiResponse TokenResponse)) : M unit :=
  try_catch
    (set_isLoading true ;;
     response <- AuthService.login
                   {| lr_identifier := identifier; lr_password := password;
                      lr_user_pool_id := userPoolId |} net ;;
     adopt_response response)
    (fun error => set_isLoading false ;; throw error).

(** [userData] of [register] has the fields of [RegisterRequest] under
    camel-case names. *)
Definition register (userData : RegisterRequest)
    (net : Exchanges (ApiResponse TokenResponse)) : M unit :=
  try_catch
    (set_isLoading true ;;
     response <- AuthService.register
                   {| rr_username := rr_username userData; rr_password := rr_password userData;
                      rr_email := rr_email userData; rr_phone := rr_phone userData;
                      rr_nickname := rr_nickname userData;
                      rr_user_pool_id := rr_user_pool_id userData |} net ;;
     adopt_response response)
    (fun error => set_isLoading false ;; throw error).

(** The [try]/[catch]/[finally] of [logout] around the service call: the
    [catch] block only logs, the [finally] block clears. *)
Definition logout_around (call : M unit) : M unit :=
  try_finally
    (try_catch call (fun error => ret tt))
    (removeItem "access_token" ;;
     removeItem "refresh_token" ;;
     set_all anonymous).

(** [logout] as far as it runs when called: [authService.logout()] is
    started and not awaited. *)
Definition logout : M unit :=
  logout_around AuthService.logout_begin.

(** [logout] followed by the rest of the dropped logout call, once the
    server has answered it. *)
Definition logout_settled (net : Exchanges (ApiResponse bool)) : M unit :=
  logout ;;
  detached (AuthService.logout_resume net).

(** [tokens.user] is declared a [UserResponse]; the QR page passes
    [user!], which is [undefined] when the server sent none. *)
Definition setTokens (access_token refresh_token : string) (user : option UserResponse) : M unit :=
  setItem "access_token" access_token ;;
  setItem "refresh_token" refresh_token ;;
  set_session user access_token refresh_token.

Definition clearAuth : M unit :=
  removeItem "access_token" ;;
  removeItem "refresh_token" ;;
  set_all anonymous.

Definition refreshUserInfo (net : Exchanges (ApiResponse UserResponse)) : M unit :=
  try_catch
    (response <- AuthService.getCurrentUser net ;;
     set_user (Some (data response)))
    (fun error => clearAuth).

Definition setLoading (loading : bool) : M unit :=
  set_isLoading loading.

End AuthStore.

(* ================================================================== *)
(** * The scan-to-login poller ([QRLoginPage]) *)
(* ================================================================== *)

Module QRLogin.

#[global] Instance QRStatus_eq_dec : EqDecision QRStatus.
Proof. solve_decision. Defined.

(** The page stores the server's status as it comes. *)
Definition of_server (s : QRServerStatus) : QRStatus :=
  match s with
  | s_pending => pending
  | s_scanned => scanned
  | s_confirmed => confirmed
  | s_expired => expired
  | s_cancelled => cancelled
  end.

(** [appId] of the page. *)
Definition appId : string := "default-app".

(** The delay [startPolling] passes to [setInterval]. *)
Definition poll_delay : Z := 2000.

Definition setQrData (d : option QRLoginCreateResponse) : M unit :=
  modify (with_page (fun p =>
    {| qrData := d; status := status p; isCreating := isCreating p;
       intervalRef := intervalRef p |})).

Definition setStatus (s : QRStatus) : M unit :=
  modify (with_page (fun p =>
    {| qrData := qrData p; status := s; isCreating := isCreating p;
       intervalRef := intervalRef p |})).

Definition setIsCreating (b : bool) : M unit :=
  modify (with_page (fun p =>
    {| qrData := qrData p; status := status p; isCreating := b;
       intervalRef := intervalRef p |})).

(** [intervalRef.current = h] *)
Definition set_intervalRef (h : option positive) : M unit :=
  modify (with_page (fun p =>
    {| qrData := qrData p; status := status p; isCreating := isCreating p;
       intervalRef := h |})).

Definition navigate (path : string) : M unit :=
  modify (with_navigation (fun l => (l ++ [path])%list)).

(** [setInterval(callback, delay)], for the one callback of the page,
    which is determined by the [sceneId] it closes over.  Handles are
    positive, so a handle is truthy exactly when it is not [null]. *)
Definition setInterval (sceneId : string) (delay : Z) : M positive :=
  m <- get ;;
  let h := next_handle m in
  modify (with_intervals (insert h {| iv_sceneId := sceneId; iv_delay := delay |})) ;;
  modify (with_next_handle (Pos.succ h)) ;;
  ret h.

Definition clearInterval (h : positive) : M unit :=
  modify (with_intervals (delete h)).

Definition stopPolling : M unit :=
  m <- get ;;
  match intervalRef (page m) with
  | Some h => clearInterval h ;; set_intervalRef None
  | None => ret tt
  end.

(** The callback [startPolling] registers: one status query and what
    follows from its answer.  [qrStatus === 'confirmed' && token] is
    [token] when the status is confirmed and falsy otherwise. *)
Definition poll (sceneId : string) (net : Exchanges (ApiResponse QRLoginStatusResponse)) : M unit :=
  try_catch
    (response <- AuthService.getQRLoginStatus sceneId net ;;
     let qrStatus := of_server (qr_status (data response)) in
     let user := qr_user (data response) in
     let token := qr_token (data response) in
     setStatus qrStatus ;;
     match (if decide (qrStatus = confirmed) then token else None) with
     | Some token =>
         AuthStore.setTokens (access_token token) (refresh_token token) user ;;
         stopPolling ;;
         navigate "/dashboard"
     | None =>
         if decide (qrStatus = expired \/ qrStatus = cancelled)
         then stopPolling
         else ret tt
     end)
    (fun error => stopPolling ;; setStatus expired).

Definition startPolling (sceneId : string) : M unit :=
  m <- get ;;
  match intervalRef (page m) with
  | Some h => clearInterval h
  | None => ret tt
  end ;;
  h <- setInterval sceneId poll_delay ;;
  set_intervalRef (Some h).

(** What [createQR] does with the answer of the creation call. *)
Definition createQR_resume (userPoolId : Z)
    (net : Exchanges (ApiResponse QRLoginCreateResponse)) : M unit :=
  try_finally
    (try_catch
       (response <- AuthService.createQRLogin_resume userPoolId appId net ;;
        setQrData (Some (data response)) ;;
        setStatus pending ;;
        startPolling (scene_id (data response)))
       (fun error => setStatus expired))
    (setIsCreating false).

(** [createQR] when called: up to the [await] of the creation call. *)
Definition createQR_begin (userPoolId : Z) : M unit :=
  setIsCreating true ;;
  AuthService.createQRLogin_begin userPoolId appId.

Definition createQR (userPoolId : Z)
    (net : Exchanges (ApiResponse QRLoginCreateResponse)) : M unit :=
  try_finally
    (try_catch
       (setIsCreating true ;;
        response <- AuthService.createQRLogin userPoolId appId net ;;
        setQrData (Some (data response)) ;;
        setStatus pending ;;
        startPolling (scene_id (data response)))
       (fun error => setStatus expired))
    (setIsCreating false).

Definition refreshQR (userPoolId : Z)
    (net : Exchanges (ApiResponse QRLoginCreateResponse)) : M unit :=
  stopPolling ;;
  setQrData None ;;
  setStatus loading ;;
  createQR userPoolId net.

(** The clean-up function the mount effect returns. *)
Definition unmount : M unit := stopPolling.

(** The browser's clock reaches the next due time of handle [h]: the
    callback runs if the registration is still live, and not otherwise. *)
Definition fire (h : positive) (net : Exchanges (ApiResponse QRLoginStatusResponse)) : M unit :=
  m <- get ;;
  match intervals m !! h with
  | Some iv => poll (iv_sceneId iv) net
  | None => ret tt
  end.

(** Any number of clock events, for any handles, each with its own
    answers from the network. *)
Fixpoint fire_all (events : list (positive * Exchanges (ApiResponse QRLoginStatusResponse)))
  : M unit :=
  match events with
  | [] => ret tt
  | (h, net) :: rest => fire h net ;; fire_all rest
  end.

End QRLogin.

(* ================================================================== *)
(** * Observations used by the properties *)
(* ================================================================== *)

Module Observe.

Definition REFRESH_ENDPOINT : string := "/api/v1/auth/refresh".

Definition is_refresh_call (r : Request) : bool :=
  String.eqb (endpoint (url r)) REFRESH_ENDPOINT.

(** How many requests went to the refresh endpoint so far. *)
Definition refresh_calls (m : Machine) : nat :=
  length (filter (fun r => is_refresh_call r = true) (network m)).

(** The request [makeRequest] builds in machine [m]. *)
Definition request_in (m : Machine) (method endpoint : string) (options : Options) : Request :=
  {| method := method;
     url := buildUrl endpoint (opt_params options);
     headers := default ∅ (opt_headers options) ∪
                (if truthy (localStorage m !! "access_token")
                 then <[ "Authorization" := "Bearer " ++ default "" (localStorage m !! "access_token") ]>
                        API_CONFIG_headers
                 else API_CONFIG_headers);
     body := if carries_body method then opt_data options else None |}.

(** What a single exchange yields once [handleResponse] has looked at it. *)
Definition yield {T} (answer : Fetched T) : Outcome T :=
  match answer with
  | Resolved (Ok _ d) => Returned d
  | Resolved (NotOk status statusText d) =>
      Thrown (HttpError (error_message d status statusText) status d)
  | Resolved (Unparsable _) => Thrown SyntaxError
  | TimedOut => Thrown TimeoutError
  | Rejected reason => Thrown (NetworkError reason)
  end.

(** The machine after the [catch] block of [handleAuthError]. *)
Definition wiped (m : Machine) : Machine :=
  with_location_href "/auth/login"
    (with_localStorage (delete "refresh_token")
       (with_localStorage (delete "access_token") m)).

(** The request [handleAuthError] sends to the refresh endpoint from [m]. *)
Definition refresh_request_in (m : Machine) : Request :=
  {| method := "POST";
     url := buildUrl REFRESH_ENDPOINT None;
     headers := headers (request_in m "POST" REFRESH_ENDPOINT no_options);
     body := Some [("refresh_token", JStr (default "" (localStorage m !! "refresh_token")))] |}.

(** The machine after a refresh call that returned the pair [rd]. *)
Definition refreshed (rd : ApiResponse RefreshData) (m : Machine) : Machine :=
  with_localStorage (insert "refresh_token" (new_refresh_token (data rd)))
    (with_localStorage (insert "access_token" (new_access_token (data rd)))
       (with_network (fun l => (l ++ [refresh_request_in m])%list) m)).

(** [m'] differs from [m] at most in what the pipeline may touch:
    [localStorage], [window.location] and the network log. *)
Definition pipeline_frame (m m' : Machine) : Prop :=
  store m' = store m /\ page m' = page m /\ intervals m' = intervals m
  /\ next_handle m' = next_handle m /\ navigation m' = navigation m.

(** The two credential keys are gone from [localStorage]. *)
Definition credentials_removed (m : Machine) : Prop :=
  localStorage m !! "access_token" = None /\ localStorage m !! "refresh_token" = None.

(** The invariant of the session state: an authenticated session has its
    identity and both tokens, and the tokens come and go together. *)
Definition session_inv (s : AuthState) : Prop :=
  (isAuthenticated s = true ->
     is_Some (user s) /\ is_Some (accessToken s) /\ is_Some (refreshToken s))
  /\ (is_Some (accessToken s) <-> is_Some (refreshToken s)).

(** The status query [poll] sends for [sceneId] from machine [m]. *)
Definition status_request_in (m : Machine) (sceneId : string) : Request :=
  request_in m "GET" ("/api/v1/auth/qr/" ++ sceneId ++ "/status")
    {| opt_data := None; opt_params := None; opt_headers := None |}.

(** No timer is live and the page holds no handle. *)
Definition polling_stopped (m : Machine) : Prop :=
  intervals m = ∅ /\ intervalRef (page m) = None.

(** The timer [h] is live with registration [iv], and it is the one the
    page holds. *)
Definition still_polling (h : positive) (iv : Interval) (m : Machine) : Prop :=
  intervals m !! h = Some iv /\ intervalRef (page m) = Some h.

(** Whatever clock events follow, nothing happens any more: no request
    is sent and no state changes. *)
Definition no_further_polls (m : Machine) : Prop :=
  forall events, QRLogin.fire_all events m = (Returned tt, m).

(** The session state after [setTokens] adopted [token] and [u] on top
    of the session state [s]. *)
Definition adopted (token : TokenResponse) (u : option UserResponse) (s : AuthState) : AuthState :=
  {| user := u;
     accessToken := Some (access_token token);
     refreshToken := Some (refresh_token token);
     isAuthenticated := true;
     isLoading := isLoading s |}.

(** The page holds exactly the live timers: none, or the one in
    [intervalRef]. *)
Definition timers_owned (m : Machine) : Prop :=
  forall h, is_Some (intervals m !! h) -> intervalRef (page m) = Some h.

End Observe.
Import Observe.

(* ================================================================== *)
(** * Concrete machines and answers, after the scenarios of the spec *)
(* ================================================================== *)

Module Scenario.

Definition alice : UserResponse :=
  {| id := 7; user_pool_id := 1; username := Some "alice"; email := None; phone := None;
     nickname := None; avatar_url := None; profile_data := None;
     email_verified := false; phone_verified := false; user_status := active;
     last_login_at := None; created_at := "2024-01-01"; updated_at := "2024-01-01" |}.

Definition fresh_page : QRPage :=
  {| qrData := None; status := loading; isCreating := false; intervalRef := None |}.

(** A browser that has just loaded the application, signed out. *)
Definition fresh : Machine :=
  {| localStorage := ∅; auth_storage := None;
     location_href := "/"; network := []; intervals := ∅;
     next_handle := 1%positive; navigation := [];
     store := AuthStore.anonymous; page := fresh_page |}.

(** The same browser with the session [{A1, R1}] of alice. *)
Definition signed_in : Machine :=
  {| localStorage := {[ "access_token" := "A1"; "refresh_token" := "R1" ]};
     auth_storage := Some {| saved_user := Some alice; saved_accessToken := Some "A1";
                             saved_refreshToken := Some "R1"; saved_isAuthenticated := true |};
     location_href := "/dashboard"; network := []; intervals := ∅;
     next_handle := 1%positive; navigation := [];
     store := {| user := Some alice; accessToken := Some "A1"; refreshToken := Some "R1";
                 isAuthenticated := true; isLoading := false |};
     page := fresh_page |}.

Definition envelope {T} (d : T) : ApiResponse T :=
  {| code := 200; message := "ok"; data := d; timestamp := "2024-01-01T00:00:00Z" |}.

Definition ok {T} (d : T) : Fetched (ApiResponse T) := Resolved (Ok 200 (envelope d)).

Definition unauthorized {T} : Fetched T :=
  Resolved (NotOk 401 "Unauthorized" (JsonBody (Some "invalid credentials") "{code:401}")).

Definition server_error {T} : Fetched T :=
  Resolved (NotOk 500 "Internal Server Error" (TextBody "oops")).

Definition renewed : Fetched (ApiResponse RefreshData) :=
  ok {| new_access_token := "A2"; new_refresh_token := "R2" |}.

(** One exchange only: the refresh and retry answers are never asked for. *)
Definition just {T} (answer : Fetched T) : Exchanges T :=
  {| first := answer; refresh := TimedOut; retry := TimedOut |}.

(** 401, a successful refresh, 401 again. *)
Definition twice_unauthorized {T} : Exchanges T :=
  {| first := unauthorized; refresh := renewed; retry := unauthorized |}.

Definition tokens (a r : string) : TokenResponse :=
  {| access_token := a; refresh_token := r; token_type := "bearer"; expires_in := 3600;
     token_user := alice |}.

Definition ceremony : QRLoginCreateResponse :=
  {| scene_id := "S1"; qr_url := "authing://qr/S1"; expires_at := "2024-01-01T00:02:00Z" |}.

Definition reports (s : QRServerStatus) (u : option UserResponse) (t : option TokenResponse)
  : Exchanges (ApiResponse QRLoginStatusResponse) :=
  just (ok {| qr_status := s; qr_user := u; qr_token := t |}).

Definition credentials : LoginRequest :=
  {| lr_identifier := "alice"; lr_password := "secret1"; lr_user_pool_id := 1 |}.

Definition profile : RegisterRequest :=
  {| rr_username := "alice"; rr_password := "secret1"; rr_email := None; rr_phone := None;
     rr_nickname := None; rr_user_pool_id := 1 |}.

(** The QR page after it was mounted on [fresh] and the ceremony [S1]
    was created: status [pending], timer 1 polling for [S1]. *)
Definition polling : Machine :=
  exec (QRLogin.createQR 1 (just (ok ceremony))) fresh.

Definition polling_S1 : Interval := {| iv_sceneId := "S1"; iv_delay := 2000 |}.

(** The polls of the spec's scenario: [pending], [scanned], then
    [confirmed] with the pair [{A2, R2}]. *)
Definition after_three_polls : Machine :=
  exec (QRLogin.fire 1 (reports s_confirmed (Some alice) (Some (tokens "A2" "R2"))))
    (exec (QRLogin.fire 1 (reports s_scanned None None))
       (exec (QRLogin.fire 1 (reports s_pending None None)) polling)).

(** The page is mounted on [fresh] and discarded -- its clean-up run,
    twice -- before the creation call has been answered. *)
Definition discarded_while_creating : Machine :=
  exec QRLogin.unmount (exec QRLogin.unmount (exec (QRLogin.createQR_begin 1) fresh)).

(** ... then the creation call is answered with the ceremony [S1] ... *)
Definition created_after_discard : Machine :=
  exec (QRLogin.createQR_resume 1 (just (ok ceremony))) discarded_while_creating.

(** ... and two seconds later the clock fires. *)
Definition polled_after_discard : Machine :=
  exec (QRLogin.fire 1 (reports s_pending None None)) created_after_discard.

End Scenario.

(* ================================================================== *)
(** * The pages around the session store *)
(* ================================================================== *)

(** What the pages show for a failure:
    [error?.response?.data?.message || fallback]. *)
Module Display.

(** [error?.response?.data?.message]: only an error built by
    [handleResponse] has a [response], and only a JSON body a [message]. *)
Definition response_message (error : JsError) : option string :=
  match error_body error with
  | Some (JsonBody (Some m) _) => Some m
  | _ => None
  end.

Definition message_or (error : JsError) (fallback : string) : string :=
  if truthy (response_message error)
  then default "" (response_message error)
  else fallback.

(** [value || undefined] on an optional text field of a form. *)
Definition or_undefined (value : option string) : option string :=
  if truthy value then value else None.

End Display.

(** The OTP endpoints of [authService]. *)
Module OtpService.

(** ['login' | 'register' | 'reset_password' | 'verify'] *)
Inductive OtpType := otp_login | otp_register | otp_reset_password | otp_verify.

Definition OtpType_text (t : OtpType) : string :=
  match t with
  | otp_login => "login"
  | otp_register => "register"
  | otp_reset_password => "reset_password"
  | otp_verify => "verify"
  end.

Record SendOTPRequest := {
  so_identifier : string;
  so_type : OtpType;
  so_user_pool_id : Z;
}.

Record OTPLoginRequest := {
  ol_identifier : string;
  ol_code : string;
  ol_type : OtpType;
  ol_user_pool_id : Z;
}.

Definition SendOTPRequest_obj (d : SendOTPRequest) : Obj :=
  [ ("identifier", JStr (so_identifier d));
    ("type", JStr (OtpType_text (so_type d)));
    ("user_pool_id", JNum (so_user_pool_id d)) ].

Definition OTPLoginRequest_obj (d : OTPLoginRequest) : Obj :=
  [ ("identifier", JStr (ol_identifier d));
    ("code", JStr (ol_code d));
    ("type", JStr (OtpType_text (ol_type d)));
    ("user_pool_id", JNum (ol_user_pool_id d)) ].

Definition sendOTP (d : SendOTPRequest) (net : Exchanges (ApiResponse bool))
  : M (ApiResponse bool) :=
  apiRequest_post "/api/v1/auth/otp/send" (Some (SendOTPRequest_obj d)) net.

Definition otpLogin (d : OTPLoginRequest) (net : Exchanges (ApiResponse TokenResponse))
  : M (ApiResponse TokenResponse) :=
  apiRequest_post "/api/v1/auth/otp/login" (Some (OTPLoginRequest_obj d)) net.

End OtpService.

(** [LoginPage]: the submit handler.  The form's [root] error is the
    value the handler returns: [None] when it sets none. *)
Module LoginPage.

Record LoginFormData := {
  identifier : string;
  password : string;
  userPoolId : Z;
}.

Definition fallback : string := "登录失败，请检查用户名和密码".

Definition onSubmit (data : LoginFormData) (net : Exchanges (ApiResponse TokenResponse))
  : M (option string) :=
  try_catch
    (AuthStore.login (identifier data) (password data) (userPoolId data) net ;;
     QRLogin.navigate "/dashboard" ;;
     ret None)
    (fun error => ret (Some (Display.message_or error fallback))).

End LoginPage.

(** [RegisterPage]: the submit handler, in the same way. *)
Module RegisterPage.

Record RegisterFormData := {
  username : string;
  email : option string;
  phone : option string;
  password : string;
  confirmPassword : string;
  nickname : option string;
  userPoolId : Z;
}.

Definition fallback : string := "注册失败，请稍后重试".

(** The argument [onSubmit] builds for the store's [register]. *)
Definition userData (data : RegisterFormData) : RegisterRequest :=
  {| rr_username := username data;
     rr_password := password data;
     rr_email := Display.or_undefined (email data);
     rr_phone := Display.or_undefined (phone data);
     rr_nickname := Display.or_undefined (nickname data);
     rr_user_pool_id := userPoolId data |}.

Definition onSubmit (data : RegisterFormData) (net : Exchanges (ApiResponse TokenResponse))
  : M (option string) :=
  try_catch
    (AuthStore.register (userData data) net ;;
     QRLogin.navigate "/dashboard" ;;
     ret None)
    (fun error => ret (Some (Display.message_or error fallback))).

End RegisterPage.

(** [OTPLoginPage].  Its [useState] cells are passed through the handlers
    explicitly; a handler returns the cells as it leaves them and the [root]
    error it sets on its form, if any. *)
Module OTPLoginPage.

Import OtpService.

Inductive Step := send_step | verify_step.

Record Cells := {
  step : Step;
  identifier : string;
  countdown : Z;
  isLoading : bool;
}.

(** The cells as [useState] initialises them. *)
Definition initial : Cells :=
  {| step := send_step; identifier := ""; countdown := 0; isLoading := false |}.

Definition setStep (s : Step) (c : Cells) : Cells :=
  {| step := s; identifier := identifier c; countdown := countdown c; isLoading := isLoading c |}.

Definition setIdentifier (i : string) (c : Cells) : Cells :=
  {| step := step c; identifier := i; countdown := countdown c; isLoading := isLoading c |}.

Definition setCountdown (n : Z) (c : Cells) : Cells :=
  {| step := step c; identifier := identifier c; countdown := n; isLoading := isLoading c |}.

Definition setIsLoading (b : bool) (c : Cells) : Cells :=
  {| step := step c; identifier := identifier c; countdown := countdown c; isLoading := b |}.

Definition send_fallback : string := "发送验证码失败，请稍后重试".
Definition verify_fallback : string := "验证码错误或已过期".
Definition resend_fallback : string := "重发验证码失败".

(** The countdown effect, one second after the last render: with
    [countdown > 0] its timer sets [countdown - 1]; otherwise none runs. *)
Definition second_passes (c : Cells) : Cells :=
  if 0 <? countdown c then setCountdown (countdown c - 1) c else c.

Fixpoint seconds_pass (n : nat) (c : Cells) : Cells :=
  match n with
  | O => c
  | S k => seconds_pass k (second_passes c)
  end.

(** [disabled] of the resend button. *)
Definition resend_disabled (c : Cells) : bool :=
  (0 <? countdown c) || isLoading c.

Definition onSendOTP (c : Cells) (form_identifier : string) (form_userPoolId : Z)
    (net : Exchanges (ApiResponse bool)) : M (Cells * option string) :=
  r <- try_catch
         (let c1 := setIsLoading true c in
          sendOTP {| so_identifier := form_identifier; so_type := otp_login;
                     so_user_pool_id := form_userPoolId |} net ;;
          ret (setCountdown 60 (setStep verify_step (setIdentifier form_identifier c1)), None))
         (fun error =>
            ret (setIsLoading true c, Some (Display.message_or error send_fallback))) ;;
  ret (setIsLoading false (fst r), snd r).

(** [defaultPool] is [parseInt(VITE_DEFAULT_USER_POOL_ID || '1')]. *)
Definition onVerifyOTP (defaultPool : Z) (c : Cells) (code : string)
    (net : Exchanges (ApiResponse TokenResponse)) : M (Cells * option string) :=
  r <- try_catch
         (let c1 := setIsLoading true c in
          response <- otpLogin {| ol_identifier := identifier c; ol_code := code;
                                  ol_type := otp_login; ol_user_pool_id := defaultPool |} net ;;
          AuthStore.setTokens (access_token (data response)) (refresh_token (data response))
                              (Some (token_user (data response))) ;;
          QRLogin.navigate "/dashboard" ;;
          ret (c1, None))
         (fun error =>
            ret (setIsLoading true c, Some (Display.message_or error verify_fallback))) ;;
  ret (setIsLoading false (fst r), snd r).

Definition resendOTP (defaultPool : Z) (c : Cells)
    (net : Exchanges (ApiResponse bool)) : M (Cells * option string) :=
  r <- try_catch
         (let c1 := setIsLoading true c in
          sendOTP {| so_identifier := identifier c; so_type := otp_login;
                     so_user_pool_id := defaultPool |} net ;;
          ret (setCountdown 60 c1, None))
         (fun error =>
            ret (setIsLoading true c, Some (Display.message_or error resend_fallback))) ;;
  ret (setIsLoading false (fst r), snd r).

End OTPLoginPage.

(** [Dashboard] and [ProtectedRoute]. *)
Module Dashboard.

Definition handleLogout : M unit :=
  AuthStore.logout ;;
  QRLogin.navigate "/auth/login".

(** [user?.nickname || user?.username || '用户'], the name in the header. *)
Definition header_name (u : option UserResponse) : string :=
  let nick := u ≫= nickname in
  let name := u ≫= username in
  if truthy nick then default "" nick
  else if truthy name then default "" name
  else "用户".

Inductive Rendered :=
| Children
| Navigate (to : string) (from : string).

(** [ProtectedRoute] rendered at [location]. *)
Definition ProtectedRoute (location : string) (m : Machine) : Rendered :=
  if negb (isAuthenticated (store m)) then Navigate "/auth/login" location else Children.

End Dashboard.

(** What [QRLoginPage] renders from its cells. *)
Module QRView.

Inductive Center :=
| Spinner
| QRCode (value : string)
| ExpiredNote.

(** The square in the middle of the card. *)
Definition center (p : QRPage) : Center :=
  if bool_decide (status p = loading) || isCreating p then Spinner
  else match qrData p with
       | Some d =>
           if bool_decide (status p = pending \/ status p = scanned) then QRCode (qr_url d)
           else ExpiredNote
       | None => ExpiredNote
       end.

(** The overlay with the refresh button over the square. *)
Definition overlay (p : QRPage) : bool :=
  bool_decide (status p = expired \/ status p = cancelled).

(** The refresh button under the status line. *)
Definition refresh_button (p : QRPage) : bool :=
  bool_decide (status p = pending \/ status p = scanned).

(** Some refresh button is shown and not [disabled]. *)
Definition can_refresh (p : QRPage) : bool :=
  (overlay p || refresh_button p) && negb (isCreating p).

Definition getStatusText (p : QRPage) : string :=
  match status p with
  | loading => "生成二维码中..."
  | pending => "请使用移动设备扫描二维码"
  | scanned => "扫描成功，请在移动设备上确认登录"
  | confirmed => "登录成功，正在跳转..."
  | expired => "二维码已过期，请刷新重试"
  | cancelled => "登录已取消"
  end.

End QRView.

(* ================================================================== *)
(** * Further observations *)
(* ================================================================== *)

Module Observe2.

(** [m] with one more request in the log. *)
Definition logged (req : Request) (m : Machine) : Machine :=
  with_network (fun l => (l ++ [req])%list) m.

(** The paths through [request], laid out: which answers are looked at,
    in which machine, and what is left behind. *)
Definition request_paths {T} (method endpoint : string) (options : Options)
    (net : Exchanges T) (m : Machine) : Outcome T * Machine :=
  let m1 := logged (request_in m method endpoint options) m in
  match yield (first net) with
  | Returned a => (Returned a, m1)
  | Thrown e =>
      if decide (error_status e = Some 401) then
        if is_auth_url endpoint then (Thrown AuthFailedError, m1)
        else if negb (truthy (localStorage m !! "refresh_token"))
        then (Thrown NoRefreshTokenError, wiped m1)
        else
          match yield (refresh net) with
          | Thrown e' => (Thrown e', wiped (logged (refresh_request_in m1) m1))
          | Returned rd =>
              let m2 := refreshed rd m1 in
              let m3 := logged (request_in m2 method endpoint options) m2 in
              match yield (retry net) with
              | Returned a => (Returned a, m3)
              | Thrown e'' => (Thrown e'', wiped m3)
              end
          end
      else (Thrown e, m1)
  end.

(** Both credential keys are in [localStorage], or neither is. *)
Definition pair_intact (m : Machine) : Prop :=
  is_Some (localStorage m !! "access_token") <-> is_Some (localStorage m !! "refresh_token").

(** [m'] has the [localStorage] of [m] at every key but the two
    credential keys. *)
Definition other_keys_kept (m m' : Machine) : Prop :=
  forall k : string, k <> "access_token" -> k <> "refresh_token" ->
    localStorage m' !! k = localStorage m !! k.

(** [m'] has the [localStorage] of [m] at every key but the two
    credential keys and the entry of the [persist] middleware. *)
Definition foreign_keys_kept (m m' : Machine) : Prop :=
  forall k : string,
    k <> "access_token" -> k <> "refresh_token" -> k <> "auth-storage" ->
    localStorage m' !! k = localStorage m !! k.

(** The entry [auth-storage] holds what [partialize] selects of the
    session state as it is now. *)
Definition saved_in_step (m : Machine) : Prop :=
  auth_storage m = Some (AuthStore.partialize (store m)).

(** The session store and [localStorage] hold the same tokens. *)
Definition in_sync (m : Machine) : Prop :=
  localStorage m !! "access_token" = accessToken (store m)
  /\ localStorage m !! "refresh_token" = refreshToken (store m).

End Observe2.
Import Observe2.

(** Further answers and inputs for the scenarios. *)
Module Scenario2.

Import Scenario.

(** 401, a successful refresh, then the identity. *)
Definition healed : Exchanges (ApiResponse UserResponse) :=
  {| first := unauthorized; refresh := renewed; retry := ok alice |}.

(** 401, then a refresh the server refuses. *)
Definition refresh_refused {T} : Exchanges T :=
  {| first := unauthorized; refresh := server_error; retry := TimedOut |}.

(** A failure status with a message of the server. *)
Definition locked {T} : Fetched T :=
  Resolved (NotOk 423 "Locked" (JsonBody (Some "account locked") "{code:423}")).

Definition sign_in_form : LoginPage.LoginFormData :=
  {| LoginPage.identifier := "alice"; LoginPage.password := "secret1";
     LoginPage.userPoolId := 1 |}.

(** A sign-up form with an e-mail address, the phone field left empty and
    no nickname. *)
Definition sign_up_form : RegisterPage.RegisterFormData :=
  {| RegisterPage.username := "alice"; RegisterPage.email := Some "alice@example.com";
     RegisterPage.phone := Some ""; RegisterPage.password := "secret1";
     RegisterPage.confirmPassword := "secret1"; RegisterPage.nickname := None;
     RegisterPage.userPoolId := 1 |}.

(** The cells of the one-time-code page after a code was sent to alice. *)
Definition code_sent : OTPLoginPage.Cells :=
  {| OTPLoginPage.step := OTPLoginPage.verify_step; OTPLoginPage.identifier := "alice";
     OTPLoginPage.countdown := 60; OTPLoginPage.isLoading := false |}.

Definition second_ceremony : QRLoginCreateResponse :=
  {| scene_id := "S2"; qr_url := "authing://qr/S2"; expires_at := "2024-01-01T00:04:00Z" |}.

End Scenario2.

(* ================================================================== *)
(** * Properties *)
(* ================================================================== *)

Import Scenario.

(** ** Running the pipeline *)

Section PipelineRuns.

Context {T : Type}.
Implicit Types (m : Machine) (net : Exchanges T) (answer : Fetched T).

(** One exchange: the request is logged and the answer is what
    [handleResponse] makes of it. *)
Lemma makeRequest_run method endpoint options answer m :
  makeRequest method endpoint options answer m =
  (yield answer, with_network (fun l => (l ++ [request_in m method endpoint options])%list) m).
Proof.
  unfold makeRequest, prepare, createHeaders, getItem, fetchWithTimeout, send, settle,
    handleResponse, bind, ret, throw, get, modify, request_in.
  destruct answer as [[st d|st txt d|st]| |reason]; reflexivity.
Qed.

(** The three ways through [handleAuthError] the claims are about. *)
Lemma handleAuthError_auth_url (orig : M T) url ra m :
  is_auth_url url = true ->
  handleAuthError orig url ra m = (Thrown AuthFailedError, m).
Proof. intros H. unfold handleAuthError. rewrite H. reflexivity. Qed.

Lemma handleAuthError_no_token (orig : M T) url ra m :
  is_auth_url url = false ->
  truthy (localStorage m !! "refresh_token") = false ->
  handleAuthError orig url ra m =
  (Thrown NoRefreshTokenError, wiped m).
Proof.
  intros H Ht. unfold handleAuthError. rewrite H.
  unfold try_catch, bind, getItem, get, ret. simpl. rewrite Ht. reflexivity.
Qed.

Lemma handleAuthError_refreshed (orig : M T) url st rd m :
  is_auth_url url = false ->
  truthy (localStorage m !! "refresh_token") = true ->
  handleAuthError orig url (Resolved (Ok st rd)) m =
  match orig (refreshed rd m) with
  | (Returned a, m') => (Returned a, m')
  | (Thrown e, m') => (Thrown e, wiped m')
  end.
Proof.
  intros H Ht. unfold handleAuthError. rewrite H.
  unfold try_catch, bind, getItem, get, ret. simpl. rewrite Ht. simpl.
  unfold refreshed. destruct (orig _) as [[a|e] m']; reflexivity.
Qed.

End PipelineRuns.

Lemma not_auth_url_not_refresh endpoint :
  is_auth_url endpoint = false -> String.eqb endpoint REFRESH_ENDPOINT = false.
Proof.
  intros H. destruct (String.eqb endpoint REFRESH_ENDPOINT) eqn:E; [|reflexivity].
  apply String.eqb_eq in E. subst endpoint. vm_compute in H. discriminate.
Qed.

Lemma refresh_calls_snoc m req :
  refresh_calls (with_network (fun l => (l ++ [req])%list) m) =
  (refresh_calls m + (if is_refresh_call req then 1 else 0))%nat.
Proof.
  unfold refresh_calls. simpl. rewrite filter_app, length_app. f_equal.
  destruct (is_refresh_call req) eqn:E.
  - rewrite filter_cons_True by done. reflexivity.
  - rewrite filter_cons_False by (rewrite E; done). reflexivity.
Qed.

Lemma request_in_not_refresh m method endpoint options :
  is_auth_url endpoint = false ->
  is_refresh_call (request_in m method endpoint options) = false.
Proof. intros H. unfold is_refresh_call. simpl. now apply not_auth_url_not_refresh. Qed.

Lemma wiped_credentials_removed m : credentials_removed (wiped m).
Proof.
  unfold credentials_removed, wiped. simpl. split.
  - rewrite lookup_delete_ne by done. apply lookup_delete_eq.
  - apply lookup_delete_eq.
Qed.

(** The guard of [handleAuthError] covers the sign-in and the refresh
    endpoint; the registration, logout and identity endpoints are outside. *)
Example is_auth_url_table :
  is_auth_url "/api/v1/auth/login" = true
  /\ is_auth_url "/api/v1/auth/refresh" = true
  /\ is_auth_url "/api/v1/auth/register" = false
  /\ is_auth_url "/api/v1/auth/logout" = false
  /\ is_auth_url "/api/v1/users/me" = false
  /\ is_auth_url "/api/v1/auth/qr/S1/status" = false.
Proof. repeat split. Qed.

(** ** The authenticated pipeline *)

Section PipelineLaws.

Context {T : Type}.
Implicit Types (m : Machine) (net : Exchanges T).

(** C1.  Single-retry law: a 401 on a path that is neither sign-in nor
    refresh, then a refresh that succeeds, then a 401 on the re-issued
    request: the caller gets that second 401, with its status and body,
    and the refresh endpoint has been called exactly once; three requests
    were sent in all.  The [catch] block around the retry has removed both
    credential keys and sent the browser to the sign-in page. *)
Theorem single_retry_law method endpoint options net m rt t1 d1 st rd t2 d2 :
  is_auth_url endpoint = false ->
  first net = Resolved (NotOk 401 t1 d1) ->
  localStorage m !! "refresh_token" = Some rt -> rt <> "" ->
  refresh net = Resolved (Ok st rd) ->
  retry net = Resolved (NotOk 401 t2 d2) ->
  eval (request method endpoint options net) m
    = Thrown (HttpError (error_message d2 401 t2) 401 d2)
  /\ refresh_calls (exec (request method endpoint options net) m) = S (refresh_calls m)
  /\ length (network (exec (request method endpoint options net) m))
     = (length (network m) + 3)%nat
  /\ credentials_removed (exec (request method endpoint options net) m)
  /\ location_href (exec (request method endpoint options net) m) = "/auth/login".
Proof.
  intros Hurl Hfirst Hrt Hne Hrefresh Hretry.
  assert (Htruthy : truthy (localStorage m !! "refresh_token") = true).
  { rewrite Hrt. simpl. destruct (String.eqb_spec rt ""); [contradiction|reflexivity]. }
  unfold eval, exec, request, try_catch.
  rewrite makeRequest_run, Hfirst. simpl.
  rewrite Hrefresh, handleAuthError_refreshed by assumption.
  rewrite makeRequest_run, Hretry. simpl.
  split; [reflexivity|]. split.
  - unfold refreshed.
    pose proof (not_auth_url_not_refresh endpoint Hurl) as Hn.
    unfold refresh_calls, is_refresh_call. simpl.
    rewrite !filter_app, !length_app.
    rewrite (filter_cons_False _ (request_in _ _ _ _)) by (simpl; rewrite Hn; done).
    rewrite (filter_cons_False _ (request_in _ _ _ _)) by (simpl; rewrite Hn; done).
    rewrite filter_cons_True by reflexivity. simpl. lia.
  - split; [|split].
    + unfold refreshed. simpl. rewrite !length_app. simpl. lia.
    + apply wiped_credentials_removed.
    + reflexivity.
Qed.

(** C2.  A 401 on a path that is neither sign-in nor refresh, with no
    refresh token in [localStorage]: the call fails at once with the
    no-refresh-token error, the only request sent is the original one (so
    none goes to the refresh endpoint), both credential keys are removed
    and the browser is sent to the sign-in page. *)
Theorem request_401_without_refresh_token method endpoint options net m statusText d :
  is_auth_url endpoint = false ->
  first net = Resolved (NotOk 401 statusText d) ->
  localStorage m !! "refresh_token" = None ->
  eval (request method endpoint options net) m = Thrown NoRefreshTokenError
  /\ network (exec (request method endpoint options net) m)
     = (network m ++ [request_in m method endpoint options])%list
  /\ refresh_calls (exec (request method endpoint options net) m) = refresh_calls m
  /\ credentials_removed (exec (request method endpoint options net) m)
  /\ location_href (exec (request method endpoint options net) m) = "/auth/login".
Proof.
  intros Hurl Hfirst Habsent.
  unfold eval, exec, request, try_catch.
  rewrite makeRequest_run, Hfirst. simpl.
  rewrite handleAuthError_no_token; [|assumption|simpl; now rewrite Habsent].
  simpl. split; [reflexivity|]. split; [reflexivity|]. split; [|split].
  - pose proof (refresh_calls_snoc m (request_in m method endpoint options)) as Hc.
    rewrite request_in_not_refresh in Hc by assumption.
    unfold refresh_calls in *. simpl in *. lia.
  - apply wiped_credentials_removed.
  - reflexivity.
Qed.

(** C3, as the code has it.  A 401 on a path that contains the sign-in
    or the refresh endpoint: no recovery is attempted -- the original
    request is the only one sent and nothing else in the machine changes
    -- and the caller receives the fixed authentication-failed error,
    which carries neither the status nor the body of the response. *)
Theorem auth_endpoint_401_not_recovered method endpoint options net m statusText d :
  is_auth_url endpoint = true ->
  first net = Resolved (NotOk 401 statusText d) ->
  eval (request method endpoint options net) m = Thrown AuthFailedError
  /\ exec (request method endpoint options net) m
     = with_network (fun l => (l ++ [request_in m method endpoint options])%list) m
  /\ error_status AuthFailedError = None
  /\ error_body AuthFailedError = None.
Proof.
  intros Hurl Hfirst.
  unfold eval, exec, request, try_catch.
  rewrite makeRequest_run, Hfirst. simpl.
  rewrite handleAuthError_auth_url by assumption.
  repeat split.
Qed.

(** A failure that is not a 401 is handed to the caller as it is, on any
    path, and nothing but the log changes. *)
Lemma request_other_failure method endpoint options net m e :
  yield (first net) = Thrown e ->
  error_status e <> Some 401 ->
  request method endpoint options net m
  = (Thrown e, with_network (fun l => (l ++ [request_in m method endpoint options])%list) m).
Proof.
  intros Hy Hs. unfold request, try_catch. rewrite makeRequest_run, Hy.
  destruct (decide (error_status e = Some 401)); [contradiction|reflexivity].
Qed.

(** A 401 whose refresh call fails: the credentials are wiped, the browser
    is sent to the sign-in page, and the caller gets the failure of the
    refresh call. *)
Lemma request_401_refresh_fails method endpoint options net m statusText d e :
  is_auth_url endpoint = false ->
  first net = Resolved (NotOk 401 statusText d) ->
  truthy (localStorage m !! "refresh_token") = true ->
  yield (refresh net) = Thrown e ->
  eval (request method endpoint options net) m = Thrown e
  /\ credentials_removed (exec (request method endpoint options net) m)
  /\ location_href (exec (request method endpoint options net) m) = "/auth/login".
Proof.
  intros Hurl Hfirst Ht Hy.
  unfold eval, exec, request, try_catch.
  rewrite makeRequest_run, Hfirst. simpl.
  unfold handleAuthError. rewrite Hurl.
  unfold try_catch, bind, getItem, get, ret. simpl. rewrite Ht. simpl.
  destruct (refresh net) as [[st rd|st txt d'|st]| |reason]; simpl in Hy |- *;
    try discriminate; injection Hy as <-; simpl;
    (split; [reflexivity|]; split; [|reflexivity]);
    unfold credentials_removed; simpl;
    (split; [rewrite lookup_delete_ne by done|]; apply lookup_delete_eq).
Qed.

End PipelineLaws.



Lemma single_retry_law_witness :
  eval (request "GET" "/api/v1/users/me" no_options (@twice_unauthorized (ApiResponse UserResponse)))
       signed_in
    = Thrown (HttpError (ServerMessage "invalid credentials") 401
                (JsonBody (Some "invalid credentials") "{code:401}"))
  /\ refresh_calls (exec (request "GET" "/api/v1/users/me" no_options
                            (@twice_unauthorized (ApiResponse UserResponse))) signed_in) = 1%nat
  /\ length (network (exec (request "GET" "/api/v1/users/me" no_options
                              (@twice_unauthorized (ApiResponse UserResponse))) signed_in)) = 3%nat
  /\ credentials_removed
       (exec (request "GET" "/api/v1/users/me" no_options
                (@twice_unauthorized (ApiResponse UserResponse))) signed_in)
  /\ location_href
       (exec (request "GET" "/api/v1/users/me" no_options
                (@twice_unauthorized (ApiResponse UserResponse))) signed_in) = "/auth/login".
Proof.
  apply (single_retry_law "GET" "/api/v1/users/me" no_options
           (@twice_unauthorized (ApiResponse UserResponse)) signed_in "R1"
           "Unauthorized" (JsonBody (Some "invalid credentials") "{code:401}")
           200 (envelope {| new_access_token := "A2"; new_refresh_token := "R2" |})
           "Unauthorized" (JsonBody (Some "invalid credentials") "{code:401}")).
  - reflexivity.
  - reflexivity.
  - reflexivity.
  - discriminate.
  - reflexivity.
  - reflexivity.
Defined.

Lemma request_401_without_refresh_token_witness :
  eval (request "GET" "/x" no_options (@just (ApiResponse bool) unauthorized)) fresh
    = Thrown NoRefreshTokenError
  /\ network (exec (request "GET" "/x" no_options (@just (ApiResponse bool) unauthorized)) fresh)
     = [request_in fresh "GET" "/x" no_options]
  /\ refresh_calls (exec (request "GET" "/x" no_options (@just (ApiResponse bool) unauthorized)) fresh)
     = 0%nat
  /\ credentials_removed
       (exec (request "GET" "/x" no_options (@just (ApiResponse bool) unauthorized)) fresh)
  /\ location_href
       (exec (request "GET" "/x" no_options (@just (ApiResponse bool) unauthorized)) fresh)
     = "/auth/login".
Proof.
  apply (request_401_without_refresh_token "GET" "/x" no_options
           (@just (ApiResponse bool) unauthorized) fresh
           "Unauthorized" (JsonBody (Some "invalid credentials") "{code:401}")).
  - reflexivity.
  - reflexivity.
  - reflexivity.
Defined.

Lemma auth_endpoint_401_not_recovered_witness :
  eval (AuthService.login credentials (just unauthorized)) signed_in = Thrown AuthFailedError
  /\ exec (AuthService.login credentials (just unauthorized)) signed_in
     = with_network
         (fun l => (l ++ [request_in signed_in "POST" "/api/v1/auth/login"
                            {| opt_data := Some (AuthService.LoginRequest_obj credentials);
                               opt_params := None; opt_headers := None |}])%list)
         signed_in
  /\ error_status AuthFailedError = None
  /\ error_body AuthFailedError = None.
Proof.
  apply (auth_endpoint_401_not_recovered "POST" "/api/v1/auth/login"
           {| opt_data := Some (AuthService.LoginRequest_obj credentials);
              opt_params := None; opt_headers := None |}
           (just unauthorized) signed_in
           "Unauthorized" (JsonBody (Some "invalid credentials") "{code:401}")).
  - reflexivity.
  - reflexivity.
Defined.

(** C3 as the spec states it fails: the sign-in call answered with a 401
    does not hand the caller the failure [handleResponse] built from the
    response (status 401, the server's body), it hands over an error
    without status and without body. *)
Lemma auth_endpoint_401_not_passed_through :
  is_auth_url "/api/v1/auth/login" = true
  /\ first (@just (ApiResponse TokenResponse) unauthorized)
     = Resolved (NotOk 401 "Unauthorized" (JsonBody (Some "invalid credentials") "{code:401}"))
  /\ yield (first (@just (ApiResponse TokenResponse) unauthorized))
     = Thrown (HttpError (ServerMessage "invalid credentials") 401
                 (JsonBody (Some "invalid credentials") "{code:401}"))
  /\ eval (AuthService.login credentials (just unauthorized)) signed_in
     <> yield (first (@just (ApiResponse TokenResponse) unauthorized))
  /\ (forall e, eval (AuthService.login credentials (just unauthorized)) signed_in = Thrown e ->
                error_status e <> Some 401 /\ error_body e = None).
Proof.
  split; [reflexivity|]. split; [reflexivity|]. split; [reflexivity|]. split.
  - vm_compute. discriminate.
  - intros e He. vm_compute in He. injection He as <-. split; [discriminate|reflexivity].
Qed.

(** ** The pipeline touches nothing but storage, location and the log *)

Lemma pipeline_frame_refl m : pipeline_frame m m.
Proof. repeat split. Qed.

Lemma pipeline_frame_trans m1 m2 m3 :
  pipeline_frame m1 m2 -> pipeline_frame m2 m3 -> pipeline_frame m1 m3.
Proof.
  unfold pipeline_frame. intros (?&?&?&?&?) (?&?&?&?&?). repeat split; congruence.
Qed.

Lemma makeRequest_frame {T} method endpoint options (answer : Fetched T) m :
  pipeline_frame m (exec (makeRequest method endpoint options answer) m).
Proof. unfold exec. rewrite makeRequest_run. repeat split. Qed.

Lemma handleAuthError_frame {T} (orig : M T) url ra m :
  (forall m0, pipeline_frame m0 (exec orig m0)) ->
  pipeline_frame m (exec (handleAuthError orig url ra) m).
Proof.
  intros Horig. unfold exec, handleAuthError.
  destruct (is_auth_url url); [apply pipeline_frame_refl|].
  unfold try_catch, bind, getItem, get, ret. simpl.
  destruct (truthy (localStorage m !! "refresh_token")); simpl; [|repeat split].
  destruct ra as [[st rd|st txt d|st]| |reason]; simpl; try (repeat split; fail).
  match goal with |- context [orig ?m1] =>
    specialize (Horig m1); unfold exec in Horig; destruct (orig m1) as [[a|e] m2] end;
    simpl in *; destruct Horig as (?&?&?&?&?); repeat split; assumption.
Qed.

Lemma request_frame {T} method endpoint options (net : Exchanges T) m :
  pipeline_frame m (exec (request method endpoint options net) m).
Proof.
  unfold exec, request, try_catch. rewrite makeRequest_run.
  destruct (yield (first net)) as [a|e]; simpl; [repeat split|].
  destruct (decide (error_status e = Some 401)); simpl; [|repeat split].
  eapply pipeline_frame_trans; [|apply handleAuthError_frame; intros; apply makeRequest_frame].
  repeat split.
Qed.

Lemma request_split {T} method endpoint options (net : Exchanges T) m :
  request method endpoint options net m
  = (request_begin method endpoint options ;; request_resume method endpoint options net) m.
Proof.
  unfold request, request_begin, request_resume, makeRequest, fetchWithTimeout,
    prepare, createHeaders, getItem, send, try_catch, bind, get, ret, modify.
  simpl. reflexivity.
Qed.

(** ** The session store *)

Lemma logout_run m :
  AuthStore.logout m =
  (Returned tt,
   with_auth_storage (Some (AuthStore.partialize AuthStore.anonymous))
     (with_store (fun _ => AuthStore.anonymous)
        (with_localStorage (delete "refresh_token")
           (with_localStorage (delete "access_token")
              (with_network
                 (fun l => (l ++ [request_in m "POST" "/api/v1/auth/logout" no_options])%list)
                 m))))).
Proof. reflexivity. Qed.

Lemma logout_around_run (call : M unit) (m : Machine) :
  eval (AuthStore.logout_around call) m = Returned tt
  /\ credentials_removed (exec (AuthStore.logout_around call) m)
  /\ store (exec (AuthStore.logout_around call) m) = AuthStore.anonymous.
Proof.
  unfold eval, exec, AuthStore.logout_around, try_finally, try_catch.
  destruct (call m) as [[[]|e] m1]; simpl; (split; [reflexivity|]; split; [|reflexivity]);
    unfold credentials_removed; simpl;
    (split; [rewrite lookup_delete_ne by done|]; apply lookup_delete_eq).
Qed.

Lemma logout_settled_run (net : Exchanges (ApiResponse bool)) (m : Machine) :
  eval (AuthStore.logout_settled net) m = Returned tt
  /\ credentials_removed (exec (AuthStore.logout_settled net) m)
  /\ store (exec (AuthStore.logout_settled net) m) = AuthStore.anonymous.
Proof.
  destruct (logout_around_run AuthService.logout_begin m) as (_ & Hnow & _).
  unfold eval, exec, AuthStore.logout_settled, bind, detached in *.
  fold AuthStore.logout in Hnow. rewrite logout_run in *. simpl in Hnow |- *.
  split; [reflexivity|].
  unfold AuthService.logout_resume, request_resume, try_catch, bind, settle, handleResponse.
  destruct (first net) as [[st d|st txt d|st]| |reason]; simpl;
    try (split; [exact Hnow|reflexivity]).
  destruct (decide (Some st = Some 401)) as [_|_]; simpl;
    [|split; [exact Hnow|reflexivity]].
  rewrite handleAuthError_no_token.
  - simpl. split; [apply wiped_credentials_removed|reflexivity].
  - reflexivity.
  - simpl. rewrite lookup_delete_eq. reflexivity.
Qed.

(** C4.  [logout] always ends signed out.  Whatever the service call does
    when it is made -- return or throw -- and whatever the answer to the
    logout request is once it arrives -- a success, a failure status, a
    time-out or a network error -- [logout] returns normally, both
    credential keys are absent from [localStorage] and the session state is
    the anonymous one (no user, no tokens, not authenticated, not loading);
    this is so when [logout] returns and still so after the dropped logout
    call has been answered. *)
Theorem logout_always_clears (m : Machine) :
  (forall call : M unit,
      eval (AuthStore.logout_around call) m = Returned tt
      /\ credentials_removed (exec (AuthStore.logout_around call) m)
      /\ store (exec (AuthStore.logout_around call) m) = AuthStore.anonymous)
  /\ (eval AuthStore.logout m = Returned tt
      /\ credentials_removed (exec AuthStore.logout m)
      /\ store (exec AuthStore.logout m) = AuthStore.anonymous)
  /\ (forall net : Exchanges (ApiResponse bool),
      eval (AuthStore.logout_settled net) m = Returned tt
      /\ credentials_removed (exec (AuthStore.logout_settled net) m)
      /\ store (exec (AuthStore.logout_settled net) m) = AuthStore.anonymous).
Proof.
  split; [|split].
  - intros call. apply logout_around_run.
  - apply (logout_around_run AuthService.logout_begin).
  - intros net. apply logout_settled_run.
Qed.

Lemma store_after_request {T} method endpoint options (net : Exchanges T) m :
  store (exec (request method endpoint options net) m) = store m.
Proof. apply (request_frame method endpoint options net m). Qed.

Lemma clearAuth_run m :
  eval AuthStore.clearAuth m = Returned tt
  /\ credentials_removed (exec AuthStore.clearAuth m)
  /\ store (exec AuthStore.clearAuth m) = AuthStore.anonymous.
Proof.
  split; [reflexivity|]. split; [|reflexivity].
  unfold credentials_removed, exec. simpl.
  split; [rewrite lookup_delete_ne by done|]; apply lookup_delete_eq.
Qed.

(** C5.  [setTokens] followed by a [refreshUserInfo] whose identity fetch
    fails.  [setTokens] sends nothing and leaves the session authenticated
    with the given identity and pair, the pair also in [localStorage].  The
    failed [refreshUserInfo] then swallows the failure and resets the session
    to the anonymous state, with both credential keys removed. *)
Theorem setTokens_then_failed_refreshUserInfo
    (a r : string) (u : UserResponse) (net : Exchanges (ApiResponse UserResponse))
    (m : Machine) (e : JsError) :
  eval (AuthService.getCurrentUser net) (exec (AuthStore.setTokens a r (Some u)) m) = Thrown e ->
  let m1 := exec (AuthStore.setTokens a r (Some u)) m in
  let m2 := exec (AuthStore.refreshUserInfo net) m1 in
  (store m1 = {| user := Some u; accessToken := Some a; refreshToken := Some r;
                 isAuthenticated := true; isLoading := isLoading (store m) |}
   /\ localStorage m1 !! "access_token" = Some a
   /\ localStorage m1 !! "refresh_token" = Some r
   /\ network m1 = network m)
  /\ (eval (AuthStore.refreshUserInfo net) m1 = Returned tt
      /\ store m2 = AuthStore.anonymous
      /\ isAuthenticated (store m2) = false
      /\ credentials_removed m2).
Proof.
  intros Hfail m1 m2. split.
  - subst m1. unfold exec. simpl. repeat split.
    + rewrite lookup_insert_ne by done. apply lookup_insert_eq.
    + apply lookup_insert_eq.
  - subst m2. fold m1 in Hfail.
    unfold eval, exec, AuthStore.refreshUserInfo, try_catch, bind in *.
    destruct (AuthService.getCurrentUser net m1) as [[resp|e'] m'] eqn:E; simpl in Hfail;
      [discriminate|].
    destruct (clearAuth_run m') as (H1 & H2 & H3). unfold eval, exec in *.
    destruct (AuthStore.clearAuth m') as [o m'']. simpl in *.
    repeat split; try assumption; try apply H2. now rewrite H3.
Qed.

Lemma setTokens_then_failed_refreshUserInfo_witness :
  eval (AuthService.getCurrentUser (just server_error))
       (exec (AuthStore.setTokens "A2" "R2" (Some alice)) fresh)
  = Thrown (HttpError (StatusLine 500 "Internal Server Error") 500 (TextBody "oops"))
  /\ (store (exec (AuthStore.setTokens "A2" "R2" (Some alice)) fresh)
      = {| user := Some alice; accessToken := Some "A2"; refreshToken := Some "R2";
           isAuthenticated := true; isLoading := false |}
      /\ localStorage (exec (AuthStore.setTokens "A2" "R2" (Some alice)) fresh) !! "access_token"
         = Some "A2"
      /\ localStorage (exec (AuthStore.setTokens "A2" "R2" (Some alice)) fresh) !! "refresh_token"
         = Some "R2"
      /\ network (exec (AuthStore.setTokens "A2" "R2" (Some alice)) fresh) = [])
  /\ (eval (AuthStore.refreshUserInfo (just server_error))
           (exec (AuthStore.setTokens "A2" "R2" (Some alice)) fresh) = Returned tt
      /\ store (exec (AuthStore.refreshUserInfo (just server_error))
                  (exec (AuthStore.setTokens "A2" "R2" (Some alice)) fresh))
         = AuthStore.anonymous
      /\ isAuthenticated
           (store (exec (AuthStore.refreshUserInfo (just server_error))
                     (exec (AuthStore.setTokens "A2" "R2" (Some alice)) fresh))) = false
      /\ credentials_removed
           (exec (AuthStore.refreshUserInfo (just server_error))
              (exec (AuthStore.setTokens "A2" "R2" (Some alice)) fresh))).
Proof.
  split; [reflexivity|].
  apply (setTokens_then_failed_refreshUserInfo "A2" "R2" alice (just server_error) fresh
           (HttpError (StatusLine 500 "Internal Server Error") 500 (TextBody "oops"))).
  reflexivity.
Defined.

(** The common shape of [login] and [register] around their service call. *)
Lemma sign_failure_frame (call : M (ApiResponse TokenResponse)) (m : Machine) (e : JsError) :
  (forall m0, store (exec call m0) = store m0) ->
  eval (try_catch
          (AuthStore.set_isLoading true ;; response <- call ;; AuthStore.adopt_response response)
          (fun error => AuthStore.set_isLoading false ;; throw error)) m = Thrown e ->
  let m' := exec (try_catch
          (AuthStore.set_isLoading true ;; response <- call ;; AuthStore.adopt_response response)
          (fun error => AuthStore.set_isLoading false ;; throw error)) m in
  eval call (exec (AuthStore.set_isLoading true) m) = Thrown e
  /\ isLoading (store m') = false
  /\ user (store m') = user (store m)
  /\ accessToken (store m') = accessToken (store m)
  /\ refreshToken (store m') = refreshToken (store m)
  /\ isAuthenticated (store m') = isAuthenticated (store m).
Proof.
  intros Hframe. unfold eval, exec, try_catch, bind. simpl.
  set (m1 := with_auth_storage _ (with_store _ m)).
  specialize (Hframe m1). unfold exec in Hframe.
  destruct (call m1) as [[resp|e'] m2]; simpl in *.
  - discriminate.
  - intros [= ->]. rewrite Hframe. subst m1. simpl. repeat split.
Qed.

(** The same shape, from the failure of the service call: the failure is
    rethrown and only [isLoading] is written. *)
Lemma sign_failure_rethrown (call : M (ApiResponse TokenResponse)) (m : Machine) (e : JsError) :
  (forall m0, store (exec call m0) = store m0) ->
  eval call (exec (AuthStore.set_isLoading true) m) = Thrown e ->
  let sign := try_catch
          (AuthStore.set_isLoading true ;; response <- call ;; AuthStore.adopt_response response)
          (fun error => AuthStore.set_isLoading false ;; throw error) in
  eval sign m = Thrown e
  /\ isLoading (store (exec sign m)) = false
  /\ user (store (exec sign m)) = user (store m)
  /\ accessToken (store (exec sign m)) = accessToken (store m)
  /\ refreshToken (store (exec sign m)) = refreshToken (store m)
  /\ isAuthenticated (store (exec sign m)) = isAuthenticated (store m).
Proof.
  intros Hframe. unfold eval, exec, try_catch, bind. simpl.
  set (m1 := with_auth_storage _ (with_store _ m)).
  specialize (Hframe m1). unfold exec in Hframe.
  destruct (call m1) as [[resp|e'] m2]; simpl in *.
  - discriminate.
  - intros [= ->]. rewrite Hframe. subst m1. simpl. repeat split.
Qed.

(** C9.  A [login] or a [register] whose request fails, with whatever
    failure: the call throws that failure to its caller, [isLoading] is back
    to false, and the identity, both tokens and the authenticated flag of
    the session store are what they were before the call.  Conversely a
    [login] or [register] throws nothing but the failure of its request. *)
Theorem failed_sign_in_keeps_session (m : Machine) :
  (forall identifier password userPoolId net e,
      eval (AuthService.login
              {| lr_identifier := identifier; lr_password := password;
                 lr_user_pool_id := userPoolId |} net)
           (exec (AuthStore.set_isLoading true) m) = Thrown e ->
      let m' := exec (AuthStore.login identifier password userPoolId net) m in
      eval (AuthStore.login identifier password userPoolId net) m = Thrown e
      /\ isLoading (store m') = false
      /\ user (store m') = user (store m)
      /\ accessToken (store m') = accessToken (store m)
      /\ refreshToken (store m') = refreshToken (store m)
      /\ isAuthenticated (store m') = isAuthenticated (store m))
  /\ (forall userData net e,
      eval (AuthService.register userData net) (exec (AuthStore.set_isLoading true) m)
        = Thrown e ->
      let m' := exec (AuthStore.register userData net) m in
      eval (AuthStore.register userData net) m = Thrown e
      /\ isLoading (store m') = false
      /\ user (store m') = user (store m)
      /\ accessToken (store m') = accessToken (store m)
      /\ refreshToken (store m') = refreshToken (store m)
      /\ isAuthenticated (store m') = isAuthenticated (store m))
  /\ (forall identifier password userPoolId net e,
      eval (AuthStore.login identifier password userPoolId net) m = Thrown e ->
      eval (AuthService.login
              {| lr_identifier := identifier; lr_password := password;
                 lr_user_pool_id := userPoolId |} net)
           (exec (AuthStore.set_isLoading true) m) = Thrown e)
  /\ (forall userData net e,
      eval (AuthStore.register userData net) m = Thrown e ->
      eval (AuthService.register userData net) (exec (AuthStore.set_isLoading true) m)
        = Thrown e).
Proof.
  split; [|split; [|split]].
  - intros identifier password userPoolId net e H.
    apply (sign_failure_rethrown _ m e); [|exact H].
    intros m0. apply store_after_request.
  - intros [un pw em ph nn pool] net e H.
    apply (sign_failure_rethrown _ m e); [|exact H].
    intros m0. apply store_after_request.
  - intros identifier password userPoolId net e H.
    apply (sign_failure_frame _ m e); [|exact H].
    intros m0. apply store_after_request.
  - intros [un pw em ph nn pool] net e H.
    apply (sign_failure_frame _ m e); [|exact H].
    intros m0. apply store_after_request.
Qed.

Lemma failed_sign_in_keeps_session_witness :
  (eval (AuthService.login
           {| lr_identifier := "alice"; lr_password := "wrong"; lr_user_pool_id := 1 |}
           (just unauthorized))
        (exec (AuthStore.set_isLoading true) signed_in) = Thrown AuthFailedError
   /\ eval (AuthStore.login "alice" "wrong" 1 (just unauthorized)) signed_in
      = Thrown AuthFailedError
   /\ store (exec (AuthStore.login "alice" "wrong" 1 (just unauthorized)) signed_in)
      = store signed_in)
  /\ (eval (AuthService.register profile (just server_error))
           (exec (AuthStore.set_isLoading true) signed_in)
      = Thrown (HttpError (StatusLine 500 "Internal Server Error") 500 (TextBody "oops"))
      /\ eval (AuthStore.register profile (just server_error)) signed_in
         = Thrown (HttpError (StatusLine 500 "Internal Server Error") 500 (TextBody "oops"))
      /\ store (exec (AuthStore.register profile (just server_error)) signed_in)
         = store signed_in).
Proof.
  destruct (failed_sign_in_keeps_session signed_in) as (Hin & Hup & _ & _).
  split.
  - split; [reflexivity|].
    destruct (Hin "alice" "wrong" 1 (just unauthorized) AuthFailedError eq_refl)
      as (H0 & H1 & H2 & H3 & H4 & H5).
    split; [exact H0|].
    destruct (store (exec (AuthStore.login "alice" "wrong" 1 (just unauthorized)) signed_in)).
    simpl in *. congruence.
  - split; [reflexivity|].
    destruct (Hup profile (just server_error)
                (HttpError (StatusLine 500 "Internal Server Error") 500 (TextBody "oops")) eq_refl)
      as (H0 & H1 & H2 & H3 & H4 & H5).
    split; [exact H0|].
    destruct (store (exec (AuthStore.register profile (just server_error)) signed_in)).
    simpl in *. congruence.
Defined.

(** ** The invariant of the session state *)

Lemma session_inv_anonymous : session_inv AuthStore.anonymous.
Proof.
  split; simpl; [discriminate|].
  split; intros [? H]; discriminate.
Qed.

Lemma session_inv_adopted (u : UserResponse) (a r : string) (l : bool) :
  session_inv {| user := Some u; accessToken := Some a; refreshToken := Some r;
                 isAuthenticated := true; isLoading := l |}.
Proof. split; simpl; [intros _; repeat split; eexists; reflexivity|split; intros _; eexists; reflexivity]. Qed.

Lemma session_inv_isLoading (s : AuthState) (l : bool) :
  session_inv s ->
  session_inv {| user := user s; accessToken := accessToken s; refreshToken := refreshToken s;
                 isAuthenticated := isAuthenticated s; isLoading := l |}.
Proof. intros H. exact H. Qed.

Lemma session_inv_user (s : AuthState) (u : UserResponse) :
  session_inv s ->
  session_inv {| user := Some u; accessToken := accessToken s; refreshToken := refreshToken s;
                 isAuthenticated := isAuthenticated s; isLoading := isLoading s |}.
Proof.
  intros [H1 H2]. split; simpl; [|exact H2].
  intros Ha. destruct (H1 Ha) as (_ & ? & ?). eauto.
Qed.

Lemma sign_preserves_inv (call : M (ApiResponse TokenResponse)) (m : Machine) :
  (forall m0, store (exec call m0) = store m0) ->
  session_inv (store m) ->
  session_inv (store (exec (try_catch
          (AuthStore.set_isLoading true ;; response <- call ;; AuthStore.adopt_response response)
          (fun error => AuthStore.set_isLoading false ;; throw error)) m)).
Proof.
  intros Hframe Hinv. unfold exec, try_catch, bind. simpl.
  set (m1 := with_auth_storage _ (with_store _ m)).
  specialize (Hframe m1). unfold exec in Hframe.
  destruct (call m1) as [[resp|e'] m2]; simpl in *.
  - apply session_inv_adopted.
  - rewrite Hframe. subst m1. simpl. apply Hinv.
Qed.

(** What the operations of the session store keep when each is called at
    the type the store declares for it, [setTokens] with an identity: the
    invariant of the session state -- an authenticated session has an
    identity and both tokens, and the access and the refresh token are both
    there or both missing. *)
Theorem session_inv_preserved (m : Machine) :
  session_inv (store m) ->
  (forall identifier password userPoolId net,
      session_inv (store (exec (AuthStore.login identifier password userPoolId net) m)))
  /\ (forall userData net, session_inv (store (exec (AuthStore.register userData net) m)))
  /\ session_inv (store (exec AuthStore.logout m))
  /\ (forall net, session_inv (store (exec (AuthStore.logout_settled net) m)))
  /\ (forall a r u, session_inv (store (exec (AuthStore.setTokens a r (Some u)) m)))
  /\ session_inv (store (exec AuthStore.clearAuth m))
  /\ (forall net, session_inv (store (exec (AuthStore.refreshUserInfo net) m)))
  /\ (forall loading, session_inv (store (exec (AuthStore.setLoading loading) m))).
Proof.
  intros Hinv.
  destruct (logout_around_run AuthService.logout_begin m) as (_ & _ & Hout).
  repeat match goal with |- _ /\ _ => split end.
  - intros. apply sign_preserves_inv; [|exact Hinv]. intros m0. apply store_after_request.
  - intros [un pw em ph nn pool] net.
    apply sign_preserves_inv; [|exact Hinv]. intros m0. apply store_after_request.
  - unfold AuthStore.logout. rewrite Hout. apply session_inv_anonymous.
  - intros net. destruct (logout_settled_run net m) as (_ & _ & ->). apply session_inv_anonymous.
  - intros a r u. apply session_inv_adopted.
  - apply session_inv_anonymous.
  - intros net. unfold exec, AuthStore.refreshUserInfo, try_catch, bind.
    pose proof (store_after_request "GET" "/api/v1/users/me"
                  {| opt_data := None; opt_params := None; opt_headers := None |} net m) as Hs.
    unfold exec, AuthService.getCurrentUser, apiRequest_get in *.
    destruct (request _ _ _ net m) as [[resp|e] m1]; simpl in *.
    + rewrite Hs. apply session_inv_user, Hinv.
    + apply session_inv_anonymous.
  - intros loading. apply Hinv.
Qed.

Lemma session_inv_preserved_witness :
  session_inv (store signed_in)
  /\ session_inv (store (exec (AuthStore.login "alice" "secret1" 1 (just (ok (tokens "A1" "R1"))))
                           signed_in))
  /\ session_inv (store (exec (AuthStore.refreshUserInfo twice_unauthorized) signed_in)).
Proof.
  assert (H : session_inv (store signed_in)) by (apply session_inv_adopted).
  split; [exact H|].
  destruct (session_inv_preserved signed_in H) as (Hlogin & _ & _ & _ & _ & _ & Hrefresh & _).
  split; [apply Hlogin|apply Hrefresh].
Defined.

(** The declared type of [setTokens] matters: called without an identity,
    as the QR page's [user!] can do when the server sends a token and no
    user, it leaves an authenticated session that has no identity. *)
Remark setTokens_without_identity (a r : string) (m : Machine) :
  ~ session_inv (store (exec (AuthStore.setTokens a r None) m)).
Proof.
  intros [H _]. destruct (H eq_refl) as ([u Hu] & _). discriminate Hu.
Qed.

(** C8, where the code departs from it.  The QR page calls [setTokens]
    with [user!] after it has tested [token] only, and the server may send a
    token without a user.  On the page that polls for [S1], with an
    anonymous session that satisfies the invariant, one status answer
    [confirmed] with the pair [{A2, R2}] and no user leaves the session
    authenticated, with both tokens and without an identity: the invariant
    is broken, in the store and in what [persist] saved of it.  So it is for
    every call of [setTokens] without an identity. *)
Theorem poll_adopts_session_without_identity :
  session_inv (store polling)
  /\ store (exec (QRLogin.fire 1 (reports s_confirmed None (Some (tokens "A2" "R2")))) polling)
     = {| user := None; accessToken := Some "A2"; refreshToken := Some "R2";
          isAuthenticated := true; isLoading := false |}
  /\ auth_storage
       (exec (QRLogin.fire 1 (reports s_confirmed None (Some (tokens "A2" "R2")))) polling)
     = Some {| saved_user := None; saved_accessToken := Some "A2";
               saved_refreshToken := Some "R2"; saved_isAuthenticated := true |}
  /\ ~ session_inv
        (store (exec (QRLogin.fire 1 (reports s_confirmed None (Some (tokens "A2" "R2"))))
                  polling))
  /\ (forall a r m, ~ session_inv (store (exec (AuthStore.setTokens a r None) m))).
Proof.
  split; [apply session_inv_anonymous|].
  split; [reflexivity|]. split; [reflexivity|]. split.
  - intros [H _]. destruct (H eq_refl) as ([u Hu] & _). discriminate Hu.
  - intros a r m. apply setTokens_without_identity.
Qed.

(** ** The poller *)

Lemma owned_delete (m : Machine) (h : positive) :
  timers_owned m -> intervalRef (page m) = Some h -> delete h (intervals m) = ∅.
Proof.
  intros Hown Href. apply map_eq. intros i. rewrite lookup_empty.
  destruct (decide (i = h)) as [->|Hne].
  - apply lookup_delete_eq.
  - rewrite lookup_delete_ne by congruence.
    destruct (intervals m !! i) eqn:E; [|reflexivity].
    assert (Hi : intervalRef (page m) = Some i) by (apply Hown; eauto).
    congruence.
Qed.

Lemma owned_lookup (m : Machine) (h : positive) (iv : Interval) :
  timers_owned m -> intervals m !! h = Some iv -> intervalRef (page m) = Some h.
Proof. intros Hown Hh. apply Hown. eauto. Qed.

Lemma stopPolling_eval m : eval QRLogin.stopPolling m = Returned tt.
Proof.
  unfold eval, QRLogin.stopPolling, bind, get. simpl.
  destruct (intervalRef (page m)); reflexivity.
Qed.

Lemma stopPolling_stops m :
  timers_owned m -> polling_stopped (exec QRLogin.stopPolling m).
Proof.
  intros Hown. unfold polling_stopped, exec, QRLogin.stopPolling, bind, get. simpl.
  destruct (intervalRef (page m)) as [h|] eqn:E; simpl.
  - split; [|reflexivity]. now apply owned_delete.
  - split; [|exact E]. apply map_eq. intros i. rewrite lookup_empty.
    destruct (intervals m !! i) eqn:Ei; [|reflexivity].
    assert (intervalRef (page m) = Some i) by (apply Hown; eauto). congruence.
Qed.

Lemma stopPolling_rest m :
  let m' := exec QRLogin.stopPolling m in
  localStorage m' = localStorage m /\ location_href m' = location_href m
  /\ network m' = network m /\ navigation m' = navigation m /\ store m' = store m
  /\ status (page m') = status (page m) /\ qrData (page m') = qrData (page m)
  /\ next_handle m' = next_handle m.
Proof.
  unfold exec, QRLogin.stopPolling, bind, get. simpl.
  destruct (intervalRef (page m)); simpl; repeat split.
Qed.

Lemma stopPolling_idempotent m :
  QRLogin.stopPolling (exec QRLogin.stopPolling m) = (Returned tt, exec QRLogin.stopPolling m).
Proof.
  unfold exec, QRLogin.stopPolling, bind, get. simpl.
  destruct (intervalRef (page m)) eqn:E; simpl; [reflexivity|].
  rewrite E. reflexivity.
Qed.

Lemma fire_dead (h : positive) net m :
  intervals m !! h = None -> QRLogin.fire h net m = (Returned tt, m).
Proof. intros H. unfold QRLogin.fire, bind, get. simpl. rewrite H. reflexivity. Qed.

Lemma fire_all_stopped events m :
  intervals m = ∅ -> QRLogin.fire_all events m = (Returned tt, m).
Proof.
  intros H. induction events as [|[h net] rest IH]; simpl; [reflexivity|].
  unfold bind. rewrite fire_dead by (rewrite H; apply lookup_empty). exact IH.
Qed.

Lemma polling_stopped_no_further_polls m : polling_stopped m -> no_further_polls m.
Proof. intros [H _] events. now apply fire_all_stopped. Qed.

Lemma polling_stopped_owned m : polling_stopped m -> timers_owned m.
Proof. intros [H _] h [iv Hh]. rewrite H, lookup_empty in Hh. discriminate. Qed.

Lemma same_timers_owned m m' :
  timers_owned m -> intervals m' = intervals m -> intervalRef (page m') = intervalRef (page m) ->
  timers_owned m'.
Proof. intros Hown Hi Hr k Hk. rewrite Hr. apply Hown. now rewrite <- Hi. Qed.

Lemma startPolling_registers sceneId m :
  let m' := exec (QRLogin.startPolling sceneId) m in
  still_polling (next_handle m) {| iv_sceneId := sceneId; iv_delay := 2000 |} m'
  /\ network m' = network m
  /\ (timers_owned m -> timers_owned m').
Proof.
  unfold exec, QRLogin.startPolling, QRLogin.setInterval, bind, get, still_polling. simpl.
  destruct (intervalRef (page m)) as [h0|] eqn:E; simpl.
  - split; [split; [apply lookup_insert_eq|reflexivity]|]. split; [reflexivity|].
    intros Hown k [iv Hk]. simpl in *.
    destruct (decide (k = next_handle m)) as [->|Hne]; [reflexivity|].
    rewrite lookup_insert_ne in Hk by congruence.
    rewrite (owned_delete m h0 Hown E), lookup_empty in Hk. discriminate.
  - split; [split; [apply lookup_insert_eq|reflexivity]|]. split; [reflexivity|].
    intros Hown k [iv Hk]. simpl in *.
    destruct (decide (k = next_handle m)) as [->|Hne]; [reflexivity|].
    rewrite lookup_insert_ne in Hk by congruence.
    assert (intervalRef (page m) = Some k) by (apply Hown; eauto). congruence.
Qed.

(** What one run of the interval callback does, case by case. *)
Lemma poll_cases (h : positive) (iv : Interval)
    (net : Exchanges (ApiResponse QRLoginStatusResponse)) (m : Machine) :
  timers_owned m ->
  intervals m !! h = Some iv ->
  let q := AuthService.getQRLoginStatus (iv_sceneId iv) net m in
  let m' := exec (QRLogin.fire h net) m in
  eval (QRLogin.fire h net) m = Returned tt
  /\ match fst q with
     | Returned response =>
         let d := data response in
         status (page m') = QRLogin.of_server (qr_status d)
         /\ match qr_status d, qr_token d with
            | s_confirmed, Some token =>
                polling_stopped m'
                /\ store m' = adopted token (qr_user d) (store m)
                /\ localStorage m' !! "access_token" = Some (access_token token)
                /\ localStorage m' !! "refresh_token" = Some (refresh_token token)
                /\ navigation m' = (navigation m ++ ["/dashboard"])%list
                /\ network m' = network (snd q)
            | s_expired, _ | s_cancelled, _ =>
                polling_stopped m'
                /\ store m' = store m
                /\ localStorage m' = localStorage (snd q)
                /\ navigation m' = navigation m
                /\ network m' = network (snd q)
            | _, _ =>
                still_polling h iv m'
                /\ intervals m' = intervals m
                /\ store m' = store m
                /\ localStorage m' = localStorage (snd q)
                /\ navigation m' = navigation m
                /\ network m' = network (snd q)
            end
     | Thrown e =>
         status (page m') = expired
         /\ polling_stopped m'
         /\ store m' = store m
         /\ navigation m' = navigation m
         /\ network m' = network (snd q)
     end.
Proof.
  intros Hown Hh q m'.
  pose proof (owned_lookup m h iv Hown Hh) as Href.
  pose proof (request_frame "GET" ("/api/v1/auth/qr/" ++ iv_sceneId iv ++ "/status")
                {| opt_data := None; opt_params := None; opt_headers := None |} net m)
    as (Hs & Hp & Hi & Hn & Hnav).
  subst q m'. unfold eval, exec in *.
  unfold QRLogin.fire, bind, get. simpl. rewrite Hh.
  unfold QRLogin.poll, try_catch, bind.
  unfold AuthService.getQRLoginStatus, apiRequest_get in *.
  destruct (request _ _ _ net m) as [[resp|e] m1]; simpl in *.
  - assert (Hd : delete h (intervals m1) = ∅).
    { rewrite Hi. now apply owned_delete. }
    destruct resp as [c msg [st u tok] ts]; simpl.
    destruct st; simpl.
    + split; [reflexivity|]. split; [reflexivity|].
      destruct tok; unfold still_polling; simpl; rewrite Hi, Hp; repeat split; assumption.
    + split; [reflexivity|]. split; [reflexivity|].
      destruct tok; unfold still_polling; simpl; rewrite Hi, Hp; repeat split; assumption.
    + destruct tok as [token|]; simpl.
      * unfold QRLogin.stopPolling, bind, get. simpl. rewrite Hp, Href. simpl.
        split; [reflexivity|]. split; [reflexivity|].
        unfold polling_stopped, adopted. simpl. rewrite Hd, Hs, Hnav.
        repeat split.
        -- rewrite lookup_insert_ne by done. apply lookup_insert_eq.
        -- apply lookup_insert_eq.
      * split; [reflexivity|]. split; [reflexivity|].
        unfold still_polling; simpl; rewrite Hi, Hp; repeat split; assumption.
    + unfold QRLogin.stopPolling, bind, get. simpl. rewrite Hp, Href. simpl.
      split; [reflexivity|]. split; [reflexivity|].
      destruct tok; unfold polling_stopped; simpl; rewrite Hd; repeat split; assumption.
    + unfold QRLogin.stopPolling, bind, get. simpl. rewrite Hp, Href. simpl.
      split; [reflexivity|]. split; [reflexivity|].
      destruct tok; unfold polling_stopped; simpl; rewrite Hd; repeat split; assumption.
  - unfold QRLogin.stopPolling, bind, get. simpl. rewrite Hp, Href. simpl.
    split; [reflexivity|]. split; [reflexivity|].
    unfold polling_stopped. simpl. rewrite Hi, (owned_delete m h Hown Href).
    repeat split; assumption.
Qed.

(** C6.  The step of the poller.  [startPolling] registers its callback
    with a delay of 2000 ms.  When the callback of the live timer [h] runs,
    the answer of its status query decides: [pending] and [scanned] are
    shown and the timer stays; [confirmed] with a token stops the timer,
    puts the pair into the session (authenticated, tokens also in
    [localStorage]), navigates to the dashboard, and no later clock event
    sends anything; [expired] and [cancelled] are shown and stop the timer;
    a failed query stops the timer and shows [expired]. *)
Theorem poller_step (h : positive) (iv : Interval)
    (net : Exchanges (ApiResponse QRLoginStatusResponse)) (m : Machine) :
  timers_owned m ->
  intervals m !! h = Some iv ->
  let q := AuthService.getQRLoginStatus (iv_sceneId iv) net m in
  let m' := exec (QRLogin.fire h net) m in
  (forall sceneId m0,
      still_polling (next_handle m0) {| iv_sceneId := sceneId; iv_delay := 2000 |}
        (exec (QRLogin.startPolling sceneId) m0))
  /\ eval (QRLogin.fire h net) m = Returned tt
  /\ (forall response, fst q = Returned response ->
        match qr_status (data response) with
        | s_pending =>
            status (page m') = pending /\ still_polling h iv m' /\ store m' = store m
        | s_scanned =>
            status (page m') = scanned /\ still_polling h iv m' /\ store m' = store m
        | s_confirmed =>
            forall token, qr_token (data response) = Some token ->
              status (page m') = confirmed
              /\ polling_stopped m' /\ no_further_polls m'
              /\ store m' = adopted token (qr_user (data response)) (store m)
              /\ localStorage m' !! "access_token" = Some (access_token token)
              /\ localStorage m' !! "refresh_token" = Some (refresh_token token)
              /\ navigation m' = (navigation m ++ ["/dashboard"])%list
        | s_expired =>
            status (page m') = expired
            /\ polling_stopped m' /\ no_further_polls m' /\ store m' = store m
        | s_cancelled =>
            status (page m') = cancelled
            /\ polling_stopped m' /\ no_further_polls m' /\ store m' = store m
        end)
  /\ (forall e, fst q = Thrown e ->
        status (page m') = expired
        /\ polling_stopped m' /\ no_further_polls m' /\ store m' = store m).
Proof.
  intros Hown Hh q m'.
  destruct (poll_cases h iv net m Hown Hh) as [Hret Hcases].
  fold q m' in Hcases.
  split; [intros sceneId m0; apply startPolling_registers|].
  split; [exact Hret|]. split.
  - intros response Hq. rewrite Hq in Hcases. cbv zeta in Hcases.
    destruct Hcases as [Hst Hc]. rewrite Hst.
    destruct (qr_status (data response)); simpl.
    + destruct (qr_token (data response)); destruct Hc as (? & ? & ? & _); auto.
    + destruct (qr_token (data response)); destruct Hc as (? & ? & ? & _); auto.
    + intros token Htok. rewrite Htok in Hc.
      destruct Hc as (Hs & Ha & Hl1 & Hl2 & Hn & _).
      repeat split; try assumption; try apply Hs.
      now apply polling_stopped_no_further_polls.
    + assert (Hc' : polling_stopped m' /\ store m' = store m).
      { destruct (qr_token (data response)); destruct Hc as (? & ? & _); auto. }
      destruct Hc' as [Hs Hstore].
      repeat split; try assumption; try apply Hs.
      now apply polling_stopped_no_further_polls.
    + assert (Hc' : polling_stopped m' /\ store m' = store m).
      { destruct (qr_token (data response)); destruct Hc as (? & ? & _); auto. }
      destruct Hc' as [Hs Hstore].
      repeat split; try assumption; try apply Hs.
      now apply polling_stopped_no_further_polls.
  - intros e Hq. rewrite Hq in Hcases. destruct Hcases as (Hst & Hs & Hstore & _).
    repeat split; try assumption; try apply Hs.
    now apply polling_stopped_no_further_polls.
Qed.

(** ** The log only grows, and every pipeline call starts with its request *)

Lemma handleAuthError_log {T} (orig : M T) url ra m :
  (forall m0, exists rest, network (exec orig m0) = (network m0 ++ rest)%list) ->
  exists rest, network (exec (handleAuthError orig url ra) m) = (network m ++ rest)%list.
Proof.
  intros Horig. unfold exec, handleAuthError.
  destruct (is_auth_url url); [exists []; simpl; now rewrite app_nil_r|].
  unfold try_catch, bind, getItem, get, ret. simpl.
  destruct (truthy (localStorage m !! "refresh_token")); simpl;
    [|exists []; now rewrite app_nil_r].
  destruct ra as [[st rd|st txt d|st]| |reason]; simpl; try (eexists; reflexivity).
  match goal with |- context [orig ?m1] =>
    destruct (Horig m1) as [rest Hrest]; unfold exec in Hrest;
    destruct (orig m1) as [[a|e] m2] end;
    simpl in *; rewrite Hrest, <- app_assoc; eexists; reflexivity.
Qed.

Lemma request_log {T} method endpoint options (net : Exchanges T) m :
  exists rest,
    network (exec (request method endpoint options net) m)
    = (network m ++ request_in m method endpoint options :: rest)%list.
Proof.
  unfold exec, request, try_catch. rewrite makeRequest_run.
  destruct (yield (first net)) as [a|e]; simpl; [eexists; reflexivity|].
  destruct (decide (error_status e = Some 401)); simpl; [|eexists; reflexivity].
  match goal with |- context [handleAuthError ?o ?u ?r ?m1] =>
    destruct (handleAuthError_log o u r m1) as [rest Hrest] end.
  - intros m0. unfold exec. rewrite makeRequest_run. simpl. eexists; reflexivity.
  - unfold exec in Hrest. rewrite Hrest. simpl. rewrite <- app_assoc. simpl.
    eexists; reflexivity.
Qed.

(** C10.  A status answer [confirmed] that carries no token: the page shows
    [confirmed], but the timer stays registered (same handle, same delay),
    no credentials are adopted -- session state and [localStorage] are what
    the status query left -- there is no navigation, and at the next clock
    event the callback sends a status query again. *)
Theorem confirmed_without_token_keeps_polling (h : positive) (iv : Interval)
    (net : Exchanges (ApiResponse QRLoginStatusResponse)) (m : Machine)
    (response : ApiResponse QRLoginStatusResponse) :
  timers_owned m ->
  intervals m !! h = Some iv ->
  eval (AuthService.getQRLoginStatus (iv_sceneId iv) net) m = Returned response ->
  qr_status (data response) = s_confirmed ->
  qr_token (data response) = None ->
  let m' := exec (QRLogin.fire h net) m in
  status (page m') = confirmed
  /\ still_polling h iv m'
  /\ intervals m' = intervals m
  /\ store m' = store m
  /\ localStorage m' = localStorage (exec (AuthService.getQRLoginStatus (iv_sceneId iv) net) m)
  /\ navigation m' = navigation m
  /\ (forall net2, exists rest,
        network (exec (QRLogin.fire h net2) m')
        = (network m' ++ status_request_in m' (iv_sceneId iv) :: rest)%list).
Proof.
  intros Hown Hh Hq Hst Htok m'.
  destruct (poll_cases h iv net m Hown Hh) as [_ Hcases].
  fold m' in Hcases. unfold eval in Hq. rewrite Hq in Hcases. cbv zeta in Hcases.
  rewrite Hst, Htok in Hcases.
  destruct Hcases as (Hshow & Hpoll & Hi & Hs & Hl & Hn & _).
  repeat split; try assumption; try apply Hpoll.
  intros net2. unfold exec at 1. unfold QRLogin.fire, bind, get. simpl.
  destruct Hpoll as [Hlive Href]. rewrite Hlive.
  unfold QRLogin.poll, try_catch, bind, AuthService.getQRLoginStatus, apiRequest_get.
  pose proof (request_log "GET" ("/api/v1/auth/qr/" ++ iv_sceneId iv ++ "/status")
                {| opt_data := None; opt_params := None; opt_headers := None |} net2 m')
    as [rest Hrest].
  exists rest. unfold status_request_in. rewrite <- Hrest. unfold exec.
  destruct (request _ _ _ net2 m') as [[resp|e] m1]; simpl.
  - destruct resp as [c msg [st u tok] ts]; simpl.
    destruct st; simpl; try reflexivity;
      try (destruct tok; simpl; try reflexivity);
      unfold QRLogin.stopPolling, bind, get; simpl;
      destruct (intervalRef (page m1)); reflexivity.
  - unfold QRLogin.stopPolling, bind, get; simpl.
    destruct (intervalRef (page m1)); reflexivity.
Qed.

(** ** Reachable machines own their timers *)

Lemma fresh_owned : timers_owned fresh.
Proof. intros h [iv H]. unfold fresh in H. simpl in H. rewrite lookup_empty in H. discriminate. Qed.

Lemma stopPolling_owned m : timers_owned m -> timers_owned (exec QRLogin.stopPolling m).
Proof. intros H. now apply polling_stopped_owned, stopPolling_stops. Qed.

Lemma page_setter_owned (f : QRPage -> QRPage) m :
  (forall p, intervalRef (f p) = intervalRef p) ->
  timers_owned m -> timers_owned (with_page f m).
Proof. intros Hf Hown h Hh. simpl. rewrite Hf. now apply Hown. Qed.

Lemma request_resume_frame {T} method endpoint options (net : Exchanges T) m :
  pipeline_frame m (exec (request_resume method endpoint options net) m).
Proof.
  unfold exec, request_resume, try_catch, bind, settle, handleResponse.
  destruct (first net) as [[st d|st txt d|st]| |reason]; simpl;
    try apply pipeline_frame_refl.
  destruct (decide (Some st = Some 401)); simpl; [|apply pipeline_frame_refl].
  apply handleAuthError_frame. intros; apply makeRequest_frame.
Qed.

Lemma createQR_resume_owned userPoolId net m :
  timers_owned m -> timers_owned (exec (QRLogin.createQR_resume userPoolId net) m).
Proof.
  intros Hown. unfold exec, QRLogin.createQR_resume, try_finally, try_catch, bind.
  unfold AuthService.createQRLogin_resume.
  pose proof (request_resume_frame "GET" "/api/v1/auth/qr/create"
                (AuthService.createQRLogin_options userPoolId QRLogin.appId) net m) as Hframe.
  unfold exec in Hframe.
  destruct (request_resume _ _ _ net m) as [[resp|e] m1]; simpl in *.
  - assert (Hown1 : timers_owned m1).
    { destruct Hframe as (_ & Hp & Hi & _).
      apply (same_timers_owned m m1 Hown Hi). now rewrite Hp. }
    match goal with |- context [QRLogin.startPolling ?s ?m2] =>
      pose proof (startPolling_registers s m2) as (_ & _ & Hstart);
      unfold exec in Hstart; destruct (QRLogin.startPolling s m2) as [[[]|e2] m3] end;
      simpl in *;
      (apply page_setter_owned; [reflexivity|]);
      try (apply page_setter_owned; [reflexivity|]);
      apply Hstart; repeat (apply page_setter_owned; [reflexivity|]); exact Hown1.
  - destruct Hframe as (_ & Hp & Hi & _).
    repeat (apply page_setter_owned; [reflexivity|]).
    apply (same_timers_owned m m1 Hown Hi). now rewrite Hp.
Qed.

Lemma request_begin_run method endpoint options m :
  request_begin method endpoint options m
  = (Returned tt, with_network (fun l => (l ++ [request_in m method endpoint options])%list) m).
Proof. reflexivity. Qed.

Lemma createQR_split userPoolId net m :
  QRLogin.createQR userPoolId net m
  = (QRLogin.createQR_begin userPoolId ;; QRLogin.createQR_resume userPoolId net) m.
Proof.
  unfold QRLogin.createQR, QRLogin.createQR_begin, QRLogin.createQR_resume,
    AuthService.createQRLogin, AuthService.createQRLogin_begin,
    AuthService.createQRLogin_resume, apiRequest_get, try_finally, try_catch, bind,
    QRLogin.setIsCreating, modify.
  fold (AuthService.createQRLogin_options userPoolId QRLogin.appId).
  cbv beta iota.
  rewrite request_split. unfold bind. rewrite request_begin_run. reflexivity.
Qed.

Lemma createQR_begin_owned userPoolId m :
  timers_owned m -> timers_owned (exec (QRLogin.createQR_begin userPoolId) m).
Proof. intros Hown h Hh. apply Hown, Hh. Qed.

Lemma createQR_owned userPoolId net m :
  timers_owned m -> timers_owned (exec (QRLogin.createQR userPoolId net) m).
Proof.
  intros Hown. unfold exec. rewrite createQR_split. unfold bind.
  pose proof (createQR_begin_owned userPoolId m Hown) as H1. unfold exec in H1.
  destruct (QRLogin.createQR_begin userPoolId m) as [[[]|e] m1] eqn:E; simpl in *.
  - now apply createQR_resume_owned.
  - exact H1.
Qed.

Lemma fire_owned h net m :
  timers_owned m -> timers_owned (exec (QRLogin.fire h net) m).
Proof.
  intros Hown. destruct (intervals m !! h) as [iv|] eqn:Hh.
  - destruct (poll_cases h iv net m Hown Hh) as [_ Hcases]. cbv zeta in Hcases.
    destruct (fst (AuthService.getQRLoginStatus (iv_sceneId iv) net m)) as [resp|e].
    + destruct Hcases as [_ Hc].
      destruct (qr_status (data resp)), (qr_token (data resp));
        try (apply polling_stopped_owned, Hc);
        destruct Hc as ([_ Href] & Hi & _);
        apply (same_timers_owned m _ Hown Hi); rewrite Href; symmetry;
        now apply (owned_lookup m h iv).
    + apply polling_stopped_owned, Hcases.
  - unfold exec. now rewrite fire_dead.
Qed.

Lemma refreshQR_owned userPoolId net m :
  timers_owned m -> timers_owned (exec (QRLogin.refreshQR userPoolId net) m).
Proof.
  intros Hown. unfold exec, QRLogin.refreshQR, bind.
  pose proof (stopPolling_owned m Hown) as H1. pose proof (stopPolling_eval m) as H2.
  unfold exec, eval in H1, H2.
  destruct (QRLogin.stopPolling m) as [[[]|e] m1]; simpl in *; [|discriminate].
  apply (createQR_owned userPoolId net).
  repeat (apply page_setter_owned; [reflexivity|]). exact H1.
Qed.

Lemma polling_owned : timers_owned polling.
Proof. apply createQR_owned, fresh_owned. Qed.

Lemma poller_step_witness :
  timers_owned polling
  /\ intervals polling !! 1%positive = Some polling_S1
  /\ status (page (exec (QRLogin.fire 1 (reports s_confirmed (Some alice) (Some (tokens "A2" "R2"))))
                     polling)) = confirmed
  /\ polling_stopped
       (exec (QRLogin.fire 1 (reports s_confirmed (Some alice) (Some (tokens "A2" "R2")))) polling)
  /\ no_further_polls
       (exec (QRLogin.fire 1 (reports s_confirmed (Some alice) (Some (tokens "A2" "R2")))) polling)
  /\ store (exec (QRLogin.fire 1 (reports s_confirmed (Some alice) (Some (tokens "A2" "R2"))))
              polling)
     = {| user := Some alice; accessToken := Some "A2"; refreshToken := Some "R2";
          isAuthenticated := true; isLoading := false |}.
Proof.
  split; [exact polling_owned|]. split; [reflexivity|].
  destruct (poller_step 1 polling_S1
              (reports s_confirmed (Some alice) (Some (tokens "A2" "R2")))
              polling polling_owned eq_refl) as (_ & _ & Hresp & _).
  specialize (Hresp _ eq_refl (tokens "A2" "R2") eq_refl).
  destruct Hresp as (H1 & H2 & H3 & H4 & _).
  split; [exact H1|]. split; [exact H2|]. split; [exact H3|]. exact H4.
Defined.

Lemma confirmed_without_token_keeps_polling_witness :
  timers_owned polling
  /\ intervals polling !! 1%positive = Some polling_S1
  /\ status (page (exec (QRLogin.fire 1 (reports s_confirmed (Some alice) None)) polling))
     = confirmed
  /\ still_polling 1 polling_S1
       (exec (QRLogin.fire 1 (reports s_confirmed (Some alice) None)) polling)
  /\ store (exec (QRLogin.fire 1 (reports s_confirmed (Some alice) None)) polling)
     = AuthStore.anonymous
  /\ length (network (exec (QRLogin.fire 1 (reports s_confirmed (Some alice) None))
                        (exec (QRLogin.fire 1 (reports s_confirmed (Some alice) None)) polling)))
     = 3%nat.
Proof.
  split; [exact polling_owned|]. split; [reflexivity|].
  destruct (confirmed_without_token_keeps_polling 1 polling_S1
              (reports s_confirmed (Some alice) None) polling
              (envelope {| qr_status := s_confirmed; qr_user := Some alice; qr_token := None |})
              polling_owned eq_refl eq_refl eq_refl eq_refl) as (H1 & H2 & _ & H4 & _).
  split; [exact H1|]. split; [exact H2|]. split; [exact H4|]. reflexivity.
Defined.

(** The scenario of the spec: ceremony [S1] created; poll 1 answers
    [pending], poll 2 [scanned], poll 3 [confirmed] with [{A2, R2}].  Then
    the poller has stopped, the session is authenticated with [{A2, R2}],
    four requests were sent (the creation and three polls), and no clock
    event sends a fifth. *)
Example qr_scenario :
  status (page polling) = pending
  /\ status (page after_three_polls) = confirmed
  /\ polling_stopped after_three_polls
  /\ store after_three_polls
     = {| user := Some alice; accessToken := Some "A2"; refreshToken := Some "R2";
          isAuthenticated := true; isLoading := false |}
  /\ navigation after_three_polls = ["/dashboard"]
  /\ map (fun r => endpoint (url r)) (network after_three_polls)
     = [ "/api/v1/auth/qr/create"; "/api/v1/auth/qr/S1/status";
         "/api/v1/auth/qr/S1/status"; "/api/v1/auth/qr/S1/status" ]
  /\ (forall events, network (exec (QRLogin.fire_all events) after_three_polls)
                     = network after_three_polls).
Proof.
  assert (Hs : polling_stopped after_three_polls) by (split; reflexivity).
  do 2 (split; [reflexivity|]). split; [exact Hs|]. do 3 (split; [reflexivity|]).
  intros events. pose proof (polling_stopped_no_further_polls _ Hs events) as H.
  unfold exec. now rewrite H.
Qed.

(** ** Teardown *)

(** The clean-up of the page as far as the timer goes: [stopPolling] never
    throws and sends nothing, a second call changes nothing, and on a machine
    that owns its timers no timer is live afterwards, so that no clock event
    sends a poll. *)
Lemma stopPolling_teardown (m : Machine) :
  eval QRLogin.stopPolling m = Returned tt
  /\ network (exec QRLogin.stopPolling m) = network m
  /\ QRLogin.stopPolling (exec QRLogin.stopPolling m) = (Returned tt, exec QRLogin.stopPolling m)
  /\ intervalRef (page (exec QRLogin.stopPolling m)) = None
  /\ (timers_owned m -> no_further_polls (exec QRLogin.stopPolling m)).
Proof.
  split; [apply stopPolling_eval|].
  split; [apply (stopPolling_rest m)|].
  split; [apply stopPolling_idempotent|]. split.
  - unfold exec, QRLogin.stopPolling, bind, get. simpl.
    destruct (intervalRef (page m)) eqn:E; [reflexivity|exact E].
  - intros Hown. now apply polling_stopped_no_further_polls, stopPolling_stops.
Qed.

(** C7, where the code departs from it.  The page is discarded while the
    creation call is still in flight: the clean-up, run twice, finds no
    timer and clears nothing.  When the creation call is answered
    afterwards, [createQR] goes on to [startPolling]: timer 1 is live on a
    discarded page, and at the next clock event a status query for [S1] is
    sent -- a poll request after teardown. *)
Theorem poll_fires_after_teardown_during_creation :
  polling_stopped discarded_while_creating
  /\ map (fun r => endpoint (url r)) (network discarded_while_creating)
     = [ "/api/v1/auth/qr/create" ]
  /\ still_polling 1 polling_S1 created_after_discard
  /\ network created_after_discard = network discarded_while_creating
  /\ network polled_after_discard
     = (network discarded_while_creating ++ [status_request_in created_after_discard "S1"])%list
  /\ map (fun r => endpoint (url r)) (network polled_after_discard)
     = [ "/api/v1/auth/qr/create"; "/api/v1/auth/qr/S1/status" ].
Proof.
  split; [split; reflexivity|].
  split; [reflexivity|].
  split; [split; reflexivity|].
  split; [reflexivity|].
  split; [reflexivity|].
  reflexivity.
Qed.

(* ================================================================== *)
(** * Further properties *)
(* ================================================================== *)

(** ** The pipeline, path by path *)

Lemma request_unfold {T} method endpoint options (net : Exchanges T) m :
  request method endpoint options net m = request_paths method endpoint options net m.
Proof.
  unfold request, request_paths, try_catch, logged. rewrite makeRequest_run.
  destruct (yield (first net)) as [a|e]; [reflexivity|].
  destruct (decide (error_status e = Some 401)); [|reflexivity].
  unfold handleAuthError.
  destruct (is_auth_url endpoint); [reflexivity|].
  unfold try_catch, bind, getItem, get, ret. simpl.
  destruct (truthy (localStorage m !! "refresh_token")); simpl; [|reflexivity].
  destruct (refresh net) as [[st rd|st txt d|st]| |reason]; simpl; try reflexivity.
  rewrite makeRequest_run.
  destruct (yield (retry net)); reflexivity.
Qed.

Lemma wiped_other_keys m : other_keys_kept m (wiped m).
Proof.
  intros k Ha Hr. unfold wiped. simpl.
  rewrite lookup_delete_ne by congruence. now rewrite lookup_delete_ne by congruence.
Qed.

Lemma refreshed_other_keys rd m : other_keys_kept m (refreshed rd m).
Proof.
  intros k Ha Hr. unfold refreshed. simpl.
  rewrite lookup_insert_ne by congruence. now rewrite lookup_insert_ne by congruence.
Qed.

Lemma other_keys_kept_refl m : other_keys_kept m m.
Proof. intros k _ _. reflexivity. Qed.

Lemma other_keys_kept_trans m1 m2 m3 :
  other_keys_kept m1 m2 -> other_keys_kept m2 m3 -> other_keys_kept m1 m3.
Proof. intros H1 H2 k Ha Hr. rewrite H2, H1 by assumption. reflexivity. Qed.

Lemma wiped_pair_intact m : pair_intact (wiped m).
Proof.
  destruct (wiped_credentials_removed m) as [Ha Hr].
  unfold pair_intact. rewrite Ha, Hr. reflexivity.
Qed.

Lemma refreshed_pair_intact rd m : pair_intact (refreshed rd m).
Proof.
  unfold pair_intact, refreshed. simpl.
  rewrite lookup_insert_ne by done. rewrite !lookup_insert_eq.
  split; intros _; eexists; reflexivity.
Qed.

Section PipelinePaths.

Context {T : Type}.
Implicit Types (m : Machine) (net : Exchanges T).

(** X1.  Without a 401 the pipeline is one exchange: the caller gets what
    [handleResponse] made of the answer -- the data, or the failure as it
    is, whether a status, a time-out, a network or a parse error -- and the
    machine differs by the one logged request only. *)
Theorem request_without_401 method endpoint options net m :
  (forall e, yield (first net) = Thrown e -> error_status e <> Some 401) ->
  request method endpoint options net m
  = (yield (first net), logged (request_in m method endpoint options) m).
Proof.
  intros H. rewrite request_unfold. unfold request_paths.
  destruct (yield (first net)) as [a|e] eqn:E; [reflexivity|].
  destruct (decide (error_status e = Some 401)) as [He|]; [|reflexivity].
  exfalso. exact (H e eq_refl He).
Qed.

(** X2.  A 401 off the sign-in and refresh paths, with a refresh token, whose
    refresh call fails in any way: the caller gets the failure of the
    refresh call, the original request is not sent again (the log grows by
    the original and the refresh request), both credential keys are removed
    and the browser is sent to the sign-in page. *)
Theorem request_401_refresh_failure method endpoint options net m statusText d e :
  is_auth_url endpoint = false ->
  first net = Resolved (NotOk 401 statusText d) ->
  truthy (localStorage m !! "refresh_token") = true ->
  yield (refresh net) = Thrown e ->
  let m' := exec (request method endpoint options net) m in
  eval (request method endpoint options net) m = Thrown e
  /\ network m'
     = (network m ++ [request_in m method endpoint options;
                      refresh_request_in (logged (request_in m method endpoint options) m)])%list
  /\ credentials_removed m'
  /\ location_href m' = "/auth/login".
Proof.
  intros Hurl Hfirst Ht Hy m'. subst m'. unfold eval, exec.
  rewrite request_unfold. unfold request_paths. rewrite Hfirst. simpl.
  rewrite Hurl, Ht, Hy. simpl.
  split; [reflexivity|]. split; [now rewrite <- app_assoc|].
  split; [apply wiped_credentials_removed|reflexivity].
Qed.

(** X3.  A 401 off the sign-in and refresh paths that a refresh heals: the
    caller gets the data of the re-issued request; [localStorage] holds the
    renewed pair; the location is untouched; three requests went out, the
    third built after the renewal, so that it carries the new access token
    as its bearer (when that token is not the empty string and the caller
    passed no headers of its own). *)
Theorem request_401_healed method endpoint options net m statusText d st rd st' a :
  is_auth_url endpoint = false ->
  first net = Resolved (NotOk 401 statusText d) ->
  truthy (localStorage m !! "refresh_token") = true ->
  refresh net = Resolved (Ok st rd) ->
  retry net = Resolved (Ok st' a) ->
  let m1 := logged (request_in m method endpoint options) m in
  let m2 := refreshed rd m1 in
  let m' := exec (request method endpoint options net) m in
  eval (request method endpoint options net) m = Returned a
  /\ localStorage m' !! "access_token" = Some (new_access_token (data rd))
  /\ localStorage m' !! "refresh_token" = Some (new_refresh_token (data rd))
  /\ location_href m' = location_href m
  /\ network m'
     = (network m ++ [request_in m method endpoint options;
                      refresh_request_in m1;
                      request_in m2 method endpoint options])%list
  /\ (opt_headers options = None -> new_access_token (data rd) <> "" ->
      headers (request_in m2 method endpoint options) !! "Authorization"
      = Some ("Bearer " ++ new_access_token (data rd))).
Proof.
  intros Hurl Hfirst Ht Hrefresh Hretry m1 m2 m'. subst m'. unfold eval, exec.
  rewrite request_unfold. unfold request_paths. rewrite Hfirst. simpl.
  rewrite Hurl, Ht, Hrefresh, Hretry. simpl.
  split; [reflexivity|]. split.
  { rewrite lookup_insert_ne by done. apply lookup_insert_eq. }
  split; [apply lookup_insert_eq|]. split; [reflexivity|]. split.
  { rewrite <- !app_assoc. reflexivity. }
  intros Hnone Hne. unfold request_in. simpl. rewrite Hnone. simpl.
  rewrite lookup_insert_ne by done. rewrite lookup_insert_eq. simpl.
  destruct (String.eqb_spec (new_access_token (data rd)) ""); [contradiction|]. simpl.
  rewrite (left_id_L ∅ (∪)). apply lookup_insert_eq.
Qed.

End PipelinePaths.

(** Closes [other_keys_kept m m'] when [m'] is [m] after inserts and
    deletes at the credential keys. *)
Ltac other_keys :=
  let k := fresh "k" in
  intros k ? ?; unfold wiped, refreshed, logged; simpl;
  rewrite ?lookup_delete_ne, ?lookup_insert_ne by congruence; reflexivity.

Section PipelineDiscipline.

Context {T : Type}.
Implicit Types (m : Machine) (net : Exchanges T).

(** X4.  One pipeline call sends the original request first and at most two
    more; off the sign-in and refresh paths at most one of its requests goes
    to the refresh endpoint. *)
Theorem request_sends_at_most_three method endpoint options net m :
  let m' := exec (request method endpoint options net) m in
  (exists rest,
      network m' = (network m ++ request_in m method endpoint options :: rest)%list
      /\ (length rest <= 2)%nat)
  /\ (is_auth_url endpoint = false ->
      (refresh_calls m <= refresh_calls m' <= refresh_calls m + 1)%nat).
Proof.
  intros m'. subst m'. unfold exec. rewrite request_unfold. unfold request_paths.
  assert (Hone : forall m0, is_auth_url endpoint = false ->
            refresh_calls (logged (request_in m0 method endpoint options) m0) = refresh_calls m0).
  { intros m0 Hurl. unfold logged. rewrite refresh_calls_snoc.
    rewrite request_in_not_refresh by assumption. lia. }
  assert (Hwipe : forall m0, refresh_calls (wiped m0) = refresh_calls m0) by reflexivity.
  assert (Href : forall m0, refresh_calls (logged (refresh_request_in m0) m0)
                            = S (refresh_calls m0)).
  { intros m0. unfold logged. rewrite refresh_calls_snoc.
    unfold is_refresh_call. simpl. lia. }
  assert (Hrefd : forall rd m0, refresh_calls (refreshed rd m0) = S (refresh_calls m0)).
  { intros rd m0. unfold refreshed. apply (Href m0). }
  destruct (yield (first net)) as [a|e]; simpl.
  { split; [exists []; split; [reflexivity|simpl; lia]|]. intros Hurl. rewrite (Hone m Hurl). lia. }
  destruct (decide (error_status e = Some 401)); simpl.
  2:{ split; [exists []; split; [reflexivity|simpl; lia]|].
      intros Hurl. rewrite (Hone m Hurl). lia. }
  destruct (is_auth_url endpoint) eqn:Hurl; simpl.
  { split; [exists []; split; [reflexivity|simpl; lia]|]. discriminate. }
  destruct (truthy (localStorage m !! "refresh_token")); simpl.
  2:{ split; [exists []; split; [reflexivity|simpl; lia]|].
      intros _. rewrite Hwipe, (Hone m eq_refl). lia. }
  destruct (yield (refresh net)) as [rd|e']; simpl.
  - destruct (yield (retry net)) as [a|e'']; simpl.
    + split.
      * eexists [_; _]. split; [|simpl; lia]. unfold refreshed. simpl.
        rewrite <- !app_assoc. reflexivity.
      * intros _. rewrite (Hone _ eq_refl), Hrefd, (Hone m eq_refl). lia.
    + split.
      * eexists [_; _]. split; [|simpl; lia]. unfold refreshed. simpl.
        rewrite <- !app_assoc. reflexivity.
      * intros _. rewrite Hwipe, (Hone _ eq_refl), Hrefd, (Hone m eq_refl). lia.
  - split.
    + eexists [_]. split; [|simpl; lia]. simpl. rewrite <- !app_assoc. reflexivity.
    + intros _. rewrite Hwipe, Href, (Hone m eq_refl). lia.
Qed.

(** X5.  What a pipeline call may do to the browser's storage and location:
    it writes no key of [localStorage] but the two credential keys, and it
    changes [window.location] only to the sign-in page and only after it
    has removed both credential keys. *)
Theorem request_storage_discipline method endpoint options net m :
  let m' := exec (request method endpoint options net) m in
  other_keys_kept m m'
  /\ (location_href m' = location_href m
      \/ (location_href m' = "/auth/login" /\ credentials_removed m')).
Proof.
  intros m'. subst m'. unfold exec. rewrite request_unfold. unfold request_paths.
  destruct (yield (first net)) as [a|e]; simpl.
  { split; [other_keys|left; reflexivity]. }
  destruct (decide (error_status e = Some 401)); simpl.
  2:{ split; [other_keys|left; reflexivity]. }
  destruct (is_auth_url endpoint); simpl.
  { split; [other_keys|left; reflexivity]. }
  destruct (truthy (localStorage m !! "refresh_token")); simpl.
  2:{ split; [other_keys|].
      right. split; [reflexivity|apply wiped_credentials_removed]. }
  destruct (yield (refresh net)) as [rd|e']; simpl.
  - destruct (yield (retry net)) as [a|e'']; simpl.
    + split; [other_keys|left; reflexivity].
    + split; [other_keys|].
      right. split; [reflexivity|apply wiped_credentials_removed].
  - split; [other_keys|].
    right. split; [reflexivity|apply wiped_credentials_removed].
Qed.

(** X6.  A pipeline call never leaves half a credential pair behind: if both
    keys or neither were in [localStorage] before, so it is afterwards. *)
Theorem request_keeps_pair_intact method endpoint options net m :
  pair_intact m ->
  pair_intact (exec (request method endpoint options net) m).
Proof.
  intros Hm. unfold exec. rewrite request_unfold. unfold request_paths.
  destruct (yield (first net)) as [a|e]; [exact Hm|].
  destruct (decide (error_status e = Some 401)); [|exact Hm].
  destruct (is_auth_url endpoint); [exact Hm|].
  destruct (truthy (localStorage m !! "refresh_token")); cbn [negb];
    [|apply wiped_pair_intact].
  destruct (yield (refresh net)) as [rd|e']; [|apply wiped_pair_intact].
  cbv zeta. destruct (yield (retry net)) as [a|e''].
  - apply (refreshed_pair_intact rd).
  - apply wiped_pair_intact.
Qed.

(** X7.  The pipeline never writes the session store: after any call the
    zustand state is what it was.  So a renewal that changes the access
    token leaves the store holding the old one, out of step with
    [localStorage]. *)
Theorem request_never_writes_session method endpoint options net m :
  let m' := exec (request method endpoint options net) m in
  store m' = store m
  /\ (forall statusText d st rd st' a,
        is_auth_url endpoint = false ->
        first net = Resolved (NotOk 401 statusText d) ->
        truthy (localStorage m !! "refresh_token") = true ->
        refresh net = Resolved (Ok st rd) ->
        retry net = Resolved (Ok st' a) ->
        accessToken (store m) <> Some (new_access_token (data rd)) ->
        ~ in_sync m').
Proof.
  intros m'. split; [apply store_after_request|].
  intros statusText d st rd st' a Hurl Hfirst Ht Hrefresh Hretry Hold [Hsync _].
  subst m'. rewrite store_after_request in Hsync.
  unfold exec in Hsync. rewrite request_unfold in Hsync. unfold request_paths in Hsync.
  rewrite Hfirst in Hsync. simpl in Hsync.
  rewrite Hurl, Ht, Hrefresh, Hretry in Hsync. simpl in Hsync.
  rewrite lookup_insert_ne in Hsync by done. rewrite lookup_insert_eq in Hsync.
  congruence.
Qed.

End PipelineDiscipline.

(** ** Building a request *)

(** X8.  [createHeaders] only reads.  In the headers it returns, a header of
    the caller wins over a default of the same name; without one,
    [Authorization] is the bearer of the stored access token when that is
    neither missing nor empty and absent otherwise, [Content-Type] is
    [application/json], and there is no other header. *)
Theorem createHeaders_headers (additional : option (gmap string string)) (m : Machine) :
  exists h : gmap string string,
    createHeaders additional m = (Returned h, m)
    /\ forall k : string,
        h !! k =
        match default ∅ additional !! k with
        | Some v => Some v
        | None =>
            if decide (k = "Authorization") then
              match localStorage m !! "access_token" with
              | Some t => if String.eqb t "" then None else Some ("Bearer " ++ t)
              | None => None
              end
            else if decide (k = "Content-Type") then Some "application/json"
            else None
        end.
Proof.
  eexists. split; [reflexivity|]. intros k.
  destruct (default ∅ additional !! k) as [v|] eqn:Ek.
  - now apply lookup_union_Some_l.
  - rewrite lookup_union_r by exact Ek.
    unfold truthy, API_CONFIG_headers.
    destruct (localStorage m !! "access_token") as [t|]; simpl.
    + destruct (String.eqb t ""); simpl.
      * destruct (decide (k = "Authorization")) as [->|Hk]; [reflexivity|].
        destruct (decide (k = "Content-Type")) as [->|Hc]; [reflexivity|].
        now apply lookup_singleton_ne.
      * destruct (decide (k = "Authorization")) as [->|Hk]; [apply lookup_insert_eq|].
        rewrite lookup_insert_ne by congruence.
        destruct (decide (k = "Content-Type")) as [->|Hc]; [reflexivity|].
        now apply lookup_singleton_ne.
    + destruct (decide (k = "Authorization")) as [->|Hk]; [reflexivity|].
      destruct (decide (k = "Content-Type")) as [->|Hc]; [reflexivity|].
      now apply lookup_singleton_ne.
Qed.

(** X9.  [buildUrl] keeps the endpoint and puts exactly the parameters that
    have a value into the query, in the order given; a parameter that is
    [null] or [undefined] never appears, and without parameters the query
    is empty. *)
Theorem buildUrl_query (e : string) (ps : list (string * option Scalar)) :
  endpoint (buildUrl e (Some ps)) = e
  /\ query (buildUrl e None) = []
  /\ (forall k v, (k, v) ∈ query (buildUrl e (Some ps)) <-> (k, Some v) ∈ ps)
  /\ map fst (query (buildUrl e (Some ps))) `sublist_of` map fst ps
  /\ (Forall (fun kv => is_Some (snd kv)) ps ->
      map (fun kv => (fst kv, Some (snd kv))) (query (buildUrl e (Some ps))) = ps).
Proof.
  split; [reflexivity|]. split; [reflexivity|]. simpl.
  split; [|split].
  - intros k v. induction ps as [|[k0 [v0|]] ps IH]; simpl.
    + split; intros H; inversion H.
    + rewrite !elem_of_cons, IH. split; intros [H|H]; auto; left; congruence.
    + rewrite elem_of_cons, IH. split; [auto|]. intros [H|H]; [congruence|exact H].
  - induction ps as [|[k0 [v0|]] ps IH]; simpl.
    + constructor.
    + now constructor.
    + now constructor.
  - intros Hall. induction Hall as [|[k0 [v0|]] ps Hx Hall IH]; simpl.
    + reflexivity.
    + now rewrite IH.
    + destruct Hx as [? Hx]. discriminate Hx.
Qed.

(** ** The guard of [handleAuthError] *)

Lemma prefix_app (s1 s2 : string) :
  String.prefix s1 s2 = true <-> exists post, s2 = s1 ++ post.
Proof.
  revert s2. induction s1 as [|c s1 IH]; intros s2.
  - split; [intros _; exists s2; reflexivity|intros _; destruct s2; reflexivity].
  - destruct s2 as [|c2 s2]; simpl.
    + split; [discriminate|]. intros [post H]. discriminate H.
    + destruct (Ascii.ascii_dec c c2) as [->|Hne].
      * rewrite IH. split; intros [post H]; exists post; [now rewrite H|].
        now injection H.
      * split; [discriminate|]. intros [post H]. injection H as H1 H2. congruence.
Qed.

Lemma includes_spec (hay needle : string) :
  includes hay needle = true <-> exists pre post, hay = pre ++ needle ++ post.
Proof.
  induction hay as [|c hay IH].
  - change (includes "" needle) with (if String.prefix needle "" then true else false).
    destruct (String.prefix needle "") eqn:E.
    + split; [intros _|reflexivity].
      apply prefix_app in E as [post H]. exists "", post. exact H.
    + split; [discriminate|]. intros [pre [post H]].
      destruct pre; simpl in H.
      * assert (String.prefix needle "" = true) by (apply prefix_app; eauto). congruence.
      * discriminate H.
  - change (includes (String c hay) needle)
      with (if String.prefix needle (String c hay) then true else includes hay needle).
    destruct (String.prefix needle (String c hay)) eqn:E.
    + split; [intros _|reflexivity].
      apply prefix_app in E as [post H]. exists "", post. exact H.
    + rewrite IH. split.
      * intros [pre [post H]]. exists (String c pre), post. simpl. now rewrite H.
      * intros [pre [post H]]. destruct pre as [|c' pre]; simpl in H.
        -- assert (String.prefix needle (String c hay) = true) by (apply prefix_app; eauto).
           congruence.
        -- injection H as _ H. eauto.
Qed.

(** X10.  The guard of [handleAuthError] looks for the two path fragments
    anywhere in the URL: it holds exactly for the URLs that contain
    [/auth/login] or [/auth/refresh] as a substring, wherever it stands. *)
Theorem is_auth_url_substring (url : string) :
  is_auth_url url = true <->
  exists pre post, url = pre ++ "/auth/login" ++ post \/ url = pre ++ "/auth/refresh" ++ post.
Proof.
  unfold is_auth_url. rewrite orb_true_iff, !includes_spec. split.
  - intros [(pre & post & H)|(pre & post & H)]; exists pre, post; auto.
  - intros (pre & post & [H|H]); [left|right]; eauto.
Qed.

(** ** The session store, continued *)

Lemma request_other_keys {T} method endpoint options (net : Exchanges T) m :
  other_keys_kept m (exec (request method endpoint options net) m).
Proof.
  unfold exec. rewrite request_unfold. unfold request_paths.
  destruct (yield (first net)) as [a|e]; simpl; [other_keys|].
  destruct (decide (error_status e = Some 401)); simpl; [|other_keys].
  destruct (is_auth_url endpoint); simpl; [other_keys|].
  destruct (truthy (localStorage m !! "refresh_token")); simpl; [|other_keys].
  destruct (yield (refresh net)) as [rd|e']; simpl; [|other_keys].
  destruct (yield (retry net)) as [a|e'']; simpl; other_keys.
Qed.

(** The common shape of [login] and [register], when the service call
    returns. *)
Lemma sign_success (call : M (ApiResponse TokenResponse)) (m : Machine)
    (response : ApiResponse TokenResponse) :
  eval call (exec (AuthStore.set_isLoading true) m) = Returned response ->
  let sign := try_catch
          (AuthStore.set_isLoading true ;; response <- call ;; AuthStore.adopt_response response)
          (fun error => AuthStore.set_isLoading false ;; throw error) in
  eval sign m = Returned tt
  /\ store (exec sign m)
     = {| user := Some (token_user (data response));
          accessToken := Some (access_token (data response));
          refreshToken := Some (refresh_token (data response));
          isAuthenticated := true;
          isLoading := false |}
  /\ in_sync (exec sign m).
Proof.
  unfold eval, exec, try_catch, bind. simpl.
  destruct (call _) as [[resp|e] m1]; simpl; [|discriminate].
  intros [= ->]. split; [reflexivity|]. split; [reflexivity|].
  unfold in_sync. simpl. split.
  - rewrite lookup_insert_ne by done. apply lookup_insert_eq.
  - apply lookup_insert_eq.
Qed.

(** X11.  A [login] or [register] whose request succeeds returns normally and
    leaves the session authenticated with the identity and the pair of the
    response, not loading, and the same pair in [localStorage]. *)
Theorem successful_sign_in_adopts (m : Machine) :
  (forall identifier password userPoolId net response,
      eval (AuthService.login
              {| lr_identifier := identifier; lr_password := password;
                 lr_user_pool_id := userPoolId |} net)
           (exec (AuthStore.set_isLoading true) m) = Returned response ->
      let m' := exec (AuthStore.login identifier password userPoolId net) m in
      eval (AuthStore.login identifier password userPoolId net) m = Returned tt
      /\ store m'
         = {| user := Some (token_user (data response));
              accessToken := Some (access_token (data response));
              refreshToken := Some (refresh_token (data response));
              isAuthenticated := true;
              isLoading := false |}
      /\ in_sync m')
  /\ (forall userData net response,
      eval (AuthService.register userData net) (exec (AuthStore.set_isLoading true) m)
        = Returned response ->
      let m' := exec (AuthStore.register userData net) m in
      eval (AuthStore.register userData net) m = Returned tt
      /\ store m'
         = {| user := Some (token_user (data response));
              accessToken := Some (access_token (data response));
              refreshToken := Some (refresh_token (data response));
              isAuthenticated := true;
              isLoading := false |}
      /\ in_sync m').
Proof.
  split.
  - intros identifier password userPoolId net response H.
    exact (sign_success _ m response H).
  - intros [un pw em ph nn pool] net response H.
    exact (sign_success _ m response H).
Qed.

(** X12.  [setTokens], [logout] (also once its dropped request has been
    answered) and [clearAuth] leave the session store and [localStorage]
    with the same tokens, whatever they found. *)
Theorem store_writes_in_sync (m : Machine) :
  (forall a r u, in_sync (exec (AuthStore.setTokens a r u) m))
  /\ in_sync (exec AuthStore.logout m)
  /\ (forall net, in_sync (exec (AuthStore.logout_settled net) m))
  /\ in_sync (exec AuthStore.clearAuth m).
Proof.
  assert (Hanon : forall m0, credentials_removed m0 -> store m0 = AuthStore.anonymous ->
                             in_sync m0).
  { intros m0 [Ha Hr] Hs. unfold in_sync. rewrite Ha, Hr, Hs. split; reflexivity. }
  split; [|split; [|split]].
  - intros a r u. unfold in_sync, exec. simpl. split.
    + rewrite lookup_insert_ne by done. apply lookup_insert_eq.
    + apply lookup_insert_eq.
  - destruct (logout_around_run AuthService.logout_begin m) as (_ & H1 & H2).
    now apply Hanon.
  - intros net. destruct (logout_settled_run net m) as (_ & H1 & H2). now apply Hanon.
  - destruct (clearAuth_run m) as (_ & H1 & H2). now apply Hanon.
Qed.

(** X13.  [refreshUserInfo] never throws.  When the identity fetch returns, it
    replaces the identity and nothing else of the session: tokens,
    authenticated flag and loading flag stay -- also on a session that is
    not authenticated. *)
Theorem refreshUserInfo_replaces_identity (net : Exchanges (ApiResponse UserResponse))
    (m : Machine) :
  eval (AuthStore.refreshUserInfo net) m = Returned tt
  /\ (forall response,
        eval (AuthService.getCurrentUser net) m = Returned response ->
        store (exec (AuthStore.refreshUserInfo net) m)
        = {| user := Some (data response);
             accessToken := accessToken (store m);
             refreshToken := refreshToken (store m);
             isAuthenticated := isAuthenticated (store m);
             isLoading := isLoading (store m) |}).
Proof.
  pose proof (store_after_request "GET" "/api/v1/users/me"
                {| opt_data := None; opt_params := None; opt_headers := None |} net m) as Hs.
  unfold eval, exec, AuthStore.refreshUserInfo, try_catch, bind,
    AuthService.getCurrentUser, apiRequest_get in *.
  destruct (request _ _ _ net m) as [[resp|e] m1]; simpl in *.
  - split; [reflexivity|]. intros response [= ->]. now rewrite Hs.
  - split; [reflexivity|]. discriminate.
Qed.

Lemma machine_ext (m m' : Machine) :
  localStorage m = localStorage m' ->
  auth_storage m = auth_storage m' ->
  location_href m = location_href m' ->
  network m = network m' ->
  intervals m = intervals m' ->
  next_handle m = next_handle m' ->
  navigation m = navigation m' ->
  store m = store m' ->
  page m = page m' ->
  m = m'.
Proof. destruct m, m'; simpl; intros; subst; reflexivity. Qed.

(** X14.  [clearAuth] undoes [setTokens] and is idempotent, as whole machines;
    and [logout] is [clearAuth] after one request to the logout endpoint,
    built while the access token is still stored and so carrying it as
    bearer. *)
Theorem clearAuth_setTokens_logout (m : Machine) :
  (forall a r u, exec AuthStore.clearAuth (exec (AuthStore.setTokens a r u) m)
                 = exec AuthStore.clearAuth m)
  /\ exec AuthStore.clearAuth (exec AuthStore.clearAuth m) = exec AuthStore.clearAuth m
  /\ exec AuthStore.logout m
     = exec AuthStore.clearAuth
         (logged (request_in m "POST" "/api/v1/auth/logout" no_options) m)
  /\ (forall t, localStorage m !! "access_token" = Some t -> t <> "" ->
        headers (request_in m "POST" "/api/v1/auth/logout" no_options) !! "Authorization"
        = Some ("Bearer " ++ t)).
Proof.
  split; [|split; [|split]].
  - intros a r u. unfold exec. simpl.
    apply machine_ext; simpl; try reflexivity.
    apply map_eq. intros k.
    destruct (decide (k = "refresh_token")) as [->|Hr]; [now rewrite !lookup_delete_eq|].
    rewrite !(lookup_delete_ne _ "refresh_token") by congruence.
    destruct (decide (k = "access_token")) as [->|Ha]; [now rewrite !lookup_delete_eq|].
    repeat (rewrite lookup_delete_ne by congruence).
    repeat (rewrite lookup_insert_ne by congruence). reflexivity.
  - unfold exec. simpl.
    apply machine_ext; simpl; try reflexivity.
    apply map_eq. intros k.
    destruct (decide (k = "refresh_token")) as [->|Hr]; [now rewrite !lookup_delete_eq|].
    rewrite !(lookup_delete_ne _ "refresh_token") by congruence.
    destruct (decide (k = "access_token")) as [->|Ha]; [now rewrite !lookup_delete_eq|].
    repeat (rewrite lookup_delete_ne by congruence). reflexivity.
  - reflexivity.
  - intros t Ht Hne. unfold request_in. simpl. rewrite Ht. simpl.
    destruct (String.eqb_spec t ""); [contradiction|]. simpl.
    rewrite (left_id_L ∅ (∪)). apply lookup_insert_eq.
Qed.

Lemma sign_other_keys (call : M (ApiResponse TokenResponse)) (m : Machine) :
  (forall m0, other_keys_kept m0 (exec call m0)) ->
  other_keys_kept m (exec (try_catch
          (AuthStore.set_isLoading true ;; response <- call ;; AuthStore.adopt_response response)
          (fun error => AuthStore.set_isLoading false ;; throw error)) m).
Proof.
  intros Hcall. unfold exec, try_catch, bind. simpl.
  set (m1 := with_auth_storage _ (with_store _ m)). specialize (Hcall m1). unfold exec in Hcall.
  destruct (call m1) as [[resp|e] m2]; simpl in *; intros k Ha Hr; simpl.
  - rewrite !lookup_insert_ne by congruence. apply (Hcall k Ha Hr).
  - apply (Hcall k Ha Hr).
Qed.

Lemma request_auth_storage {T} method endpoint options (net : Exchanges T) m :
  auth_storage (exec (request method endpoint options net) m) = auth_storage m.
Proof.
  unfold exec. rewrite request_unfold. unfold request_paths.
  destruct (yield (first net)) as [a|e]; simpl; [reflexivity|].
  destruct (decide (error_status e = Some 401)); simpl; [|reflexivity].
  destruct (is_auth_url endpoint); simpl; [reflexivity|].
  destruct (truthy (localStorage m !! "refresh_token")); simpl; [|reflexivity].
  destruct (yield (refresh net)) as [rd|e']; simpl; [|reflexivity].
  destruct (yield (retry net)) as [a|e'']; reflexivity.
Qed.

Lemma other_keys_foreign m m' : other_keys_kept m m' -> foreign_keys_kept m m'.
Proof. intros H k Ha Hr _. exact (H k Ha Hr). Qed.

Lemma sign_saved (call : M (ApiResponse TokenResponse)) (m : Machine) :
  (forall m0, store (exec call m0) = store m0) ->
  (forall m0, auth_storage (exec call m0) = auth_storage m0) ->
  saved_in_step (exec (try_catch
          (AuthStore.set_isLoading true ;; response <- call ;; AuthStore.adopt_response response)
          (fun error => AuthStore.set_isLoading false ;; throw error)) m).
Proof.
  intros Hs Ha. unfold exec, try_catch, bind. simpl.
  set (m1 := with_auth_storage _ (with_store _ m)).
  specialize (Hs m1). specialize (Ha m1). unfold exec in Hs, Ha.
  destruct (call m1) as [[resp|e] m2]; reflexivity.
Qed.

(** X15.  Of [localStorage] the session store writes three entries only:
    the two credential keys and, through [persist], its own entry
    [auth-storage].  After [login], [register], [logout] (also once its
    request has been answered), [setTokens], [clearAuth], [refreshUserInfo]
    and [setLoading] every other key holds what it held before, and the
    entry [auth-storage] holds what [partialize] selects of the session
    state the operation left: the identity, both tokens and the
    authenticated flag, not [isLoading]. *)
Theorem session_ops_keep_other_keys (m : Machine) :
  (forall identifier password userPoolId net,
      let m' := exec (AuthStore.login identifier password userPoolId net) m in
      foreign_keys_kept m m' /\ saved_in_step m')
  /\ (forall userData net,
      let m' := exec (AuthStore.register userData net) m in
      foreign_keys_kept m m' /\ saved_in_step m')
  /\ (forall net,
      let m' := exec (AuthStore.logout_settled net) m in
      foreign_keys_kept m m' /\ saved_in_step m')
  /\ (forall a r u,
      let m' := exec (AuthStore.setTokens a r u) m in
      foreign_keys_kept m m' /\ saved_in_step m')
  /\ (let m' := exec AuthStore.clearAuth m in
      foreign_keys_kept m m' /\ saved_in_step m')
  /\ (forall net,
      let m' := exec (AuthStore.refreshUserInfo net) m in
      foreign_keys_kept m m' /\ saved_in_step m')
  /\ (forall loading,
      let m' := exec (AuthStore.setLoading loading) m in
      foreign_keys_kept m m' /\ saved_in_step m').
Proof.
  split; [|split; [|split; [|split; [|split; [|split]]]]].
  - intros identifier password userPoolId net m'. subst m'. split.
    + apply other_keys_foreign, sign_other_keys. intros m0. apply request_other_keys.
    + apply sign_saved; intros m0; [apply store_after_request|apply request_auth_storage].
  - intros [un pw em ph nn pool] net m'. subst m'. split.
    + apply other_keys_foreign, sign_other_keys. intros m0. apply request_other_keys.
    + apply sign_saved; intros m0; [apply store_after_request|apply request_auth_storage].
  - intros net m'. subst m'. split.
    + apply other_keys_foreign.
      unfold exec, AuthStore.logout_settled, bind, detached.
      rewrite logout_run. simpl.
      unfold AuthService.logout_resume, request_resume, try_catch, bind, settle,
        handleResponse.
      destruct (first net) as [[st d|st txt d|st]| |reason]; simpl; try other_keys.
      destruct (decide (Some st = Some 401)) as [_|_]; simpl; [|other_keys].
      rewrite handleAuthError_no_token;
        [other_keys|reflexivity|simpl; now rewrite lookup_delete_eq].
    + unfold saved_in_step, exec, AuthStore.logout_settled, bind, detached.
      rewrite logout_run. simpl.
      unfold AuthService.logout_resume, request_resume, try_catch, bind, settle,
        handleResponse.
      destruct (first net) as [[st d|st txt d|st]| |reason]; simpl; try reflexivity.
      destruct (decide (Some st = Some 401)) as [_|_]; simpl; [|reflexivity].
      rewrite handleAuthError_no_token;
        [reflexivity|reflexivity|simpl; now rewrite lookup_delete_eq].
  - intros a r u m'. subst m'. split; [|reflexivity].
    apply other_keys_foreign. unfold exec. simpl. other_keys.
  - intros m'. subst m'. split; [|reflexivity].
    apply other_keys_foreign. unfold exec. simpl. other_keys.
  - intros net m'. subst m'. split.
    + apply other_keys_foreign.
      unfold exec, AuthStore.refreshUserInfo, try_catch, bind,
        AuthService.getCurrentUser, apiRequest_get.
      pose proof (request_other_keys "GET" "/api/v1/users/me"
                    {| opt_data := None; opt_params := None; opt_headers := None |} net m)
        as H.
      unfold exec in H.
      destruct (request _ _ _ net m) as [[resp|e] m1]; simpl in *.
      * exact H.
      * intros k Ha Hr. simpl. rewrite !lookup_delete_ne by congruence. apply (H k Ha Hr).
    + unfold saved_in_step, exec, AuthStore.refreshUserInfo, try_catch, bind.
      destruct (AuthService.getCurrentUser net m) as [[resp|e] m1]; reflexivity.
  - intros loading m'. subst m'. split; [|reflexivity].
    apply other_keys_foreign. unfold exec. simpl. other_keys.
Qed.

(** ** The sign-in and sign-up pages *)

Lemma login_run identifier password userPoolId net m :
  AuthStore.login identifier password userPoolId net m =
  match AuthService.login {| lr_identifier := identifier; lr_password := password;
                             lr_user_pool_id := userPoolId |} net
          (exec (AuthStore.set_isLoading true) m) with
  | (Returned response, m1) => AuthStore.adopt_response response m1
  | (Thrown e, m1) => (Thrown e, exec (AuthStore.set_isLoading false) m1)
  end.
Proof.
  unfold AuthStore.login, try_catch, bind, exec. simpl.
  destruct (AuthService.login _ net _) as [[resp|e] m1]; reflexivity.
Qed.

Lemma sign_navigation (call : M (ApiResponse TokenResponse)) (m : Machine) :
  (forall m0, navigation (exec call m0) = navigation m0) ->
  navigation (exec (try_catch
          (AuthStore.set_isLoading true ;; response <- call ;; AuthStore.adopt_response response)
          (fun error => AuthStore.set_isLoading false ;; throw error)) m) = navigation m.
Proof.
  intros Hcall. unfold exec, try_catch, bind. simpl.
  set (m1 := with_auth_storage _ (with_store _ m)). specialize (Hcall m1). unfold exec in Hcall.
  destruct (call m1) as [[resp|e] m2]; simpl in *; exact Hcall.
Qed.

Lemma login_navigation identifier password userPoolId net m :
  navigation (exec (AuthStore.login identifier password userPoolId net) m) = navigation m.
Proof. apply sign_navigation. intros m0. apply request_frame. Qed.

Lemma register_navigation userData net m :
  navigation (exec (AuthStore.register userData net) m) = navigation m.
Proof.
  destruct userData. apply sign_navigation. intros m0. apply request_frame.
Qed.

(** X16.  The submit handler of the sign-in page never throws.  When [login]
    returns it navigates to the dashboard and sets no error; when [login]
    throws it does not navigate and sets the message of the failure's
    response body, or the fixed text when there is none. *)
Theorem LoginPage_onSubmit_outcome (data : LoginPage.LoginFormData)
    (net : Exchanges (ApiResponse TokenResponse)) (m : Machine) :
  let login := AuthStore.login (LoginPage.identifier data) (LoginPage.password data)
                 (LoginPage.userPoolId data) net in
  let m' := exec (LoginPage.onSubmit data net) m in
  (eval login m = Returned tt ->
     eval (LoginPage.onSubmit data net) m = Returned None
     /\ navigation m' = (navigation m ++ ["/dashboard"])%list
     /\ store m' = store (exec login m))
  /\ (forall e, eval login m = Thrown e ->
     eval (LoginPage.onSubmit data net) m
       = Returned (Some (Display.message_or e LoginPage.fallback))
     /\ navigation m' = navigation m
     /\ store m' = store (exec login m)).
Proof.
  intros login m'. subst login m'.
  pose proof (login_navigation (LoginPage.identifier data) (LoginPage.password data)
                (LoginPage.userPoolId data) net m) as Hnav.
  unfold eval, exec, LoginPage.onSubmit, try_catch, bind in *.
  destruct (AuthStore.login _ _ _ net m) as [[[]|e] m1]; simpl in *.
  - split; [intros _; rewrite Hnav; split; [reflexivity|split; reflexivity]|].
    intros e H. discriminate H.
  - split; [intros H; discriminate H|]. intros e' [= ->].
    split; [reflexivity|split; [exact Hnav|reflexivity]].
Qed.

(** X17.  What the sign-in page shows for a failed sign-in.  On a 401 -- the
    guard of [handleAuthError] replaces the failure -- it is the fixed
    text, whatever message the server sent.  On another failure status it
    is the server's message when the body is JSON with a non-empty
    [message]; on a time-out or a network error it is the fixed text. *)
Theorem LoginPage_message (data : LoginPage.LoginFormData)
    (net : Exchanges (ApiResponse TokenResponse)) (m : Machine) :
  (forall statusText d,
      first net = Resolved (NotOk 401 statusText d) ->
      eval (LoginPage.onSubmit data net) m = Returned (Some LoginPage.fallback))
  /\ (forall st statusText s rest,
      first net = Resolved (NotOk st statusText (JsonBody (Some s) rest)) ->
      st <> 401 -> s <> "" ->
      eval (LoginPage.onSubmit data net) m = Returned (Some s))
  /\ (first net = TimedOut \/ (exists reason, first net = Rejected reason) ->
      eval (LoginPage.onSubmit data net) m = Returned (Some LoginPage.fallback)).
Proof.
  assert (Hrun : forall e m1,
            AuthService.login
              {| lr_identifier := LoginPage.identifier data;
                 lr_password := LoginPage.password data;
                 lr_user_pool_id := LoginPage.userPoolId data |} net
              (exec (AuthStore.set_isLoading true) m) = (Thrown e, m1) ->
            eval (LoginPage.onSubmit data net) m
            = Returned (Some (Display.message_or e LoginPage.fallback))).
  { intros e m1 H. unfold eval, LoginPage.onSubmit, try_catch, bind.
    rewrite login_run, H. reflexivity. }
  split; [|split].
  - intros statusText d Hfirst.
    erewrite Hrun.
    2:{ unfold AuthService.login, apiRequest_post. rewrite request_unfold.
        unfold request_paths. rewrite Hfirst. simpl. reflexivity. }
    reflexivity.
  - intros st statusText s rest Hfirst Hst Hs.
    erewrite Hrun.
    2:{ unfold AuthService.login, apiRequest_post. rewrite request_unfold.
        unfold request_paths. rewrite Hfirst. simpl.
        destruct (decide (Some st = Some 401)) as [Heq|_]; [congruence|reflexivity]. }
    unfold Display.message_or, Display.response_message. simpl.
    destruct (String.eqb_spec s ""); [contradiction|reflexivity].
  - intros [Hfirst|[reason Hfirst]].
    + erewrite Hrun.
      2:{ unfold AuthService.login, apiRequest_post. rewrite request_unfold.
          unfold request_paths. rewrite Hfirst. simpl. reflexivity. }
      reflexivity.
    + erewrite Hrun.
      2:{ unfold AuthService.login, apiRequest_post. rewrite request_unfold.
          unfold request_paths. rewrite Hfirst. simpl. reflexivity. }
      reflexivity.
Qed.

Lemma or_undefined_Some (v : option string) (s : string) :
  Display.or_undefined v = Some s <-> v = Some s /\ s <> "".
Proof.
  unfold Display.or_undefined, truthy. destruct v as [t|]; simpl.
  - destruct (String.eqb_spec t ""); simpl.
    + split; [discriminate|]. intros [[= ->] H]. contradiction.
    + split; [intros [= ->]; auto|intros [H _]; exact H].
  - split; [discriminate|]. intros [H _]. discriminate H.
Qed.

Lemma optional_elem (key : string) (v : option string) (k : string) (x : Scalar) :
  (k, x) ∈ AuthService.optional key v <-> k = key /\ exists s, v = Some s /\ x = JStr s.
Proof.
  unfold AuthService.optional. destruct v as [s|].
  - rewrite list_elem_of_singleton. split.
    + intros [= -> ->]. eauto.
    + intros (-> & s' & [= <-] & ->). reflexivity.
  - split; [intros H; inversion H|]. intros (_ & s & H & _). discriminate H.
Qed.

(** X18.  The sign-up page sends an optional field only when it is filled in:
    the request it makes is a POST to the registration endpoint whose body
    has an [email] ([phone], [nickname]) entry exactly when the form's
    field is a non-empty string, with that string; an empty string is
    never sent. *)
Theorem RegisterPage_body (data : RegisterPage.RegisterFormData)
    (net : Exchanges (ApiResponse TokenResponse)) (m : Machine) :
  exists (obj : Obj) (rest : list Request),
    network (exec (RegisterPage.onSubmit data net) m)
    = (network m ++ request_in m "POST" "/api/v1/auth/register"
                      {| opt_data := Some obj; opt_params := None; opt_headers := None |}
                    :: rest)%list
    /\ (forall s, ("email", JStr s) ∈ obj <-> RegisterPage.email data = Some s /\ s <> "")
    /\ (forall s, ("phone", JStr s) ∈ obj <-> RegisterPage.phone data = Some s /\ s <> "")
    /\ (forall s, ("nickname", JStr s) ∈ obj <-> RegisterPage.nickname data = Some s /\ s <> "")
    /\ ("username", JStr (RegisterPage.username data)) ∈ obj
    /\ ("password", JStr (RegisterPage.password data)) ∈ obj
    /\ ("user_pool_id", JNum (RegisterPage.userPoolId data)) ∈ obj
    /\ (forall k x, (k, x) ∈ obj -> k <> "confirmPassword").
Proof.
  exists (AuthService.RegisterRequest_obj (RegisterPage.userData data)).
  destruct (request_log "POST" "/api/v1/auth/register"
              {| opt_data := Some (AuthService.RegisterRequest_obj (RegisterPage.userData data));
                 opt_params := None; opt_headers := None |} net
              (exec (AuthStore.set_isLoading true) m)) as [rest Hrest].
  exists rest. split.
  { unfold exec in *. unfold RegisterPage.onSubmit, AuthStore.register, try_catch, bind.
    simpl. unfold AuthService.register, apiRequest_post.
    simpl in Hrest.
    destruct (request _ _ _ net _) as [[resp|e] m1]; simpl in *; exact Hrest. }
  assert (Helem : forall k x,
    (k, x) ∈ AuthService.RegisterRequest_obj (RegisterPage.userData data) <->
    (k = "username" /\ x = JStr (RegisterPage.username data))
    \/ (k = "password" /\ x = JStr (RegisterPage.password data))
    \/ (k = "email" /\ exists s, Display.or_undefined (RegisterPage.email data) = Some s
                                 /\ x = JStr s)
    \/ (k = "phone" /\ exists s, Display.or_undefined (RegisterPage.phone data) = Some s
                                 /\ x = JStr s)
    \/ (k = "nickname" /\ exists s, Display.or_undefined (RegisterPage.nickname data) = Some s
                                    /\ x = JStr s)
    \/ (k = "user_pool_id" /\ x = JNum (RegisterPage.userPoolId data))).
  { intros k x. unfold AuthService.RegisterRequest_obj, RegisterPage.userData. simpl.
    rewrite !elem_of_cons, !elem_of_app, !optional_elem, list_elem_of_singleton.
    split.
    - intros [[= -> ->]|[[= -> ->]|[H|[H|[H|[= -> ->]]]]]]; auto 10.
    - intros [[-> ->]|[[-> ->]|[H|[H|[H|[-> ->]]]]]]; auto 10. }
  repeat match goal with |- _ /\ _ => split end.
  - intros s. rewrite Helem, <- or_undefined_Some. split.
    + intros [[H _]|[[H _]|[[_ (s' & H & [= ->])]|[[H _]|[[H _]|[H _]]]]]];
        try discriminate H. exact H.
    + intros H. right; right; left. eauto.
  - intros s. rewrite Helem, <- or_undefined_Some. split.
    + intros [[H _]|[[H _]|[[H _]|[[_ (s' & H & [= ->])]|[[H _]|[H _]]]]]];
        try discriminate H. exact H.
    + intros H. right; right; right; left. eauto.
  - intros s. rewrite Helem, <- or_undefined_Some. split.
    + intros [[H _]|[[H _]|[[H _]|[[H _]|[[_ (s' & H & [= ->])]|[H _]]]]]];
        try discriminate H. exact H.
    + intros H. right; right; right; right; left. eauto.
  - apply Helem. auto.
  - apply Helem. auto.
  - apply Helem. auto 10.
  - intros k x H. apply Helem in H.
    destruct H as [[-> _]|[[-> _]|[[-> _]|[[-> _]|[[-> _]|[-> _]]]]]]; discriminate.
Qed.

(** ** The one-time-code page *)

(** X19.  Sending a code.  When the request succeeds the page moves to the
    verify step, remembers the identifier, starts the countdown at 60 and
    sets no error; when it fails the step, the identifier and the countdown
    stay and the error is the message of the failure.  Either way the
    handler returns and the page is not loading afterwards. *)
Theorem onSendOTP_outcome (c : OTPLoginPage.Cells) (identifier : string) (userPoolId : Z)
    (net : Exchanges (ApiResponse bool)) (m : Machine) :
  let call := OtpService.sendOTP
                {| OtpService.so_identifier := identifier;
                   OtpService.so_type := OtpService.otp_login;
                   OtpService.so_user_pool_id := userPoolId |} net in
  (forall r, eval call m = Returned r ->
     eval (OTPLoginPage.onSendOTP c identifier userPoolId net) m
     = Returned ({| OTPLoginPage.step := OTPLoginPage.verify_step;
                    OTPLoginPage.identifier := identifier;
                    OTPLoginPage.countdown := 60;
                    OTPLoginPage.isLoading := false |}, None))
  /\ (forall e, eval call m = Thrown e ->
     eval (OTPLoginPage.onSendOTP c identifier userPoolId net) m
     = Returned ({| OTPLoginPage.step := OTPLoginPage.step c;
                    OTPLoginPage.identifier := OTPLoginPage.identifier c;
                    OTPLoginPage.countdown := OTPLoginPage.countdown c;
                    OTPLoginPage.isLoading := false |},
                 Some (Display.message_or e OTPLoginPage.send_fallback)))
  /\ exec (OTPLoginPage.onSendOTP c identifier userPoolId net) m = exec call m.
Proof.
  intros call. subst call.
  unfold eval, exec, OTPLoginPage.onSendOTP, try_catch, bind.
  destruct (OtpService.sendOTP _ net m) as [[r|e] m1]; simpl.
  - split; [intros r' _; reflexivity|]. split; [intros e H; discriminate H|reflexivity].
  - split; [intros r H; discriminate H|]. split; [intros e' [= ->]; reflexivity|reflexivity].
Qed.

(** X20.  Verifying a code.  When the one-time-code sign-in succeeds the
    session adopts the identity and the pair of the response (also in
    [localStorage]) and the page navigates to the dashboard; when it fails
    the session state is untouched, there is no navigation, and the error is
    the message of the failure.  The cells keep their values, not loading,
    and the handler returns in both cases. *)
Theorem onVerifyOTP_outcome (defaultPool : Z) (c : OTPLoginPage.Cells) (code : string)
    (net : Exchanges (ApiResponse TokenResponse)) (m : Machine) :
  let call := OtpService.otpLogin
                {| OtpService.ol_identifier := OTPLoginPage.identifier c;
                   OtpService.ol_code := code;
                   OtpService.ol_type := OtpService.otp_login;
                   OtpService.ol_user_pool_id := defaultPool |} net in
  let m' := exec (OTPLoginPage.onVerifyOTP defaultPool c code net) m in
  (forall response, eval call m = Returned response ->
     eval (OTPLoginPage.onVerifyOTP defaultPool c code net) m
       = Returned (OTPLoginPage.setIsLoading false c, None)
     /\ store m' = adopted (data response) (Some (token_user (data response))) (store m)
     /\ in_sync m'
     /\ navigation m' = (navigation m ++ ["/dashboard"])%list)
  /\ (forall e, eval call m = Thrown e ->
     eval (OTPLoginPage.onVerifyOTP defaultPool c code net) m
       = Returned (OTPLoginPage.setIsLoading false c,
                   Some (Display.message_or e OTPLoginPage.verify_fallback))
     /\ store m' = store m
     /\ navigation m' = navigation m).
Proof.
  intros call m'. subst call m'.
  pose proof (request_frame "POST" "/api/v1/auth/otp/login"
     {| opt_data := Some (OtpService.OTPLoginRequest_obj
          {| OtpService.ol_identifier := OTPLoginPage.identifier c;
             OtpService.ol_code := code;
             OtpService.ol_type := OtpService.otp_login;
             OtpService.ol_user_pool_id := defaultPool |});
        opt_params := None; opt_headers := None |} net m) as (Hs & _ & _ & _ & Hnav).
  unfold eval, exec, OTPLoginPage.onVerifyOTP, try_catch, bind,
    OtpService.otpLogin, apiRequest_post in *.
  destruct (request _ _ _ net m) as [[resp|e] m1]; simpl in *.
  - split; [|intros e H; discriminate H]. intros response [= ->].
    split; [destruct c; reflexivity|]. unfold adopted. rewrite Hs, Hnav.
    split; [reflexivity|]. split; [|reflexivity].
    unfold in_sync. simpl. split.
    + rewrite lookup_insert_ne by done. apply lookup_insert_eq.
    + apply lookup_insert_eq.
  - split; [intros r H; discriminate H|]. intros e' [= ->].
    split; [destruct c; reflexivity|]. split; assumption.
Qed.

Lemma second_passes_countdown (c : OTPLoginPage.Cells) :
  0 <= OTPLoginPage.countdown c ->
  OTPLoginPage.countdown (OTPLoginPage.second_passes c)
  = Z.max 0 (OTPLoginPage.countdown c - 1)
  /\ OTPLoginPage.step (OTPLoginPage.second_passes c) = OTPLoginPage.step c
  /\ OTPLoginPage.identifier (OTPLoginPage.second_passes c) = OTPLoginPage.identifier c
  /\ OTPLoginPage.isLoading (OTPLoginPage.second_passes c) = OTPLoginPage.isLoading c.
Proof.
  intros H. unfold OTPLoginPage.second_passes.
  destruct (Z.ltb_spec 0 (OTPLoginPage.countdown c)); simpl; repeat split; lia.
Qed.

(** X21.  The countdown.  From a countdown that is not negative, [n] seconds
    later it stands at [max 0 (countdown - n)], and the step, the identifier
    and the loading flag are untouched; so the resend button of a page that
    is not loading is disabled exactly as long as fewer seconds have passed
    than the countdown started with -- 60 after a code was sent. *)
Theorem countdown_runs_down (n : nat) (c : OTPLoginPage.Cells) :
  0 <= OTPLoginPage.countdown c ->
  let c' := OTPLoginPage.seconds_pass n c in
  OTPLoginPage.countdown c' = Z.max 0 (OTPLoginPage.countdown c - Z.of_nat n)
  /\ OTPLoginPage.step c' = OTPLoginPage.step c
  /\ OTPLoginPage.identifier c' = OTPLoginPage.identifier c
  /\ OTPLoginPage.isLoading c' = OTPLoginPage.isLoading c
  /\ (OTPLoginPage.isLoading c = false ->
      (OTPLoginPage.resend_disabled c' = true <-> Z.of_nat n < OTPLoginPage.countdown c)).
Proof.
  revert c. induction n as [|n IH]; intros c Hc c'; subst c'.
  - simpl. rewrite Z.sub_0_r, Z.max_r by lia. repeat split.
    + unfold OTPLoginPage.resend_disabled. rewrite H. rewrite orb_false_r.
      intros Hd. apply Z.ltb_lt in Hd. lia.
    + intros Hd. unfold OTPLoginPage.resend_disabled. rewrite H, orb_false_r.
      apply Z.ltb_lt. lia.
  - destruct (second_passes_countdown c Hc) as (H1 & H2 & H3 & H4).
    assert (Hc1 : 0 <= OTPLoginPage.countdown (OTPLoginPage.second_passes c)) by lia.
    specialize (IH (OTPLoginPage.second_passes c) Hc1). cbv zeta in IH.
    destruct IH as (I1 & I2 & I3 & I4 & I5).
    change (OTPLoginPage.seconds_pass (S n) c)
      with (OTPLoginPage.seconds_pass n (OTPLoginPage.second_passes c)).
    rewrite I1, I2, I3, I4, H1, H2, H3, H4.
    split; [lia|]. split; [reflexivity|]. split; [reflexivity|]. split; [reflexivity|].
    intros Hl. rewrite H4 in I5. rewrite (I5 Hl), H1. lia.
Qed.

(** ** Dashboard and route guard *)

(** X22.  The route guard follows the session store, not the credentials.  It
    redirects to the sign-in page after the dashboard's logout handler,
    after [clearAuth] and after a [refreshUserInfo] whose fetch failed; it
    admits after [setTokens]; and no pipeline call changes its verdict --
    not even one that has removed both credential keys and sent the browser
    to the sign-in page. *)
Theorem ProtectedRoute_follows_store (location : string) (m : Machine) :
  Dashboard.ProtectedRoute location (exec Dashboard.handleLogout m)
    = Dashboard.Navigate "/auth/login" location
  /\ Dashboard.ProtectedRoute location (exec AuthStore.clearAuth m)
     = Dashboard.Navigate "/auth/login" location
  /\ (forall net e,
        eval (AuthService.getCurrentUser net) m = Thrown e ->
        Dashboard.ProtectedRoute location (exec (AuthStore.refreshUserInfo net) m)
        = Dashboard.Navigate "/auth/login" location)
  /\ (forall a r u,
        Dashboard.ProtectedRoute location (exec (AuthStore.setTokens a r u) m)
        = Dashboard.Children)
  /\ (forall T method endpoint options (net : Exchanges T),
        Dashboard.ProtectedRoute location (exec (request method endpoint options net) m)
        = Dashboard.ProtectedRoute location m).
Proof.
  split; [reflexivity|]. split; [reflexivity|]. split; [|split].
  - intros net e H.
    unfold eval, exec, AuthStore.refreshUserInfo, try_catch, bind in *.
    destruct (AuthService.getCurrentUser net m) as [[resp|e'] m1]; simpl in *;
      [discriminate|reflexivity].
  - intros a r u. reflexivity.
  - intros T method endpoint options net. unfold Dashboard.ProtectedRoute.
    now rewrite store_after_request.
Qed.

(** X23.  The logout handler of the dashboard returns, leaves the session
    anonymous and both credential keys removed, has sent one request, to the
    logout endpoint, and navigates to the sign-in page. *)
Theorem handleLogout_outcome (m : Machine) :
  let m' := exec Dashboard.handleLogout m in
  eval Dashboard.handleLogout m = Returned tt
  /\ store m' = AuthStore.anonymous
  /\ credentials_removed m'
  /\ network m' = (network m ++ [request_in m "POST" "/api/v1/auth/logout" no_options])%list
  /\ navigation m' = (navigation m ++ ["/auth/login"])%list.
Proof.
  intros m'. subst m'. unfold eval, exec, Dashboard.handleLogout, bind.
  rewrite logout_run. simpl.
  split; [reflexivity|]. split; [reflexivity|]. split; [|split; reflexivity].
  unfold credentials_removed. simpl.
  split; [rewrite lookup_delete_ne by done|]; apply lookup_delete_eq.
Qed.

(** X24.  The name in the dashboard's header is never empty: an empty nickname
    gives way to the user name, and an empty or missing user name to the
    fixed text. *)
Theorem header_name_not_empty (u : option UserResponse) :
  Dashboard.header_name u <> ""
  /\ (forall s, u ≫= nickname = Some s -> s <> "" -> Dashboard.header_name u = s)
  /\ (truthy (u ≫= nickname) = false ->
      forall s, u ≫= username = Some s -> s <> "" -> Dashboard.header_name u = s).
Proof.
  unfold Dashboard.header_name, truthy.
  split; [|split].
  - destruct (u ≫= nickname) as [n|]; simpl.
    + destruct (String.eqb_spec n ""); simpl; [|assumption].
      destruct (u ≫= username) as [s|]; simpl; [|discriminate].
      destruct (String.eqb_spec s ""); simpl; [discriminate|assumption].
    + destruct (u ≫= username) as [s|]; simpl; [|discriminate].
      destruct (String.eqb_spec s ""); simpl; [discriminate|assumption].
  - intros s -> Hs. simpl. destruct (String.eqb_spec s ""); [contradiction|reflexivity].
  - intros Hn s Hu Hs. rewrite Hn, Hu. simpl.
    destruct (String.eqb_spec s ""); [contradiction|reflexivity].
Qed.

(** ** The QR page, continued *)

Lemma createQR_cases (userPoolId : Z)
    (net : Exchanges (ApiResponse QRLoginCreateResponse)) (m : Machine) :
  let call := AuthService.createQRLogin userPoolId QRLogin.appId net in
  let m0 := exec (QRLogin.setIsCreating true) m in
  let m' := exec (QRLogin.createQR userPoolId net) m in
  eval (QRLogin.createQR userPoolId net) m = Returned tt
  /\ isCreating (page m') = false
  /\ (forall response, eval call m0 = Returned response ->
        status (page m') = pending
        /\ qrData (page m') = Some (data response)
        /\ still_polling (next_handle m)
             {| iv_sceneId := scene_id (data response); iv_delay := 2000 |} m')
  /\ (forall e, eval call m0 = Thrown e ->
        status (page m') = expired
        /\ qrData (page m') = qrData (page m)
        /\ intervals m' = intervals m
        /\ intervalRef (page m') = intervalRef (page m)).
Proof.
  intros call m0 m'. subst call m' m0.
  pose proof (request_frame "GET" "/api/v1/auth/qr/create"
     {| opt_data := None;
        opt_params := Some [ ("user_pool_id", Some (JNum userPoolId));
                             ("app_id", Some (JStr QRLogin.appId)) ];
        opt_headers := None |} net (exec (QRLogin.setIsCreating true) m))
    as (_ & Hp & Hi & Hn & _).
  unfold eval, exec, QRLogin.createQR, try_finally, try_catch, bind,
    AuthService.createQRLogin, apiRequest_get in *.
  simpl in *.
  destruct (request _ _ _ net _) as [[resp|e] m1]; simpl in *.
  - unfold QRLogin.startPolling, QRLogin.setInterval, bind, get. simpl.
    rewrite Hp. simpl.
    destruct (intervalRef (page m)); simpl; rewrite Hn;
      (split; [reflexivity|]; split; [reflexivity|]; split; [|intros e H; discriminate H]);
      intros response [= ->];
      (split; [reflexivity|]; split; [reflexivity|]);
      unfold still_polling; simpl; (split; [apply lookup_insert_eq|reflexivity]).
  - split; [reflexivity|]. split; [reflexivity|]. split; [intros r H; discriminate H|].
    intros e' _. rewrite Hp, Hi. repeat split.
Qed.

(** X25.  Creating a ceremony.  [createQR] returns in every case and leaves
    [isCreating] false.  When the creation call succeeds the page shows
    [pending], holds the ceremony, and a fresh timer polls its [scene_id]
    every 2000 ms; when it fails the page shows [expired] and neither the
    ceremony data nor any timer is touched. *)
Theorem createQR_outcome (userPoolId : Z)
    (net : Exchanges (ApiResponse QRLoginCreateResponse)) (m : Machine) :
  let call := AuthService.createQRLogin userPoolId QRLogin.appId net in
  let m0 := exec (QRLogin.setIsCreating true) m in
  let m' := exec (QRLogin.createQR userPoolId net) m in
  eval (QRLogin.createQR userPoolId net) m = Returned tt
  /\ isCreating (page m') = false
  /\ (forall response, eval call m0 = Returned response ->
        status (page m') = pending
        /\ qrData (page m') = Some (data response)
        /\ still_polling (next_handle m)
             {| iv_sceneId := scene_id (data response); iv_delay := 2000 |} m')
  /\ (forall e, eval call m0 = Thrown e ->
        status (page m') = expired
        /\ qrData (page m') = qrData (page m)
        /\ intervals m' = intervals m
        /\ intervalRef (page m') = intervalRef (page m)).
Proof.
  intros call m0 m'.
  destruct (createQR_cases userPoolId net m) as (Hret & Hidle & Hok & Hfail).
  split; [exact Hret|]. split; [exact Hidle|]. split.
  - intros response Hcall. exact (Hok response Hcall).
  - intros e Hcall. exact (Hfail e Hcall).
Qed.

(** X26.  Refreshing the code on a page that owns its timers.  The old timer is
    gone whatever the creation call answers.  When the call succeeds
    exactly one timer is live, a fresh one polling the new ceremony; when it
    fails none is live, the page shows [expired] and holds no ceremony. *)
Theorem refreshQR_outcome (userPoolId : Z)
    (net : Exchanges (ApiResponse QRLoginCreateResponse)) (m : Machine) :
  timers_owned m ->
  let m0 := exec (QRLogin.setIsCreating true)
              (exec (QRLogin.setStatus loading)
                 (exec (QRLogin.setQrData None) (exec QRLogin.stopPolling m))) in
  let call := AuthService.createQRLogin userPoolId QRLogin.appId net in
  let m' := exec (QRLogin.refreshQR userPoolId net) m in
  eval (QRLogin.refreshQR userPoolId net) m = Returned tt
  /\ (forall response, eval call m0 = Returned response ->
        intervals m'
          = {[ next_handle m := {| iv_sceneId := scene_id (data response); iv_delay := 2000 |} ]}
        /\ intervalRef (page m') = Some (next_handle m)
        /\ status (page m') = pending
        /\ qrData (page m') = Some (data response))
  /\ (forall e, eval call m0 = Thrown e ->
        polling_stopped m'
        /\ status (page m') = expired
        /\ qrData (page m') = None).
Proof.
  intros Hown m0 call m'. subst call m' m0.
  destruct (stopPolling_stops m Hown) as [Hempty Hnone].
  pose proof (stopPolling_eval m) as Hret.
  destruct (stopPolling_rest m) as (_ & _ & _ & _ & _ & _ & _ & Hnext).
  cbv zeta in Hnext.
  unfold QRLogin.refreshQR, eval, exec, bind in *.
  destruct (QRLogin.stopPolling m) as [[[]|e0] ms]; simpl in *; [|discriminate].
  set (m1 := with_page _ (with_page _ ms)).
  assert (H1 : intervals m1 = ∅ /\ intervalRef (page m1) = None /\ next_handle m1 = next_handle m).
  { subst m1. simpl. auto. }
  destruct H1 as (Hi1 & Hr1 & Hn1).
  destruct (createQR_cases userPoolId net m1) as (Hret' & _ & Hok & Hfail).
  cbv zeta in Hok, Hfail. unfold eval, exec in *.
  split; [exact Hret'|]. split.
  - intros response Hcall. destruct (Hok response Hcall) as (Hs & Hq & [Hlive Href]).
    rewrite Hn1 in Hlive, Href.
    split; [|split; [exact Href|split; assumption]].
    apply map_eq. intros k.
    destruct (decide (k = next_handle m)) as [->|Hne].
    + rewrite Hlive. symmetry. apply lookup_singleton_eq.
    + rewrite lookup_singleton_ne by congruence.
      pose proof (createQR_owned userPoolId net m1) as Hown1.
      unfold exec in Hown1.
      destruct (intervals (QRLogin.createQR userPoolId net m1).2 !! k) eqn:Ek; [|reflexivity].
      exfalso. apply Hne.
      assert (Ho : timers_owned m1).
      { intros h [iv Hh]. rewrite Hi1, lookup_empty in Hh. discriminate. }
      specialize (Hown1 Ho k (ex_intro _ _ Ek)). congruence.
  - intros e Hcall. destruct (Hfail e Hcall) as (Hs & Hq & Hi & Hr).
    split; [split; congruence|]. split; [exact Hs|]. rewrite Hq. reflexivity.
Qed.

(** X27.  The page never has two timers.  Starting from a machine that owns its
    timers -- as a freshly loaded browser does -- every handler and event of
    the page leads to one that does, also the second half of a [createQR]
    that an unmount has overtaken; and on such a machine any two live
    handles are the same handle, the one in [intervalRef]. *)
Theorem page_owns_its_timer (m : Machine) :
  timers_owned m ->
  (forall userPoolId net, timers_owned (exec (QRLogin.createQR userPoolId net) m))
  /\ (forall userPoolId net, timers_owned (exec (QRLogin.refreshQR userPoolId net) m))
  /\ (forall h net, timers_owned (exec (QRLogin.fire h net) m))
  /\ timers_owned (exec QRLogin.unmount m)
  /\ (forall userPoolId, timers_owned (exec (QRLogin.createQR_begin userPoolId) m))
  /\ (forall userPoolId net, timers_owned (exec (QRLogin.createQR_resume userPoolId net) m))
  /\ (forall h1 h2, is_Some (intervals m !! h1) -> is_Some (intervals m !! h2) -> h1 = h2)
  /\ timers_owned fresh.
Proof.
  intros Hown. repeat match goal with |- _ /\ _ => split end.
  - intros. now apply createQR_owned.
  - intros. now apply refreshQR_owned.
  - intros. now apply fire_owned.
  - now apply stopPolling_owned.
  - intros. now apply createQR_begin_owned.
  - intros. now apply createQR_resume_owned.
  - intros h1 h2 H1 H2. apply Hown in H1. apply Hown in H2. congruence.
  - apply fresh_owned.
Qed.

Lemma QRView_controls_aux (p : QRPage) :
  (forall v, QRView.center p = QRView.QRCode v -> status p = pending \/ status p = scanned)
  /\ (status p = loading \/ status p = confirmed -> QRView.can_refresh p = false).
Proof.
  unfold QRView.center, QRView.can_refresh, QRView.overlay, QRView.refresh_button.
  destruct p as [d [] [] r]; simpl; split;
    try (intros v H; destruct d; simpl in H; try discriminate H; auto; fail);
    try (intros v H; discriminate H);
    try (intros [H|H]; (discriminate H || reflexivity)).
Qed.

(** X28.  What the page offers in each state.  The QR code is shown only in
    [pending] and [scanned], where the button under it is shown and the
    overlay is not.  A refresh button that can be pressed exists exactly in
    [pending], [scanned], [expired] and [cancelled] while no creation is
    running; in [loading] and in [confirmed] there is none. *)
Theorem QRView_controls (p : QRPage) :
  (forall v, QRView.center p = QRView.QRCode v ->
     (status p = pending \/ status p = scanned)
     /\ QRView.overlay p = false
     /\ QRView.refresh_button p = true
     /\ isCreating p = false
     /\ exists d, qrData p = Some d /\ qr_url d = v)
  /\ (QRView.can_refresh p = true <->
      isCreating p = false
      /\ (status p = pending \/ status p = scanned \/ status p = expired
          \/ status p = cancelled))
  /\ (status p = loading \/ status p = confirmed -> QRView.can_refresh p = false).
Proof.
  destruct p as [d s ic r]. split; [|split].
  - intros v H. unfold QRView.center in H. simpl in H.
    destruct s, ic, d as [d|]; simpl in H; try discriminate H;
      injection H as <-; simpl; (split; [auto|]); repeat split; eauto.
  - unfold QRView.can_refresh, QRView.overlay, QRView.refresh_button. simpl.
    destruct s, ic; simpl; split;
      try (intros H; discriminate H);
      try (intros [H1 H2]; try discriminate H1;
           destruct H2 as [H2|[H2|[H2|H2]]]; discriminate H2);
      try (intros _; reflexivity);
      intros _; (split; [reflexivity|]); auto.
  - unfold QRView.can_refresh, QRView.overlay, QRView.refresh_button. simpl.
    intros [->| ->]; reflexivity.
Qed.

Lemma request_resume_run {T} method endpoint options (net : Exchanges T) m e :
  yield (first net) = Thrown e ->
  request_resume method endpoint options net m
  = if decide (error_status e = Some 401)
    then handleAuthError (makeRequest method endpoint options (retry net))
           endpoint (refresh net) m
    else (Thrown e, m).
Proof.
  intros Hy. unfold request_resume, try_catch, bind, settle, handleResponse.
  destruct (first net) as [[st d|st txt d|st]| |reason]; simpl in *;
    try discriminate Hy; injection Hy as <-; simpl;
    try reflexivity; destruct (decide _); reflexivity.
Qed.

(** X30.  The handlers of the pages that await their requests let no
    failure escape: the interval callback, [createQR], [refreshQR], the
    clean-up and the submit handlers of the sign-in, sign-up and
    one-time-code pages return normally whatever the network answers.  The
    dashboard's logout is the exception.  It starts the logout request and
    drops its promise, and when that request fails the promise is rejected
    with nobody to handle it: with the failure of the request, or, on a 401,
    with the no-refresh-token error of the recovery that finds the
    credentials already removed. *)
Theorem page_handlers_return (m : Machine) :
  (forall h net, eval (QRLogin.fire h net) m = Returned tt)
  /\ (forall pool net, eval (QRLogin.createQR pool net) m = Returned tt)
  /\ (forall pool net, eval (QRLogin.refreshQR pool net) m = Returned tt)
  /\ eval QRLogin.unmount m = Returned tt
  /\ (forall data net, exists r, eval (LoginPage.onSubmit data net) m = Returned r)
  /\ (forall data net, exists r, eval (RegisterPage.onSubmit data net) m = Returned r)
  /\ (forall c i pool net, exists r,
        eval (OTPLoginPage.onSendOTP c i pool net) m = Returned r)
  /\ (forall pool c code net, exists r,
        eval (OTPLoginPage.onVerifyOTP pool c code net) m = Returned r)
  /\ (forall pool c net, exists r, eval (OTPLoginPage.resendOTP pool c net) m = Returned r)
  /\ (forall (net : Exchanges (ApiResponse bool)) e,
        yield (first net) = Thrown e -> error_status e <> Some 401 ->
        eval (AuthService.logout_resume net) (exec Dashboard.handleLogout m) = Thrown e)
  /\ (forall (net : Exchanges (ApiResponse bool)) statusText d,
        first net = Resolved (NotOk 401 statusText d) ->
        eval (AuthService.logout_resume net) (exec Dashboard.handleLogout m)
        = Thrown NoRefreshTokenError).
Proof.
  assert (Hcreate : forall pool net m0, eval (QRLogin.createQR pool net) m0 = Returned tt).
  { intros pool net m0. apply (createQR_cases pool net m0). }
  repeat match goal with |- _ /\ _ => split end.
  - intros h net. unfold eval, QRLogin.fire, bind, get. simpl.
    destruct (intervals m !! h) as [iv|]; [|reflexivity].
    unfold QRLogin.poll, try_catch, bind.
    destruct (AuthService.getQRLoginStatus _ net m) as [[resp|e] m1]; simpl.
    + destruct resp as [c msg [st u tok] ts]; simpl.
      destruct st; simpl; try reflexivity;
        try (destruct tok; simpl; try reflexivity);
        unfold QRLogin.stopPolling, bind, get; simpl;
        destruct (intervalRef (page m1)); reflexivity.
    + unfold QRLogin.stopPolling, bind, get; simpl.
      destruct (intervalRef (page m1)); reflexivity.
  - intros. apply Hcreate.
  - intros pool net. unfold eval, QRLogin.refreshQR, bind.
    pose proof (stopPolling_eval m) as Hs. unfold eval in Hs.
    destruct (QRLogin.stopPolling m) as [[[]|e] m1]; simpl in *; [|discriminate].
    apply Hcreate.
  - apply stopPolling_eval.
  - intros data net. unfold eval, LoginPage.onSubmit, try_catch, bind.
    destruct (AuthStore.login _ _ _ net m) as [[[]|e] m1]; simpl; eauto.
  - intros data net. unfold eval, RegisterPage.onSubmit, try_catch, bind.
    destruct (AuthStore.register _ net m) as [[[]|e] m1]; simpl; eauto.
  - intros c i pool net. unfold eval, OTPLoginPage.onSendOTP, try_catch, bind.
    destruct (OtpService.sendOTP _ net m) as [[r|e] m1]; simpl; eauto.
  - intros pool c code net. unfold eval, OTPLoginPage.onVerifyOTP, try_catch, bind.
    destruct (OtpService.otpLogin _ net m) as [[r|e] m1]; simpl; eauto.
  - intros pool c net. unfold eval, OTPLoginPage.resendOTP, try_catch, bind.
    destruct (OtpService.sendOTP _ net m) as [[r|e] m1]; simpl; eauto.
  - intros net e Hy Hne. unfold eval, AuthService.logout_resume.
    rewrite (request_resume_run _ _ _ net _ e Hy).
    destruct (decide (error_status e = Some 401)); [contradiction|reflexivity].
  - intros net statusText d Hfirst. unfold eval, AuthService.logout_resume.
    rewrite (request_resume_run _ _ _ net _
               (HttpError (error_message d 401 statusText) 401 d))
      by (rewrite Hfirst; reflexivity).
    simpl. rewrite handleAuthError_no_token; [reflexivity|reflexivity|].
    unfold exec, Dashboard.handleLogout, bind. rewrite logout_run. simpl.
    now rewrite lookup_delete_eq.
Qed.

(** X29.  A [confirmed] answer without a token leaves the user without a way
    out: the timer keeps polling, yet the page, showing [confirmed], offers
    no refresh button and no QR code. *)
Theorem confirmed_without_token_no_refresh (h : positive) (iv : Interval)
    (net : Exchanges (ApiResponse QRLoginStatusResponse)) (m : Machine)
    (response : ApiResponse QRLoginStatusResponse) :
  timers_owned m ->
  intervals m !! h = Some iv ->
  eval (AuthService.getQRLoginStatus (iv_sceneId iv) net) m = Returned response ->
  qr_status (data response) = s_confirmed ->
  qr_token (data response) = None ->
  let p := page (exec (QRLogin.fire h net) m) in
  still_polling h iv (exec (QRLogin.fire h net) m)
  /\ QRView.can_refresh p = false
  /\ (forall v, QRView.center p <> QRView.QRCode v)
  /\ QRView.getStatusText p = "登录成功，正在跳转...".
Proof.
  intros Hown Hh Hq Hst Htok p. subst p.
  destruct (poll_cases h iv net m Hown Hh) as [_ Hcases].
  unfold eval in Hq. rewrite Hq in Hcases. cbv zeta in Hcases.
  rewrite Hst, Htok in Hcases. destruct Hcases as (Hshow & Hpoll & _).
  simpl in Hshow.
  destruct (QRView_controls_aux (page (exec (QRLogin.fire h net) m))) as (Hc & Hn).
  split; [exact Hpoll|]. split; [apply Hn; auto|]. split.
  - intros v Hv. destruct (Hc v Hv) as [H|H]; rewrite Hshow in H; discriminate H.
  - unfold QRView.getStatusText. rewrite Hshow. reflexivity.
Qed.

(** ** The further properties at concrete inputs *)

Import Scenario2.

Lemma request_without_401_witness :
  (forall e, yield (first (@just (ApiResponse UserResponse) server_error)) = Thrown e ->
             error_status e <> Some 401)
  /\ request "GET" "/api/v1/users/me" no_options (@just (ApiResponse UserResponse) server_error)
       signed_in
     = (Thrown (HttpError (StatusLine 500 "Internal Server Error") 500 (TextBody "oops")),
        logged (request_in signed_in "GET" "/api/v1/users/me" no_options) signed_in).
Proof.
  assert (H : forall e, yield (first (@just (ApiResponse UserResponse) server_error)) = Thrown e ->
                        error_status e <> Some 401).
  { intros e [= <-]. discriminate. }
  split; [exact H|].
  exact (request_without_401 "GET" "/api/v1/users/me" no_options
           (@just (ApiResponse UserResponse) server_error) signed_in H).
Defined.

Lemma request_401_refresh_failure_witness :
  eval (request "GET" "/api/v1/users/me" no_options (@refresh_refused (ApiResponse UserResponse)))
       signed_in
    = Thrown (HttpError (StatusLine 500 "Internal Server Error") 500 (TextBody "oops"))
  /\ length (network (exec (request "GET" "/api/v1/users/me" no_options
                              (@refresh_refused (ApiResponse UserResponse))) signed_in)) = 2%nat
  /\ credentials_removed
       (exec (request "GET" "/api/v1/users/me" no_options
                (@refresh_refused (ApiResponse UserResponse))) signed_in).
Proof.
  destruct (request_401_refresh_failure "GET" "/api/v1/users/me" no_options
              (@refresh_refused (ApiResponse UserResponse)) signed_in
              "Unauthorized" (JsonBody (Some "invalid credentials") "{code:401}")
              (HttpError (StatusLine 500 "Internal Server Error") 500 (TextBody "oops"))
              eq_refl eq_refl eq_refl eq_refl) as (H1 & H2 & H3 & _).
  split; [exact H1|]. split; [|exact H3]. rewrite H2. reflexivity.
Defined.

Lemma request_401_healed_witness :
  eval (request "GET" "/api/v1/users/me" no_options healed) signed_in = Returned (envelope alice)
  /\ localStorage (exec (request "GET" "/api/v1/users/me" no_options healed) signed_in)
       !! "access_token" = Some "A2"
  /\ localStorage (exec (request "GET" "/api/v1/users/me" no_options healed) signed_in)
       !! "refresh_token" = Some "R2"
  /\ length (network (exec (request "GET" "/api/v1/users/me" no_options healed) signed_in))
     = 3%nat.
Proof.
  destruct (request_401_healed "GET" "/api/v1/users/me" no_options healed signed_in
              "Unauthorized" (JsonBody (Some "invalid credentials") "{code:401}")
              200 (envelope {| new_access_token := "A2"; new_refresh_token := "R2" |})
              200 (envelope alice) eq_refl eq_refl eq_refl eq_refl eq_refl)
    as (H1 & H2 & H3 & _ & H5 & _).
  split; [exact H1|]. split; [exact H2|]. split; [exact H3|]. rewrite H5. reflexivity.
Defined.

Lemma request_sends_at_most_three_witness :
  is_auth_url "/api/v1/users/me" = false
  /\ (refresh_calls (exec (request "GET" "/api/v1/users/me" no_options
                             (@twice_unauthorized (ApiResponse UserResponse))) signed_in)
      <= refresh_calls signed_in + 1)%nat.
Proof.
  split; [reflexivity|].
  destruct (request_sends_at_most_three "GET" "/api/v1/users/me" no_options
              (@twice_unauthorized (ApiResponse UserResponse)) signed_in) as [_ H].
  apply (H eq_refl).
Defined.

Lemma request_keeps_pair_intact_witness :
  pair_intact signed_in
  /\ pair_intact (exec (request "GET" "/api/v1/users/me" no_options healed) signed_in).
Proof.
  assert (H : pair_intact signed_in).
  { unfold pair_intact. split; intros _; eexists; reflexivity. }
  split; [exact H|].
  exact (request_keeps_pair_intact "GET" "/api/v1/users/me" no_options healed signed_in H).
Defined.

Lemma request_never_writes_session_witness :
  accessToken (store signed_in) <> Some "A2"
  /\ store (exec (request "GET" "/api/v1/users/me" no_options healed) signed_in)
     = store signed_in
  /\ ~ in_sync (exec (request "GET" "/api/v1/users/me" no_options healed) signed_in).
Proof.
  assert (H : accessToken (store signed_in) <> Some "A2") by discriminate.
  split; [exact H|].
  destruct (request_never_writes_session "GET" "/api/v1/users/me" no_options healed signed_in)
    as [H1 H2].
  split; [exact H1|].
  exact (H2 "Unauthorized" (JsonBody (Some "invalid credentials") "{code:401}")
            200 (envelope {| new_access_token := "A2"; new_refresh_token := "R2" |})
            200 (envelope alice) eq_refl eq_refl eq_refl eq_refl eq_refl H).
Defined.

Lemma buildUrl_query_witness :
  Forall (fun kv : string * option Scalar => is_Some (snd kv))
    [("user_pool_id", Some (JNum 1)); ("app_id", Some (JStr "default-app"))]
  /\ map (fun kv => (fst kv, Some (snd kv)))
       (query (buildUrl "/api/v1/auth/qr/create"
                 (Some [("user_pool_id", Some (JNum 1)); ("app_id", Some (JStr "default-app"))])))
     = [("user_pool_id", Some (JNum 1)); ("app_id", Some (JStr "default-app"))].
Proof.
  assert (H : Forall (fun kv : string * option Scalar => is_Some (snd kv))
                [("user_pool_id", Some (JNum 1)); ("app_id", Some (JStr "default-app"))]).
  { repeat constructor; eexists; reflexivity. }
  split; [exact H|].
  destruct (buildUrl_query "/api/v1/auth/qr/create"
              [("user_pool_id", Some (JNum 1)); ("app_id", Some (JStr "default-app"))])
    as (_ & _ & _ & _ & Hall).
  exact (Hall H).
Defined.

Lemma is_auth_url_substring_witness :
  is_auth_url "/api/v1/auth/qr/x/auth/login/status" = true.
Proof.
  apply (proj2 (is_auth_url_substring "/api/v1/auth/qr/x/auth/login/status")).
  exists "/api/v1/auth/qr/x", "/status". left. reflexivity.
Defined.

Lemma successful_sign_in_adopts_witness :
  eval (AuthService.login credentials (just (ok (tokens "A1" "R1"))))
       (exec (AuthStore.set_isLoading true) fresh) = Returned (envelope (tokens "A1" "R1"))
  /\ store (exec (AuthStore.login "alice" "secret1" 1 (just (ok (tokens "A1" "R1")))) fresh)
     = {| user := Some alice; accessToken := Some "A1"; refreshToken := Some "R1";
          isAuthenticated := true; isLoading := false |}
  /\ in_sync (exec (AuthStore.login "alice" "secret1" 1 (just (ok (tokens "A1" "R1")))) fresh)
  /\ store (exec (AuthStore.register profile (just (ok (tokens "A1" "R1")))) fresh)
     = {| user := Some alice; accessToken := Some "A1"; refreshToken := Some "R1";
          isAuthenticated := true; isLoading := false |}.
Proof.
  split; [reflexivity|].
  destruct (successful_sign_in_adopts fresh) as [Hin Hup].
  destruct (Hin "alice" "secret1" 1 (just (ok (tokens "A1" "R1")))
              (envelope (tokens "A1" "R1")) eq_refl) as (_ & H1 & H2).
  destruct (Hup profile (just (ok (tokens "A1" "R1")))
              (envelope (tokens "A1" "R1")) eq_refl) as (_ & H3 & _).
  split; [exact H1|]. split; [exact H2|exact H3].
Defined.

Lemma refreshUserInfo_replaces_identity_witness :
  eval (AuthService.getCurrentUser (just (ok alice))) fresh = Returned (envelope alice)
  /\ store (exec (AuthStore.refreshUserInfo (just (ok alice))) fresh)
     = {| user := Some alice; accessToken := None; refreshToken := None;
          isAuthenticated := false; isLoading := false |}.
Proof.
  split; [reflexivity|].
  destruct (refreshUserInfo_replaces_identity (just (ok alice)) fresh) as [_ H].
  exact (H (envelope alice) eq_refl).
Defined.

Lemma clearAuth_setTokens_logout_witness :
  localStorage signed_in !! "access_token" = Some "A1"
  /\ headers (request_in signed_in "POST" "/api/v1/auth/logout" no_options) !! "Authorization"
     = Some "Bearer A1".
Proof.
  split; [reflexivity|].
  destruct (clearAuth_setTokens_logout signed_in) as (_ & _ & _ & H).
  apply (H "A1" eq_refl). discriminate.
Defined.

Lemma LoginPage_onSubmit_outcome_witness :
  eval (AuthStore.login "alice" "secret1" 1 (just (ok (tokens "A1" "R1")))) fresh = Returned tt
  /\ eval (LoginPage.onSubmit sign_in_form (just (ok (tokens "A1" "R1")))) fresh = Returned None
  /\ navigation (exec (LoginPage.onSubmit sign_in_form (just (ok (tokens "A1" "R1")))) fresh)
     = ["/dashboard"]
  /\ eval (AuthStore.login "alice" "secret1" 1 (just locked)) fresh
     = Thrown (HttpError (ServerMessage "account locked") 423
                 (JsonBody (Some "account locked") "{code:423}"))
  /\ eval (LoginPage.onSubmit sign_in_form (just locked)) fresh = Returned (Some "account locked")
  /\ navigation (exec (LoginPage.onSubmit sign_in_form (just locked)) fresh) = [].
Proof.
  split; [reflexivity|].
  destruct (LoginPage_onSubmit_outcome sign_in_form (just (ok (tokens "A1" "R1"))) fresh)
    as [Hok _].
  destruct (Hok eq_refl) as (H1 & H2 & _).
  split; [exact H1|]. split; [exact H2|]. split; [reflexivity|].
  destruct (LoginPage_onSubmit_outcome sign_in_form (just locked) fresh) as [_ Hfail].
  destruct (Hfail _ eq_refl) as (H3 & H4 & _).
  split; [exact H3|exact H4].
Defined.

Lemma LoginPage_message_witness :
  first (@just (ApiResponse TokenResponse) unauthorized)
    = Resolved (NotOk 401 "Unauthorized" (JsonBody (Some "invalid credentials") "{code:401}"))
  /\ eval (LoginPage.onSubmit sign_in_form (just unauthorized)) signed_in
     = Returned (Some LoginPage.fallback)
  /\ eval (LoginPage.onSubmit sign_in_form (just locked)) signed_in
     = Returned (Some "account locked")
  /\ eval (LoginPage.onSubmit sign_in_form (just TimedOut)) signed_in
     = Returned (Some LoginPage.fallback).
Proof.
  split; [reflexivity|].
  split; [|split].
  - destruct (LoginPage_message sign_in_form (just unauthorized) signed_in) as (H & _ & _).
    exact (H _ _ eq_refl).
  - destruct (LoginPage_message sign_in_form (just locked) signed_in) as (_ & H & _).
    apply (H 423 "Locked" "account locked" "{code:423}" eq_refl); discriminate.
  - destruct (LoginPage_message sign_in_form (just TimedOut) signed_in) as (_ & _ & H).
    apply H. left. reflexivity.
Defined.

Lemma RegisterPage_body_witness :
  exists (obj : Obj) (rest : list Request),
    network (exec (RegisterPage.onSubmit sign_up_form (just (ok (tokens "A1" "R1")))) fresh)
    = request_in fresh "POST" "/api/v1/auth/register"
        {| opt_data := Some obj; opt_params := None; opt_headers := None |} :: rest
    /\ ("email", JStr "alice@example.com") ∈ obj
    /\ ~ ("phone", JStr "") ∈ obj.
Proof.
  destruct (RegisterPage_body sign_up_form (just (ok (tokens "A1" "R1"))) fresh)
    as (obj & rest & Hlog & Hemail & Hphone & _).
  exists obj, rest. split; [exact Hlog|]. split.
  - apply Hemail. split; [reflexivity|discriminate].
  - intros H. apply Hphone in H. destruct H as [_ H]. apply H. reflexivity.
Defined.

Lemma onSendOTP_outcome_witness :
  eval (OtpService.sendOTP
          {| OtpService.so_identifier := "alice"; OtpService.so_type := OtpService.otp_login;
             OtpService.so_user_pool_id := 1 |} (just (ok true))) fresh
    = Returned (envelope true)
  /\ eval (OTPLoginPage.onSendOTP OTPLoginPage.initial "alice" 1 (just (ok true))) fresh
     = Returned (code_sent, None)
  /\ eval (OTPLoginPage.onSendOTP OTPLoginPage.initial "alice" 1 (just locked)) fresh
     = Returned (OTPLoginPage.initial, Some "account locked").
Proof.
  split; [reflexivity|].
  destruct (onSendOTP_outcome OTPLoginPage.initial "alice" 1 (just (ok true)) fresh)
    as (Hok & _ & _).
  split; [exact (Hok _ eq_refl)|].
  destruct (onSendOTP_outcome OTPLoginPage.initial "alice" 1 (just locked) fresh)
    as (_ & Hfail & _).
  exact (Hfail _ eq_refl).
Defined.

Lemma onVerifyOTP_outcome_witness :
  eval (OtpService.otpLogin
          {| OtpService.ol_identifier := "alice"; OtpService.ol_code := "123456";
             OtpService.ol_type := OtpService.otp_login; OtpService.ol_user_pool_id := 1 |}
          (just (ok (tokens "A3" "R3")))) fresh
    = Returned (envelope (tokens "A3" "R3"))
  /\ store (exec (OTPLoginPage.onVerifyOTP 1 code_sent "123456" (just (ok (tokens "A3" "R3"))))
              fresh)
     = {| user := Some alice; accessToken := Some "A3"; refreshToken := Some "R3";
          isAuthenticated := true; isLoading := false |}
  /\ navigation (exec (OTPLoginPage.onVerifyOTP 1 code_sent "123456"
                         (just (ok (tokens "A3" "R3")))) fresh) = ["/dashboard"]
  /\ store (exec (OTPLoginPage.onVerifyOTP 1 code_sent "000000" (just locked)) fresh)
     = AuthStore.anonymous.
Proof.
  split; [reflexivity|].
  destruct (onVerifyOTP_outcome 1 code_sent "123456" (just (ok (tokens "A3" "R3"))) fresh)
    as [Hok _].
  destruct (Hok _ eq_refl) as (_ & H1 & _ & H2).
  split; [exact H1|]. split; [exact H2|].
  destruct (onVerifyOTP_outcome 1 code_sent "000000" (just locked) fresh) as [_ Hfail].
  destruct (Hfail _ eq_refl) as (_ & H3 & _). exact H3.
Defined.

Lemma countdown_runs_down_witness :
  0 <= OTPLoginPage.countdown code_sent
  /\ OTPLoginPage.countdown (OTPLoginPage.seconds_pass 45 code_sent) = 15
  /\ OTPLoginPage.resend_disabled (OTPLoginPage.seconds_pass 59 code_sent) = true
  /\ OTPLoginPage.resend_disabled (OTPLoginPage.seconds_pass 60 code_sent) <> true.
Proof.
  assert (H : 0 <= OTPLoginPage.countdown code_sent) by (simpl; lia).
  split; [exact H|].
  destruct (countdown_runs_down 45 code_sent H) as (H45 & _).
  destruct (countdown_runs_down 59 code_sent H) as (_ & _ & _ & _ & H59).
  destruct (countdown_runs_down 60 code_sent H) as (_ & _ & _ & _ & H60).
  split; [rewrite H45; reflexivity|]. split.
  - apply (H59 eq_refl). simpl. lia.
  - intros Hd. apply (H60 eq_refl) in Hd. simpl in Hd. lia.
Defined.

Lemma ProtectedRoute_follows_store_witness :
  eval (AuthService.getCurrentUser (just server_error)) signed_in
    = Thrown (HttpError (StatusLine 500 "Internal Server Error") 500 (TextBody "oops"))
  /\ Dashboard.ProtectedRoute "/dashboard"
       (exec (AuthStore.refreshUserInfo (just server_error)) signed_in)
     = Dashboard.Navigate "/auth/login" "/dashboard"
  /\ Dashboard.ProtectedRoute "/dashboard"
       (exec (request "GET" "/api/v1/users/me" no_options
                (@refresh_refused (ApiResponse UserResponse))) signed_in)
     = Dashboard.Children.
Proof.
  split; [reflexivity|].
  destruct (ProtectedRoute_follows_store "/dashboard" signed_in) as (_ & _ & H1 & _ & H2).
  split; [exact (H1 (just server_error) _ eq_refl)|].
  rewrite H2. reflexivity.
Defined.

Lemma header_name_not_empty_witness :
  Some alice ≫= nickname = None
  /\ Some alice ≫= username = Some "alice"
  /\ Dashboard.header_name (Some alice) = "alice".
Proof.
  split; [reflexivity|]. split; [reflexivity|].
  destruct (header_name_not_empty (Some alice)) as (_ & _ & H).
  apply (H eq_refl "alice" eq_refl). discriminate.
Defined.

Lemma createQR_outcome_witness :
  eval (AuthService.createQRLogin 1 QRLogin.appId (just (ok ceremony)))
       (exec (QRLogin.setIsCreating true) fresh) = Returned (envelope ceremony)
  /\ status (page polling) = pending
  /\ qrData (page polling) = Some ceremony
  /\ still_polling 1 polling_S1 polling
  /\ status (page (exec (QRLogin.createQR 1 (just locked)) fresh)) = expired
  /\ intervals (exec (QRLogin.createQR 1 (just locked)) fresh) = ∅.
Proof.
  split; [reflexivity|].
  destruct (createQR_outcome 1 (just (ok ceremony)) fresh) as (_ & _ & Hok & _).
  destruct (Hok _ eq_refl) as (H1 & H2 & H3).
  split; [exact H1|]. split; [exact H2|]. split; [exact H3|].
  destruct (createQR_outcome 1 (just locked) fresh) as (_ & _ & _ & Hfail).
  destruct (Hfail _ eq_refl) as (H4 & _ & H5 & _).
  split; [exact H4|exact H5].
Defined.

Lemma refreshQR_outcome_witness :
  timers_owned polling
  /\ intervals (exec (QRLogin.refreshQR 1 (just (ok second_ceremony))) polling)
     = {[ 2%positive := {| iv_sceneId := "S2"; iv_delay := 2000 |} ]}
  /\ polling_stopped (exec (QRLogin.refreshQR 1 (just locked)) polling).
Proof.
  split; [exact polling_owned|].
  destruct (refreshQR_outcome 1 (just (ok second_ceremony)) polling polling_owned)
    as (_ & Hok & _).
  destruct (Hok _ eq_refl) as (H1 & _).
  split; [exact H1|].
  destruct (refreshQR_outcome 1 (just locked) polling polling_owned) as (_ & _ & Hfail).
  destruct (Hfail _ eq_refl) as (H2 & _). exact H2.
Defined.

Lemma page_owns_its_timer_witness :
  timers_owned polling
  /\ timers_owned (exec (QRLogin.refreshQR 1 (just (ok second_ceremony))) polling)
  /\ timers_owned created_after_discard.
Proof.
  split; [exact polling_owned|].
  destruct (page_owns_its_timer polling polling_owned) as (_ & H & _).
  split; [apply H|].
  assert (Hd : timers_owned discarded_while_creating).
  { intros h [iv Hh]. vm_compute in Hh. discriminate Hh. }
  destruct (page_owns_its_timer discarded_while_creating Hd) as (_ & _ & _ & _ & _ & H' & _).
  apply H'.
Defined.

Lemma QRView_controls_witness :
  QRView.center (page polling) = QRView.QRCode "authing://qr/S1"
  /\ QRView.overlay (page polling) = false
  /\ QRView.can_refresh (page polling) = true
  /\ QRView.can_refresh (page after_three_polls) = false.
Proof.
  split; [reflexivity|].
  destruct (QRView_controls (page polling)) as (H1 & H2 & _).
  destruct (H1 _ eq_refl) as (_ & Ho & _).
  split; [exact Ho|]. split.
  - apply H2. split; [reflexivity|]. left. reflexivity.
  - destruct (QRView_controls (page after_three_polls)) as (_ & _ & H3).
    apply H3. right. reflexivity.
Defined.

Lemma confirmed_without_token_no_refresh_witness :
  timers_owned polling
  /\ intervals polling !! 1%positive = Some polling_S1
  /\ still_polling 1 polling_S1
       (exec (QRLogin.fire 1 (reports s_confirmed (Some alice) None)) polling)
  /\ QRView.can_refresh
       (page (exec (QRLogin.fire 1 (reports s_confirmed (Some alice) None)) polling)) = false.
Proof.
  split; [exact polling_owned|]. split; [reflexivity|].
  destruct (confirmed_without_token_no_refresh 1 polling_S1
              (reports s_confirmed (Some alice) None) polling
              (envelope {| qr_status := s_confirmed; qr_user := Some alice; qr_token := None |})
              polling_owned eq_refl eq_refl eq_refl eq_refl) as (H1 & H2 & _).
  split; [exact H1|exact H2].
Defined.

Lemma page_handlers_return_witness :
  yield (first (@just (ApiResponse bool) server_error))
    = Thrown (HttpError (StatusLine 500 "Internal Server Error") 500 (TextBody "oops"))
  /\ eval (AuthService.logout_resume (just server_error)) (exec Dashboard.handleLogout signed_in)
     = Thrown (HttpError (StatusLine 500 "Internal Server Error") 500 (TextBody "oops"))
  /\ eval (AuthService.logout_resume (just unauthorized)) (exec Dashboard.handleLogout signed_in)
     = Thrown NoRefreshTokenError
  /\ eval (QRLogin.fire 1 (just server_error)) polling = Returned tt.
Proof.
  split; [reflexivity|].
  destruct (page_handlers_return signed_in) as (_ & _ & _ & _ & _ & _ & _ & _ & _ & H1 & H2).
  split; [apply (H1 (just server_error) _ eq_refl); discriminate|].
  split; [apply (H2 (just unauthorized) _ _ eq_refl)|].
  destruct (page_handlers_return polling) as (H & _). apply H.
Defined.
